(** * The JSON-to-SQL loader of the MLB data pipeline

    A shallow embedding of [src/database/json_to_sql_loader.py] (class
    [JSONToSQLLoader]) and of the parts of [src/database/connection.py] it
    runs on: the Python values the loader walks through, the five tables
    of [create_tables], the SQL statements the loader sends, and the
    loaders themselves as state-and-exception passing functions. *)

From Stdlib Require Import String Ascii ZArith List Bool Lia DecimalString.
Import ListNotations.

#[local] Set Warnings "-register-all".

Local Open Scope string_scope.
Local Open Scope Z_scope.

(** ** Python values *)

(** A calendar date (year, month, day) and a [datetime] (a date and the
    seconds into that day). *)
Definition date : Type := Z * Z * Z.
Definition datetime : Type := date * Z.

Definition datetime_date (t : datetime) : date := fst t.

(** What [json.load] produces ([None], [bool], [int], [str], [list],
    [dict]), plus the [datetime.date] objects the loader builds itself.
    A [dict] keeps its items in insertion order, as Python does, and
    its keys are distinct (of a list that repeats a key, [get] reads the
    first entry); floats do not occur in the fields the loader reads
    and are left out. *)
Inductive value : Type :=
| PNone
| PBool (b : bool)
| PInt (n : Z)
| PStr (s : string)
| PList (l : list value)
| PDict (items : list (string * value))
| PDate (d : date).

(** Python truthiness, as used by [if x:], [x or y] and [not x]. *)
Definition truthy (v : value) : bool :=
  match v with
  | PNone => false
  | PBool b => b
  | PInt n => negb (n =? 0)
  | PStr s => negb (s =? EmptyString)%string
  | PList l => match l with [] => false | _ => true end
  | PDict items => match items with [] => false | _ => true end
  | PDate _ => true
  end.

(** [x or y] *)
Definition py_or (x y : value) : value := if truthy x then x else y.

(** [isinstance(v, dict)] *)
Definition is_dict (v : value) : bool :=
  match v with PDict _ => true | _ => false end.

(** ** Exceptions *)

Inductive exn : Type :=
| AttributeError   (* [.get] / [.items] / [.replace] on a value without it *)
| TypeError        (* iterating or measuring a value that is no container *)
| ValueError       (* [datetime.strptime] on a malformed string *)
| DataError        (* a parameter the column's type cannot take *)
| IntegrityError   (* primary-key or foreign-key violation *)
| UnboundLocalError. (* a local name read before it is bound *)

Inductive result (A : Type) : Type :=
| Ok (a : A)
| Raise (e : exn).
Arguments Ok {A} a.
Arguments Raise {A} e.

Definition is_ok {A} (r : result A) : bool :=
  match r with Ok _ => true | Raise _ => false end.

(** Computations that only read Python values: they return or raise. *)
Definition rbind {A B} (r : result A) (k : A -> result B) : result B :=
  match r with Ok a => k a | Raise e => Raise e end.

(** Computations that also change a state [S] (the database, or the
    connection): on an exception the state reached so far is kept, which
    is what a Python [except] clause finds. *)
Definition M (S A : Type) : Type := S -> result A * S.

Definition ret {S A} (a : A) : M S A := fun s => (Ok a, s).
Definition raise {S A} (e : exn) : M S A := fun s => (Raise e, s).
Definition bind {S A B} (m : M S A) (k : A -> M S B) : M S B :=
  fun s => match m s with
           | (Ok a, s') => k a s'
           | (Raise e, s') => (Raise e, s')
           end.
Definition lift {S A} (r : result A) : M S A := fun s => (r, s).
Definition get {S} : M S S := fun s => (Ok s, s).
Definition put {S} (s : S) : M S unit := fun _ => (Ok tt, s).

(** [try: body except Exception as e: handler e] *)
Definition try_except {S A} (body : M S A) (handler : exn -> M S A) : M S A :=
  fun s => match body s with
           | (Ok a, s') => (Ok a, s')
           | (Raise e, s') => handler e s'
           end.

(** [if c: body] *)
Definition when {S} (c : bool) (body : M S unit) : M S unit :=
  if c then body else ret tt.

Declare Scope loader_scope.
Delimit Scope loader_scope with loader.
Notation "x <- m ;; k" := (bind m (fun x => k))
  (at level 61, m at next level, right associativity) : loader_scope.
Notation "m ;; k" := (bind m (fun _ => k))
  (at level 61, right associativity) : loader_scope.
Notation "x <~ r ;; k" := (rbind r (fun x => k))
  (at level 61, r at next level, right associativity) : loader_scope.
Local Open Scope loader_scope.

(** ** Dictionaries and strings *)

Fixpoint assoc (k : string) (items : list (string * value)) : option value :=
  match items with
  | [] => None
  | (k', v) :: rest => if (k =? k')%string then Some v else assoc k rest
  end.

(** [d.get(k, dflt)]: the stored value when the key is present (also
    when that value is [None]), the default otherwise; a value that is
    no dict has no [get]. *)
Definition dict_get (d : value) (k : string) (dflt : value) : result value :=
  match d with
  | PDict items =>
      Ok (match assoc k items with Some v => v | None => dflt end)
  | _ => Raise AttributeError
  end.

(** [d.get(k)] *)
Definition dict_get1 (d : value) (k : string) : result value :=
  dict_get d k PNone.

(** [d.items()] *)
Definition dict_items (d : value) : result (list (string * value)) :=
  match d with
  | PDict items => Ok items
  | _ => Raise AttributeError
  end.

(** [s.startswith(p)] *)
Definition startswith (s p : string) : bool := String.prefix p s.

(** [p in s] for strings: [p] occurs in [s]. *)
Fixpoint contains (s p : string) : bool :=
  String.prefix p s ||
  match s with
  | EmptyString => false
  | String _ rest => contains rest p
  end.

(** ** The tables

    The columns of [DatabaseConnection.create_tables].  A column holds
    [None] for SQL NULL.  The server-side columns the loader never
    writes ([created_at], and the [IDENTITY] keys of [boxscore] and
    [raw_json_data]) are left out; rows are kept in insertion order. *)

Module Team.
Record row : Type := {
    team_id : option Z;            (* INT PRIMARY KEY *)
    team_name : option string;
    abbreviation : option string;
    league : option string;
    division : option string
}.
End Team.

Module Player.
Record row : Type := {
    player_id : option Z;          (* INT PRIMARY KEY *)
    player_name : option string;
    team_id : option Z;            (* REFERENCES teams *)
    position : option string
}.
End Player.

Module Game.
Record row : Type := {
    game_id : option Z;            (* INT PRIMARY KEY *)
    game_date : option date;
    home_team_id : option Z;       (* REFERENCES teams *)
    away_team_id : option Z;       (* REFERENCES teams *)
    home_score : option Z;
    away_score : option Z;
    inning : option Z;
    inning_state : option string;
    game_status : option string;
    game_type : option string;
    series_description : option string;
    official_date : option date
}.
End Game.

Module Boxscore.
Record row : Type := {
    game_id : option Z;            (* REFERENCES games *)
    player_id : option Z;          (* REFERENCES players *)
    team_id : option Z;            (* REFERENCES teams *)
    at_bats : option Z;
    runs : option Z;
    hits : option Z;
    doubles : option Z;
    triples : option Z;
    home_runs : option Z;
    rbi : option Z;
    walks : option Z;
    strikeouts : option Z
}.
End Boxscore.

Module RawJson.
Record row : Type := {
    game_id : option Z;
    data_type : option string;
    json_data : value;             (* the payload that [json.dumps] wrote *)
    extraction_timestamp : datetime
}.
End RawJson.

Record database : Type := {
  teams : list Team.row;
  players : list Player.row;
  games : list Game.row;
  boxscore : list Boxscore.row;
  raw_json_data : list RawJson.row
}.

Definition empty_database : database :=
  {| teams := []; players := []; games := []; boxscore := [];
     raw_json_data := [] |}.

Definition set_teams (db : database) (l : list Team.row) : database :=
  {| teams := l; players := players db; games := games db;
     boxscore := boxscore db; raw_json_data := raw_json_data db |}.
Definition set_players (db : database) (l : list Player.row) : database :=
  {| teams := teams db; players := l; games := games db;
     boxscore := boxscore db; raw_json_data := raw_json_data db |}.
Definition set_games (db : database) (l : list Game.row) : database :=
  {| teams := teams db; players := players db; games := l;
     boxscore := boxscore db; raw_json_data := raw_json_data db |}.
Definition set_boxscore (db : database) (l : list Boxscore.row) : database :=
  {| teams := teams db; players := players db; games := games db;
     boxscore := l; raw_json_data := raw_json_data db |}.
Definition set_raw_json_data (db : database) (l : list RawJson.row)
  : database :=
  {| teams := teams db; players := players db; games := games db;
     boxscore := boxscore db; raw_json_data := l |}.

(** [column = :param] in a WHERE clause: never true when either side is
    NULL. *)
Definition sql_eq (column param : option Z) : bool :=
  match column, param with
  | Some a, Some b => a =? b
  | _, _ => false
  end.

(** A foreign key is satisfied by NULL or by a key of the referenced
    table. *)
Definition fk_ok (ref : option Z) (keys : list (option Z)) : bool :=
  match ref with
  | None => true
  | Some _ => existsb (fun k => sql_eq k ref) keys
  end.

Definition team_exists (db : database) (id : option Z) : bool :=
  existsb (fun r => sql_eq (Team.team_id r) id) (teams db).
Definition player_exists (db : database) (id : option Z) : bool :=
  existsb (fun r => sql_eq (Player.player_id r) id) (players db).
Definition game_exists (db : database) (id : option Z) : bool :=
  existsb (fun r => sql_eq (Game.game_id r) id) (games db).
Definition boxscore_exists (db : database) (gid pid : option Z) : bool :=
  existsb (fun r => sql_eq (Boxscore.game_id r) gid &&
                    sql_eq (Boxscore.player_id r) pid) (boxscore db).

Definition fk_team (db : database) (ref : option Z) : bool :=
  fk_ok ref (map Team.team_id (teams db)).
Definition fk_player (db : database) (ref : option Z) : bool :=
  fk_ok ref (map Player.player_id (players db)).
Definition fk_game (db : database) (ref : option Z) : bool :=
  fk_ok ref (map Game.game_id (games db)).

(** ** Statement parameters

    [execute_query(query, params)] sends the [params] dict along with
    the statement text.  A parameter reaches the column it is written
    to, or compared with, in that column's type: an [INT] column takes
    [None], an [int] or a [bool]; an [NVARCHAR] column takes [None] or a
    [str]; a [DATE] column takes [None], a [date], or a [str] the server
    can read as a date.  The model goes no further into the server's
    conversions: a statement given any other value (a [dict], or a
    string of digits for an [INT] column) is taken to fail.  Of the
    server's checks the model has the primary and foreign keys declared
    in [create_tables]; column widths and the range of [INT] are not
    modelled. *)

Definition params : Type := list (string * value).

Definition param (ps : params) (name : string) : result value :=
  match assoc name ps with
  | Some v => Ok v
  | None => Raise DataError
  end.

Definition as_int (v : value) : result (option Z) :=
  match v with
  | PNone => Ok None
  | PInt n => Ok (Some n)
  | PBool b => Ok (Some (if b then 1 else 0))
  | _ => Raise DataError
  end.

Definition as_str (v : value) : result (option string) :=
  match v with
  | PNone => Ok None
  | PStr s => Ok (Some s)
  | _ => Raise DataError
  end.

Definition int_param (ps : params) (name : string) : result (option Z) :=
  v <~ param ps name ;; as_int v.
Definition str_param (ps : params) (name : string)
  : result (option string) :=
  v <~ param ps name ;; as_str v.

(** ** Reading canonical dates

    Readers for the spelling the pipeline itself writes, [YYYY-MM-DD]
    (for [fromisoformat], followed by anything), used whenever the
    loader is run on a concrete payload. *)

Definition digit (c : ascii) : option Z :=
  let n := Z.of_nat (nat_of_ascii c) in
  if (48 <=? n) && (n <=? 57) then Some (n - 48) else None.

Definition two_digits (a b : ascii) : option Z :=
  match digit a, digit b with
  | Some x, Some y => Some (10 * x + y)
  | _, _ => None
  end.

Definition ymd_prefix (s : string) : option (date * string) :=
  match s with
  | String y1 (String y2 (String y3 (String y4 (String sep1
      (String m1 (String m2 (String sep2 (String d1 (String d2 rest)))))))))
    =>
      match two_digits y1 y2, two_digits y3 y4, two_digits m1 m2,
            two_digits d1 d2 with
      | Some yh, Some yl, Some m, Some d =>
          if (Ascii.eqb sep1 "-" && Ascii.eqb sep2 "-" &&
              (1 <=? m) && (m <=? 12) && (1 <=? d) && (d <=? 31))%bool
          then Some ((100 * yh + yl, m, d), rest)
          else None
      | _, _, _, _ => None
      end
  | _ => None
  end.

Definition ymd_exact (s : string) : option date :=
  match ymd_prefix s with
  | Some (d, EmptyString) => Some d
  | _ => None
  end.

Definition ymd_leading (s : string) : option date :=
  match ymd_prefix s with
  | Some (d, _) => Some d
  | None => None
  end.

Section Loader.

(** The date readers the loader and the server rely on, each returning
    [None] where the original raises:
    [datetime.strptime(s, '%Y-%m-%d').date()],
    [datetime.fromisoformat(s.replace('Z', '+00:00')).date()], and the
    server's conversion of a string written to a [DATE] column. *)
Variable strptime_date : string -> option date.
Variable fromisoformat_date : string -> option date.
Variable sql_date : string -> option date.

Definition as_date (v : value) : result (option date) :=
  match v with
  | PNone => Ok None
  | PDate d => Ok (Some d)
  | PStr s => match sql_date s with
              | Some d => Ok (Some d)
              | None => Raise DataError
              end
  | _ => Raise DataError
  end.

Definition date_param (ps : params) (name : string)
  : result (option date) :=
  v <~ param ps name ;; as_date v.

(** ** The statements *)

(** [INSERT INTO raw_json_data (game_id, data_type, json_data,
    extraction_timestamp) VALUES (...)] *)
Definition raw_json_of_params (ps : params) (json_data : value)
    (timestamp : datetime) : result RawJson.row :=
  game_id <~ int_param ps "game_id" ;;
  data_type <~ str_param ps "data_type" ;;
  Ok {| RawJson.game_id := game_id; RawJson.data_type := data_type;
        RawJson.json_data := json_data;
        RawJson.extraction_timestamp := timestamp |}.

Definition query_insert_raw_json (ps : params) (json_data : value)
    (timestamp : datetime) : M database unit :=
  row <- lift (raw_json_of_params ps json_data timestamp) ;;
  db <- get ;;
  put (set_raw_json_data db (raw_json_data db ++ [row])).

(** [IF NOT EXISTS (SELECT 1 FROM teams WHERE team_id = :team_id)
    INSERT INTO teams (...) VALUES (...)] *)
Definition team_of_params (ps : params) : result Team.row :=
  team_id <~ int_param ps "team_id" ;;
  team_name <~ str_param ps "team_name" ;;
  abbreviation <~ str_param ps "abbreviation" ;;
  league <~ str_param ps "league" ;;
  division <~ str_param ps "division" ;;
  Ok {| Team.team_id := team_id; Team.team_name := team_name;
        Team.abbreviation := abbreviation; Team.league := league;
        Team.division := division |}.

Definition query_insert_team (ps : params) : M database unit :=
  row <- lift (team_of_params ps) ;;
  db <- get ;;
  if team_exists db (Team.team_id row) then ret tt
  else match Team.team_id row with
       | None => raise IntegrityError
       | Some _ => put (set_teams db (teams db ++ [row]))
       end.

(** [IF NOT EXISTS (SELECT 1 FROM players WHERE player_id = :player_id)
    INSERT INTO players (...) VALUES (...)] *)
Definition player_of_params (ps : params) : result Player.row :=
  player_id <~ int_param ps "player_id" ;;
  player_name <~ str_param ps "player_name" ;;
  team_id <~ int_param ps "team_id" ;;
  position <~ str_param ps "position" ;;
  Ok {| Player.player_id := player_id; Player.player_name := player_name;
        Player.team_id := team_id; Player.position := position |}.

Definition query_insert_player (ps : params) : M database unit :=
  row <- lift (player_of_params ps) ;;
  db <- get ;;
  if player_exists db (Player.player_id row) then ret tt
  else match Player.player_id row with
       | None => raise IntegrityError
       | Some _ =>
           if fk_team db (Player.team_id row)
           then put (set_players db (players db ++ [row]))
           else raise IntegrityError
       end.

(** The twelve parameters of the three [games] statements. *)
Definition game_of_params (ps : params) : result Game.row :=
  game_id <~ int_param ps "game_id" ;;
  game_date <~ date_param ps "game_date" ;;
  home_team_id <~ int_param ps "home_team_id" ;;
  away_team_id <~ int_param ps "away_team_id" ;;
  home_score <~ int_param ps "home_score" ;;
  away_score <~ int_param ps "away_score" ;;
  inning <~ int_param ps "inning" ;;
  inning_state <~ str_param ps "inning_state" ;;
  game_status <~ str_param ps "game_status" ;;
  game_type <~ str_param ps "game_type" ;;
  series_description <~ str_param ps "series_description" ;;
  official_date <~ date_param ps "official_date" ;;
  Ok {| Game.game_id := game_id; Game.game_date := game_date;
        Game.home_team_id := home_team_id;
        Game.away_team_id := away_team_id;
        Game.home_score := home_score; Game.away_score := away_score;
        Game.inning := inning; Game.inning_state := inning_state;
        Game.game_status := game_status; Game.game_type := game_type;
        Game.series_description := series_description;
        Game.official_date := official_date |}.

(** [INSERT INTO games (... all twelve columns ...) VALUES (...)] *)
Definition insert_game (new : Game.row) : M database unit :=
  db <- get ;;
  match Game.game_id new with
  | None => raise IntegrityError
  | Some _ =>
      if fk_team db (Game.home_team_id new) &&
         fk_team db (Game.away_team_id new)
      then put (set_games db (games db ++ [new]))
      else raise IntegrityError
  end.

(** [UPDATE games SET game_date = ..., home_score = ..., away_score =
    ..., inning = ..., inning_state = ..., game_status = ..., game_type
    = ..., series_description = ..., official_date = ...
    WHERE game_id = :game_id]: the SET list of [_insert_game] and of
    [_insert_game_from_schedule]. *)
Definition set_scores_and_metadata (new old : Game.row) : Game.row :=
  {| Game.game_id := Game.game_id old;
     Game.game_date := Game.game_date new;
     Game.home_team_id := Game.home_team_id old;
     Game.away_team_id := Game.away_team_id old;
     Game.home_score := Game.home_score new;
     Game.away_score := Game.away_score new;
     Game.inning := Game.inning new;
     Game.inning_state := Game.inning_state new;
     Game.game_status := Game.game_status new;
     Game.game_type := Game.game_type new;
     Game.series_description := Game.series_description new;
     Game.official_date := Game.official_date new |}.

(** The SET list of [_insert_scheduled_game], which also names
    [home_team_id] and [away_team_id]. *)
Definition set_all_but_key (new old : Game.row) : Game.row :=
  {| Game.game_id := Game.game_id old;
     Game.game_date := Game.game_date new;
     Game.home_team_id := Game.home_team_id new;
     Game.away_team_id := Game.away_team_id new;
     Game.home_score := Game.home_score new;
     Game.away_score := Game.away_score new;
     Game.inning := Game.inning new;
     Game.inning_state := Game.inning_state new;
     Game.game_status := Game.game_status new;
     Game.game_type := Game.game_type new;
     Game.series_description := Game.series_description new;
     Game.official_date := Game.official_date new |}.

Definition update_where_game_id (set : Game.row -> Game.row)
    (id : option Z) (rows : list Game.row) : list Game.row :=
  map (fun old => if sql_eq (Game.game_id old) id then set old else old)
      rows.

(** [IF NOT EXISTS (SELECT 1 FROM games WHERE game_id = :game_id)
    INSERT ... ELSE UPDATE games SET ... WHERE game_id = :game_id], as
    sent by [_insert_game] and [_insert_game_from_schedule]. *)
Definition query_upsert_game (ps : params) : M database unit :=
  new <- lift (game_of_params ps) ;;
  db <- get ;;
  if game_exists db (Game.game_id new)
  then put (set_games db
              (update_where_game_id (set_scores_and_metadata new)
                 (Game.game_id new) (games db)))
  else insert_game new.

(** The same statement with the longer SET list, as sent by
    [_insert_scheduled_game]. *)
Definition query_upsert_scheduled_game (ps : params) : M database unit :=
  new <- lift (game_of_params ps) ;;
  db <- get ;;
  if game_exists db (Game.game_id new)
  then if fk_team db (Game.home_team_id new) &&
          fk_team db (Game.away_team_id new)
       then put (set_games db
                   (update_where_game_id (set_all_but_key new)
                      (Game.game_id new) (games db)))
       else raise IntegrityError
  else insert_game new.

(** [IF NOT EXISTS (SELECT 1 FROM boxscore WHERE game_id = :game_id AND
    player_id = :player_id) INSERT INTO boxscore (game_id, player_id,
    team_id, at_bats, runs, hits, doubles, triples, home_runs, rbi,
    walks, strikeouts) VALUES (...)] *)
Definition boxscore_of_params (ps : params) : result Boxscore.row :=
  game_id <~ int_param ps "game_id" ;;
  player_id <~ int_param ps "player_id" ;;
  team_id <~ int_param ps "team_id" ;;
  at_bats <~ int_param ps "at_bats" ;;
  runs <~ int_param ps "runs" ;;
  hits <~ int_param ps "hits" ;;
  doubles <~ int_param ps "doubles" ;;
  triples <~ int_param ps "triples" ;;
  home_runs <~ int_param ps "home_runs" ;;
  rbi <~ int_param ps "rbi" ;;
  walks <~ int_param ps "walks" ;;
  strikeouts <~ int_param ps "strikeouts" ;;
  Ok {| Boxscore.game_id := game_id; Boxscore.player_id := player_id;
        Boxscore.team_id := team_id; Boxscore.at_bats := at_bats;
        Boxscore.runs := runs; Boxscore.hits := hits;
        Boxscore.doubles := doubles; Boxscore.triples := triples;
        Boxscore.home_runs := home_runs; Boxscore.rbi := rbi;
        Boxscore.walks := walks; Boxscore.strikeouts := strikeouts |}.

Definition query_insert_boxscore (ps : params) : M database unit :=
  row <- lift (boxscore_of_params ps) ;;
  db <- get ;;
  if boxscore_exists db (Boxscore.game_id row) (Boxscore.player_id row)
  then ret tt
  else if fk_game db (Boxscore.game_id row) &&
          fk_player db (Boxscore.player_id row) &&
          fk_team db (Boxscore.team_id row)
       then put (set_boxscore db (boxscore db ++ [row]))
       else raise IntegrityError.

(** ** The loader: [class JSONToSQLLoader]

    The methods that send statements run on the database the open
    connection sees; [now] is the reading of [datetime.now()]. *)

Fixpoint for_each {S A} (l : list A) (body : A -> M S unit) : M S unit :=
  match l with
  | [] => ret tt
  | x :: rest => body x ;; for_each rest body
  end.

Definition _save_raw_json (now : datetime) (game_id : value)
    (data_type : string) (json_data : value) : M database unit :=
  query_insert_raw_json
    [("game_id", game_id); ("data_type", PStr data_type)] json_data now.

Definition _insert_team (team_data : value) : M database unit :=
  ps <- lift (
    id <~ dict_get1 team_data "id" ;;
    name <~ dict_get1 team_data "name" ;;
    abbreviation <~ dict_get1 team_data "abbreviation" ;;
    league <~ dict_get team_data "league" (PDict []) ;;
    league_name <~ dict_get1 league "name" ;;
    division <~ dict_get team_data "division" (PDict []) ;;
    division_name <~ dict_get1 division "name" ;;
    Ok [("team_id", id); ("team_name", name);
        ("abbreviation", abbreviation); ("league", league_name);
        ("division", division_name)]) ;;
  query_insert_team ps.

Definition _insert_player (player_data team_id : value)
  : M database unit :=
  ps <- lift (
    id <~ dict_get1 player_data "id" ;;
    full_name <~ dict_get1 player_data "fullName" ;;
    primary_position <~ dict_get player_data "primaryPosition" (PDict []) ;;
    position_name <~ dict_get1 primary_position "name" ;;
    Ok [("player_id", id); ("player_name", full_name);
        ("team_id", team_id); ("position", position_name)]) ;;
  query_insert_player ps.

(** The [parsed_date] of [_insert_game]. *)
Definition parse_game_date (now : datetime) (game_data game_date : value)
  : result value :=
  if truthy game_date then
    match game_date with
    | PStr s => match strptime_date s with
                | Some d => Ok (PDate d)
                | None => Raise ValueError
                end
    | _ => Ok game_date
    end
  else
    game_datetime <~ dict_get1 game_data "gameDate" ;;
    if truthy game_datetime then
      match game_datetime with
      | PStr s => match fromisoformat_date s with
                  | Some d => Ok (PDate d)
                  | None => Ok (PDate (datetime_date now))
                  end
      | _ => Ok (PDate (datetime_date now))   (* no [replace]: bare except *)
      end
    else Ok (PDate (datetime_date now)).

(** [game_metadata] after [if game_metadata is None: game_metadata = {}] *)
Definition metadata_or_empty (game_metadata : value) : value :=
  match game_metadata with PNone => PDict [] | _ => game_metadata end.

(** The [params] dict of [_insert_game]. *)
Definition game_params (now : datetime)
    (game_id game_data home_team away_team game_date game_metadata : value)
  : result params :=
  teams_data <~ dict_get game_data "teams" (PDict []) ;;
  home <~ dict_get teams_data "home" (PDict []) ;;
  home_score <~ dict_get home "runs" (PInt 0) ;;
  away <~ dict_get teams_data "away" (PDict []) ;;
  away_score <~ dict_get away "runs" (PInt 0) ;;
  let game_metadata := metadata_or_empty game_metadata in
  parsed_date <~ parse_game_date now game_data game_date ;;
  home_team_id <~ dict_get1 home_team "id" ;;
  away_team_id <~ dict_get1 away_team "id" ;;
  current_inning <~ dict_get1 game_data "currentInning" ;;
  inning_state <~ dict_get1 game_data "inningState" ;;
  current_inning' <~ dict_get1 game_data "currentInning" ;;
  meta_game_type <~ dict_get1 game_metadata "game_type" ;;
  data_game_type <~ dict_get1 game_data "gameType" ;;
  meta_series <~ dict_get1 game_metadata "series_description" ;;
  data_series <~ dict_get1 game_data "seriesDescription" ;;
  meta_official <~ dict_get1 game_metadata "official_date" ;;
  data_official <~ dict_get1 game_data "officialDate" ;;
  Ok [("game_id", game_id);
      ("game_date", parsed_date);
      ("home_team_id", home_team_id);
      ("away_team_id", away_team_id);
      ("home_score", home_score);
      ("away_score", away_score);
      ("inning", current_inning);
      ("inning_state", inning_state);
      ("game_status",
        if truthy current_inning' then PStr "Live" else PStr "Final");
      ("game_type", py_or meta_game_type data_game_type);
      ("series_description", py_or meta_series data_series);
      ("official_date", py_or meta_official data_official)].

Definition _insert_game (now : datetime)
    (game_id game_data home_team away_team game_date game_metadata : value)
  : M database unit :=
  ps <- lift (game_params now game_id game_data home_team away_team
                game_date game_metadata) ;;
  query_upsert_game ps.

(** The [params] dict of [_insert_boxscore_stats]. *)
Definition boxscore_params (game_id player_id team_id batting_stats : value)
  : result params :=
  at_bats <~ dict_get batting_stats "atBats" (PInt 0) ;;
  runs <~ dict_get batting_stats "runs" (PInt 0) ;;
  hits <~ dict_get batting_stats "hits" (PInt 0) ;;
  doubles <~ dict_get batting_stats "doubles" (PInt 0) ;;
  triples <~ dict_get batting_stats "triples" (PInt 0) ;;
  home_runs <~ dict_get batting_stats "homeRuns" (PInt 0) ;;
  rbi <~ dict_get batting_stats "rbi" (PInt 0) ;;
  walks <~ dict_get batting_stats "walks" (PInt 0) ;;
  strikeouts <~ dict_get batting_stats "strikeOuts" (PInt 0) ;;
  Ok [("game_id", game_id);
      ("player_id", player_id);
      ("team_id", team_id);
      ("at_bats", at_bats);
      ("runs", runs);
      ("hits", hits);
      ("doubles", doubles);
      ("triples", triples);
      ("home_runs", home_runs);
      ("rbi", rbi);
      ("walks", walks);
      ("strikeouts", strikeouts)].

Definition _insert_boxscore_stats
    (game_id player_id team_id batting_stats : value) : M database unit :=
  ps <- lift (boxscore_params game_id player_id team_id batting_stats) ;;
  query_insert_boxscore ps.

(** [teams_data.get(side, {}).get('team', {})] *)
Definition side_team (teams_data : value) (side : string) : result value :=
  team_side <~ dict_get teams_data side (PDict []) ;;
  dict_get team_side "team" (PDict []).

Definition _process_game_data (now : datetime)
    (game_id game_data game_date game_metadata : value) : M database unit :=
  try_except
    (teams_data <- lift (dict_get game_data "teams" (PDict [])) ;;
     home_team <- lift (side_team teams_data "home") ;;
     away_team <- lift (side_team teams_data "away") ;;
     when (truthy home_team) (_insert_team home_team) ;;
     when (truthy away_team) (_insert_team away_team) ;;
     _insert_game now game_id game_data home_team away_team game_date
       game_metadata)
    (fun e => raise e).

(** The body of [for player_key, player_data in players.items()]. *)
Definition process_player (game_id team_info : value)
    (item : string * value) : M database unit :=
  let (player_key, player_data) := item in
  when (startswith player_key "ID")
    (person <- lift (dict_get player_data "person" (PDict [])) ;;
     stats <- lift (dict_get player_data "stats" (PDict [])) ;;
     when (truthy person)
       (team_id <- lift (dict_get1 team_info "id") ;;
        _insert_player person team_id) ;;
     batting <- lift (dict_get stats "batting" (PDict [])) ;;
     when (truthy batting)
       (player_id <- lift (dict_get1 person "id") ;;
        team_id <- lift (dict_get1 team_info "id") ;;
        _insert_boxscore_stats game_id player_id team_id batting)).

(** The body of [for team_type in ['home', 'away']]. *)
Definition process_team (game_id teams_data : value) (team_type : string)
  : M database unit :=
  team_data <- lift (dict_get teams_data team_type (PDict [])) ;;
  team_info <- lift (dict_get team_data "team" (PDict [])) ;;
  players <- lift (dict_get team_data "players" (PDict [])) ;;
  when (truthy team_info) (_insert_team team_info) ;;
  items <- lift (dict_items players) ;;
  for_each items (process_player game_id team_info).

Definition _process_boxscore_data (game_id boxscore_data : value)
  : M database unit :=
  try_except
    (teams_data <- lift (dict_get boxscore_data "teams" (PDict [])) ;;
     for_each ["home"; "away"] (process_team game_id teams_data))
    (fun e => raise e).

(** [for key, value in data.items(): if isinstance(value, dict) and
    'gamePk' in value: return value['gamePk']] *)
Fixpoint nested_gamePk (items : list (string * value)) : value :=
  match items with
  | [] => PNone
  | (_, PDict inner) :: rest =>
      match assoc "gamePk" inner with
      | Some v => v
      | None => nested_gamePk rest
      end
  | _ :: rest => nested_gamePk rest
  end.

Definition _extract_game_id_from_data (data : value) : value :=
  match data with
  | PDict items =>
      match assoc "game_id" items with
      | Some v => v
      | None =>
          match assoc "gamePk" items with
          | Some v => v
          | None => nested_gamePk items
          end
      end
  | _ => PNone
  end.

(** ** The connection

    [DatabaseConnection] holds one SQLAlchemy connection.  The database
    the connection sees ([session]) runs ahead of what other connections
    will find after it is closed ([committed]); closing the connection
    drops what is pending.

    [connect()] makes its engine with [create_engine(connection_string)]
    and no isolation level: on that engine [autocommit] is false, and a
    statement sent through [execute_query] outside a [begin()] block
    stays pending.  The comments of [connection.py] take such a
    statement to be committed at once (autocommit by default);
    [autocommit] set to true is that reading, with a
    [begin()] block still one transaction.  It is not the AUTOCOMMIT
    isolation level of SQLAlchemy, which only [setup_database.py] asks
    for and under which [begin()] and [rollback()] undo nothing. *)

Record connection : Type := {
  autocommit : bool;
  committed : database;
  session : database
}.

(** Statements sent with no enclosing transaction. *)
Definition execute {A} (m : M database A) : M connection A :=
  fun c =>
    let (r, s') := m (session c) in
    (r, {| autocommit := autocommit c;
           committed := if autocommit c then s' else committed c;
           session := s' |}).

(** [with self.db.connection.begin() as trans: body], on a connection
    of the engine [connect()] builds: commit when the body returns,
    roll back when it raises, and let the exception go on. *)
Definition transaction {A} (body : M database A) : M connection A :=
  fun c =>
    match body (session c) with
    | (Ok a, s') =>
        (Ok a, {| autocommit := autocommit c; committed := s';
                  session := s' |})
    | (Raise e, _) =>
        (Raise e, {| autocommit := autocommit c; committed := committed c;
                     session := committed c |})
    end.

(** [if key in data: body data[key]], for a dict [data]. *)
Definition when_key {S} (data : value) (key : string)
    (body : value -> M S unit) : M S unit :=
  match data with
  | PDict items =>
      match assoc key items with
      | Some v => body v
      | None => ret tt
      end
  | _ => raise TypeError
  end.

(** What [_load_combined_data] runs inside its transaction. *)
Definition combined_writes (now : datetime)
    (game_id game_date game_metadata data : value) : M database unit :=
  _save_raw_json now game_id "combined" data ;;
  when_key data "game_data"
    (fun game_data =>
       _process_game_data now game_id game_data game_date game_metadata) ;;
  when_key data "boxscore"
    (fun boxscore => _process_boxscore_data game_id boxscore).

(** The three reads [_load_combined_data] starts with. *)
Definition combined_header (data : value)
  : result (value * value * value) :=
  game_id <~ dict_get1 data "game_id" ;;
  game_date <~ dict_get1 data "game_date" ;;
  game_type <~ dict_get1 data "game_type" ;;
  official_date <~ dict_get1 data "official_date" ;;
  series_description <~ dict_get1 data "series_description" ;;
  Ok (game_id, game_date,
      PDict [("game_type", game_type);
             ("official_date", official_date);
             ("series_description", series_description)]).

Definition _load_combined_data (now : datetime) (data : value)
  : M connection bool :=
  try_except
    (header <- lift (combined_header data) ;;
     let '(game_id, game_date, game_metadata) := header in
     transaction (combined_writes now game_id game_date game_metadata data) ;;
     ret true)
    (fun _ => ret false).

Definition _load_boxscore_data (now : datetime) (data : value)
  : M connection bool :=
  try_except
    (let game_id := _extract_game_id_from_data data in
     execute (_save_raw_json now game_id "boxscore" data) ;;
     execute (_process_boxscore_data game_id data) ;;
     ret true)
    (fun _ => ret false).

Definition _load_game_data (now : datetime) (data : value)
  : M connection bool :=
  try_except
    (let game_id := _extract_game_id_from_data data in
     execute (_save_raw_json now game_id "game_data" data) ;;
     execute (_process_game_data now game_id data PNone PNone) ;;
     ret true)
    (fun _ => ret false).

(** ** The server, and [load_json_to_database] *)

Record server : Type := {
  reachable : bool;          (* does [self.db.connect()] succeed? *)
  autocommit_mode : bool;    (* false for the engine of [connect()] *)
  store : database
}.

Definition connect (srv : server) : connection :=
  {| autocommit := autocommit_mode srv; committed := store srv;
     session := store srv |}.

Definition disconnect (srv : server) (c : connection) : server :=
  {| reachable := reachable srv; autocommit_mode := autocommit_mode srv;
     store := committed c |}.

(** [try: body except Exception: return False finally:
    self.db.disconnect()] around a body that runs on the connection, when
    [connect()] has succeeded. *)
Definition with_connection (body : M connection bool) : M server bool :=
  fun srv =>
    if reachable srv then
      let (r, c) := try_except body (fun _ => ret false) (connect srv) in
      (r, disconnect srv c)
    else (Ok false, srv).

(** [data] is what [load_from_json(json_file_path)] returned: the parsed
    file, or [None] when it could not be read. *)
Definition load_json_to_database (now : datetime) (json_file_path : string)
    (data : value) : M server bool :=
  if negb (truthy data) then ret false
  else
    with_connection
      (if contains json_file_path "combined_data"
       then _load_combined_data now data
       else if contains json_file_path "boxscore_raw"
       then _load_boxscore_data now data
       else if contains json_file_path "game_raw"
       then _load_game_data now data
       else ret false).

(** ** Loading a schedule

    The class body defines [load_schedule_data] twice; both definitions
    are given here, under the line numbers they start at, and the class
    namespace below decides which one a call reaches. *)

(** [for x in v] (and [len(v)], which fails on the same values). *)
Definition py_iter (v : value) : result (list value) :=
  match v with
  | PList l => Ok l
  | PDict items => Ok (map (fun kv => PStr (fst kv)) items)
  | PStr s =>
      Ok (map (fun c => PStr (String c EmptyString)) (list_ascii_of_string s))
  | _ => Raise TypeError
  end.

Fixpoint fold_m {S A B} (l : list A) (step : A -> B -> M S B) (acc : B)
  : M S B :=
  match l with
  | [] => ret acc
  | x :: rest => acc' <- step x acc ;; fold_m rest step acc'
  end.

(** The [params] dict of [_insert_scheduled_game], for a truthy
    [game_id].  The function imports [datetime] in its own body (lines
    408 and 422), which makes the name local to all of it: the branch
    of a truthy [gameDate] binds it before it parses the date, and the
    other branch, [datetime.strptime(game_date, '%Y-%m-%d')] at line
    412, reads it unbound and raises UnboundLocalError whatever
    [game_date] is. *)
Definition scheduled_game_params (game_id game_data game_date : value)
    (home_team away_team : value) : result params :=
  status <~ dict_get game_data "status" (PDict []) ;;
  game_status <~ dict_get status "detailedState" (PStr "Scheduled") ;;
  linescore <~ dict_get game_data "linescore" (PDict []) ;;
  scores <~ (if truthy linescore then
               line_teams <~ dict_get linescore "teams" (PDict []) ;;
               home <~ dict_get line_teams "home" (PDict []) ;;
               home_score <~ dict_get home "runs" (PInt 0) ;;
               line_teams' <~ dict_get linescore "teams" (PDict []) ;;
               away <~ dict_get line_teams' "away" (PDict []) ;;
               away_score <~ dict_get away "runs" (PInt 0) ;;
               current_inning <~ dict_get1 linescore "currentInning" ;;
               inning_state <~ dict_get1 linescore "inningState" ;;
               Ok (home_score, away_score, current_inning, inning_state)
             else Ok (PInt 0, PInt 0, PNone, PNone)) ;;
  let '(home_score, away_score, current_inning, inning_state) := scores in
  game_datetime <~ dict_get1 game_data "gameDate" ;;
  parsed_date <~
    (if truthy game_datetime then
       match game_datetime with
       | PStr s => match fromisoformat_date s with
                   | Some d => Ok (PDate d)
                   | None => Raise ValueError
                   end
       | _ => Raise AttributeError
       end
     else Raise UnboundLocalError) ;;
  game_type <~ dict_get game_data "gameType" PNone ;;
  series_description <~ dict_get game_data "seriesDescription" PNone ;;
  official_date <~ dict_get game_data "officialDate" PNone ;;
  let official_date_parsed :=
    if truthy official_date then
      match official_date with
      | PStr s => match strptime_date s with
                  | Some d => PDate d
                  | None => PNone
                  end
      | _ => PNone
      end
    else PNone in
  home_team_id <~ dict_get1 home_team "id" ;;
  away_team_id <~ dict_get1 away_team "id" ;;
  Ok [("game_id", game_id);
      ("game_date", parsed_date);
      ("home_team_id", home_team_id);
      ("away_team_id", away_team_id);
      ("home_score", home_score);
      ("away_score", away_score);
      ("inning", current_inning);
      ("inning_state", inning_state);
      ("game_status", game_status);
      ("game_type", game_type);
      ("series_description", series_description);
      ("official_date", official_date_parsed)].

Definition _insert_scheduled_game (game_data game_date : value)
  : M connection bool :=
  try_except
    (game_id <- lift (dict_get1 game_data "gamePk") ;;
     if negb (truthy game_id) then ret false
     else
       execute
         (teams_data <- lift (dict_get game_data "teams" (PDict [])) ;;
          home_team <- lift (side_team teams_data "home") ;;
          away_team <- lift (side_team teams_data "away") ;;
          when (truthy home_team) (_insert_team home_team) ;;
          when (truthy away_team) (_insert_team away_team) ;;
          ps <- lift (scheduled_game_params game_id game_data game_date
                        home_team away_team) ;;
          query_upsert_scheduled_game ps) ;;
       ret true)
    (fun _ => ret false).

(** The definition that starts at line 330. *)
Definition load_schedule_data_330 (schedule_data : value) : M server bool :=
  with_connection
    (dates <- lift (d <~ dict_get schedule_data "dates" (PList []) ;;
                    py_iter d) ;;
     counts <-
       fold_m dates
         (fun date_entry counts =>
            game_date <- lift (dict_get1 date_entry "date") ;;
            games <- lift (g <~ dict_get date_entry "games" (PList []) ;;
                           py_iter g) ;;
            fold_m games
              (fun game '(total_games, success_count) =>
                 try_except
                   (inserted <- _insert_scheduled_game game game_date ;;
                    ret (total_games + 1,
                         if inserted : bool then success_count + 1
                         else success_count))
                   (fun _ =>
                      _ <- lift (dict_get game "gamePk" (PStr "Unknown")) ;;
                      ret (total_games + 1, success_count)))
              counts)
         (0, 0) ;;
     let '(total_games, success_count) := counts in
     ret (success_count =? total_games)).

(** The [params] dict of [_insert_game_from_schedule]. *)
Definition schedule_game_params (game_id game_data game_date : value)
  : result params :=
  parsed_date <~
    match game_date with
    | PStr s => match strptime_date s with
                | Some d => Ok (PDate d)
                | None => Raise ValueError
                end
    | _ => Ok game_date
    end ;;
  teams_data <~ dict_get game_data "teams" (PDict []) ;;
  home_team <~ side_team teams_data "home" ;;
  away_team <~ side_team teams_data "away" ;;
  linescore <~ dict_get game_data "linescore" (PDict []) ;;
  line_teams <~ dict_get linescore "teams" (PDict []) ;;
  home <~ dict_get line_teams "home" (PDict []) ;;
  home_score <~ dict_get home "runs" (PInt 0) ;;
  line_teams' <~ dict_get linescore "teams" (PDict []) ;;
  away <~ dict_get line_teams' "away" (PDict []) ;;
  away_score <~ dict_get away "runs" (PInt 0) ;;
  status <~ dict_get game_data "status" (PDict []) ;;
  abstract_state <~ dict_get status "abstractGameState" (PStr "Unknown") ;;
  game_status <~ dict_get status "detailedState" abstract_state ;;
  home_team_id <~ dict_get1 home_team "id" ;;
  away_team_id <~ dict_get1 away_team "id" ;;
  current_inning <~ dict_get1 linescore "currentInning" ;;
  inning_state <~ dict_get1 linescore "inningState" ;;
  game_type <~ dict_get1 game_data "gameType" ;;
  series_description <~ dict_get1 game_data "seriesDescription" ;;
  official_date <~ dict_get1 game_data "officialDate" ;;
  Ok [("game_id", game_id);
      ("game_date", parsed_date);
      ("home_team_id", home_team_id);
      ("away_team_id", away_team_id);
      ("home_score", home_score);
      ("away_score", away_score);
      ("inning", current_inning);
      ("inning_state", inning_state);
      ("game_status", game_status);
      ("game_type", game_type);
      ("series_description", series_description);
      ("official_date", official_date)].

Definition _insert_game_from_schedule (game_id game_data game_date : value)
  : M database unit :=
  ps <- lift (schedule_game_params game_id game_data game_date) ;;
  query_upsert_game ps.

(** The body of the inner [try] of the definition at line 494. *)
Definition schedule_game_writes (game game_date : value)
  : M database unit :=
  game_id <- lift (dict_get1 game "gamePk") ;;
  teams_data <- lift (dict_get game "teams" (PDict [])) ;;
  home_team <- lift (side_team teams_data "home") ;;
  teams_data' <- lift (dict_get game "teams" (PDict [])) ;;
  away_team <- lift (side_team teams_data' "away") ;;
  when (truthy home_team) (_insert_team home_team) ;;
  when (truthy away_team) (_insert_team away_team) ;;
  _insert_game_from_schedule game_id game game_date.

(** [for game in games: try: ... except Exception as e:
    print(f"... {game.get('gamePk')}: {e}"); continue] *)
Definition schedule_game_step (game_date game : value)
  : M connection unit :=
  try_except
    (execute (schedule_game_writes game game_date))
    (fun _ => _ <- lift (dict_get1 game "gamePk") ;; ret tt).

(** The body of [for date_entry in schedule_data.get('dates', [])]. *)
Definition schedule_date_step (date_entry : value) : M connection unit :=
  game_date <- lift (dict_get1 date_entry "date") ;;
  games <- lift (g <~ dict_get date_entry "games" (PList []) ;;
                 py_iter g) ;;
  for_each games (schedule_game_step game_date).

(** The definition that starts at line 494. *)
Definition load_schedule_data_494 (schedule_data : value) : M server bool :=
  with_connection
    (dates <- lift (d <~ dict_get schedule_data "dates" (PList []) ;;
                    py_iter d) ;;
     for_each dates schedule_date_step ;;
     ret true).

(** Running a class body binds each [def] to its name in turn, a later
    binding of a name replacing the earlier one. *)
Definition method : Type := value -> M server bool.

Definition class_body : list (string * method) :=
  [("load_schedule_data", load_schedule_data_330);
   ("load_schedule_data", load_schedule_data_494)].

Fixpoint rebind (name : string) (m : method)
    (namespace : list (string * method)) : list (string * method) :=
  match namespace with
  | [] => [(name, m)]
  | (name', m') :: rest =>
      if (name =? name')%string then (name, m) :: rest
      else (name', m') :: rebind name m rest
  end.

Definition class_namespace : list (string * method) :=
  fold_left (fun namespace def => rebind (fst def) (snd def) namespace)
    class_body [].

Fixpoint getattr (namespace : list (string * method)) (name : string)
  : option method :=
  match namespace with
  | [] => None
  | (name', m) :: rest =>
      if (name =? name')%string then Some m else getattr rest name
  end.

(** [loader.load_schedule_data(schedule_data)] *)
Definition load_schedule_data (schedule_data : value) : M server bool :=
  match getattr class_namespace "load_schedule_data" with
  | Some m => m schedule_data
  | None => raise AttributeError
  end.

(** ** Vocabulary of the properties *)

(** The row [_insert_boxscore_stats] sends to the server. *)
Definition boxscore_line (game_id player_id team_id batting_stats : value)
  : result Boxscore.row :=
  ps <~ boxscore_params game_id player_id team_id batting_stats ;;
  boxscore_of_params ps.

(** A [boxscore] column by its name in [create_tables]; [None] when the
    table has no such column. *)
Definition boxscore_column (r : Boxscore.row) (name : string)
  : option (option Z) :=
  if (name =? "game_id")%string then Some (Boxscore.game_id r)
  else if (name =? "player_id")%string then Some (Boxscore.player_id r)
  else if (name =? "team_id")%string then Some (Boxscore.team_id r)
  else if (name =? "at_bats")%string then Some (Boxscore.at_bats r)
  else if (name =? "runs")%string then Some (Boxscore.runs r)
  else if (name =? "hits")%string then Some (Boxscore.hits r)
  else if (name =? "doubles")%string then Some (Boxscore.doubles r)
  else if (name =? "triples")%string then Some (Boxscore.triples r)
  else if (name =? "home_runs")%string then Some (Boxscore.home_runs r)
  else if (name =? "rbi")%string then Some (Boxscore.rbi r)
  else if (name =? "walks")%string then Some (Boxscore.walks r)
  else if (name =? "strikeouts")%string then Some (Boxscore.strikeouts r)
  else None.

(** The payload keys [_insert_boxscore_stats] reads, each with the
    column it fills. *)
Definition batting_columns : list (string * string) :=
  [("atBats", "at_bats"); ("runs", "runs"); ("hits", "hits");
   ("doubles", "doubles"); ("triples", "triples");
   ("homeRuns", "home_runs"); ("rbi", "rbi"); ("walks", "walks");
   ("strikeOuts", "strikeouts")].




(** [m] relates the state it starts in to the state it ends in,
    whether it returns or raises. *)
Definition preserves {S A} (R : S -> S -> Prop) (m : M S A) : Prop :=
  forall s r s', m s = (r, s') -> R s s'.

(** The part [f] of the database is the same before and after. *)
Definition keeps {T} (f : database -> T) (db db' : database) : Prop :=
  f db' = f db.

(** The row [_insert_game] sends to the server. *)
Definition game_line (now : datetime)
    (game_id game_data home_team away_team game_date game_metadata : value)
  : result Game.row :=
  ps <~ game_params now game_id game_data home_team away_team game_date
          game_metadata ;;
  game_of_params ps.

(** [SELECT * FROM games WHERE game_id = :id] and
    [SELECT * FROM boxscore WHERE game_id = :gid AND player_id = :pid] *)
Definition games_with (id : option Z) (rows : list Game.row)
  : list Game.row :=
  filter (fun r => sql_eq (Game.game_id r) id) rows.

Definition lines_with (gid pid : option Z) (rows : list Boxscore.row)
  : list Boxscore.row :=
  filter (fun r => sql_eq (Boxscore.game_id r) gid &&
                   sql_eq (Boxscore.player_id r) pid) rows.

(** The [games] row a payload's game data stands for: the row
    [_process_game_data] has [_insert_game] send. *)
Definition payload_game_line (now : datetime)
    (game_id game_data game_date game_metadata : value) : result Game.row :=
  teams_data <~ dict_get game_data "teams" (PDict []) ;;
  home_team <~ side_team teams_data "home" ;;
  away_team <~ side_team teams_data "away" ;;
  game_line now game_id game_data home_team away_team game_date
    game_metadata.

(** The value a read returned ([None] for a read that raised). *)
Definition got (r : result value) : value :=
  match r with Ok v => v | Raise _ => PNone end.

(** What each kind of file has the loader do to the database, reads
    of the payload included. *)
Definition combined_file_writes (now : datetime) (data : value)
  : M database unit :=
  header <- lift (combined_header data) ;;
  let '(game_id, game_date, game_metadata) := header in
  combined_writes now game_id game_date game_metadata data.

Definition boxscore_file_writes (now : datetime) (data : value)
  : M database unit :=
  let game_id := _extract_game_id_from_data data in
  _save_raw_json now game_id "boxscore" data ;;
  _process_boxscore_data game_id data.

Definition game_file_writes (now : datetime) (data : value)
  : M database unit :=
  let game_id := _extract_game_id_from_data data in
  _save_raw_json now game_id "game_data" data ;;
  _process_game_data now game_id data PNone PNone.

Definition file_writes (now : datetime) (json_file_path : string)
    (data : value) : M database unit :=
  if contains json_file_path "combined_data"
  then combined_file_writes now data
  else if contains json_file_path "boxscore_raw"
  then boxscore_file_writes now data
  else if contains json_file_path "game_raw"
  then game_file_writes now data
  else ret tt.

(** The shape of a schedule-API response: an object whose [dates],
    when present, is a list of objects, each of which has for [games],
    when present, a list of objects. *)
Definition date_entry_shape (date_entry : value) : bool :=
  is_dict date_entry &&
  match got (dict_get date_entry "games" (PList [])) with
  | PList games => forallb is_dict games
  | _ => false
  end.

Definition schedule_shape (schedule_data : value) : bool :=
  is_dict schedule_data &&
  match got (dict_get schedule_data "dates" (PList [])) with
  | PList dates => forallb date_entry_shape dates
  | _ => false
  end.

(** The [boxscore] rows a boxscore payload stands for: one for each
    player entry whose key starts with [ID] and whose batting stats are
    not empty. *)
Definition player_lines (game_id team_info : value)
    (item : string * value) : list Boxscore.row :=
  let (player_key, player_data) := item in
  if startswith player_key "ID" then
    match (person <~ dict_get player_data "person" (PDict []) ;;
           stats <~ dict_get player_data "stats" (PDict []) ;;
           batting <~ dict_get stats "batting" (PDict []) ;;
           if truthy batting then
             player_id <~ dict_get1 person "id" ;;
             team_id <~ dict_get1 team_info "id" ;;
             row <~ boxscore_line game_id player_id team_id batting ;;
             Ok [row]
           else Ok []) with
    | Ok rows => rows
    | Raise _ => []
    end
  else [].

Definition team_lines (game_id teams_data : value) (team_type : string)
  : list Boxscore.row :=
  match (team_data <~ dict_get teams_data team_type (PDict []) ;;
         team_info <~ dict_get team_data "team" (PDict []) ;;
         players <~ dict_get team_data "players" (PDict []) ;;
         items <~ dict_items players ;;
         Ok (flat_map (player_lines game_id team_info) items)) with
  | Ok rows => rows
  | Raise _ => []
  end.

Definition payload_lines (game_id boxscore_data : value)
  : list Boxscore.row :=
  match dict_get boxscore_data "teams" (PDict []) with
  | Ok teams_data => flat_map (team_lines game_id teams_data) ["home"; "away"]
  | Raise _ => []
  end.

(** The game row and the boxscore rows a combined payload stands for. *)
Definition combined_game_line (now : datetime)
    (items : list (string * value)) (game_data : value) : result Game.row :=
  header <~ combined_header (PDict items) ;;
  let '(game_id, game_date, game_metadata) := header in
  payload_game_line now game_id game_data game_date game_metadata.

Definition combined_lines (items : list (string * value))
  : list Boxscore.row :=
  match assoc "boxscore" items with
  | Some boxscore_data =>
      payload_lines (got (dict_get1 (PDict items) "game_id")) boxscore_data
  | None => []
  end.

(** Three ways the [boxscore] table of [db'] can relate to that of
    [db]: every row is an old one or satisfies [Q]; no key that had at
    most one row has more; no row is gone. *)
Definition lines_from (Q : Boxscore.row -> Prop) (db db' : database)
  : Prop :=
  forall row, In row (boxscore db') -> In row (boxscore db) \/ Q row.

Definition lines_stay_unique (db db' : database) : Prop :=
  forall gid pid,
    (length (lines_with gid pid (boxscore db)) <= 1)%nat ->
    (length (lines_with gid pid (boxscore db')) <= 1)%nat.

Definition lines_stay (db db' : database) : Prop :=
  forall row, In row (boxscore db) -> In row (boxscore db').

(** A row is stored under the key of [row]. *)
Definition has_line (db : database) (row : Boxscore.row) : Prop :=
  boxscore_exists db (Boxscore.game_id row) (Boxscore.player_id row) = true.

(** [row] names a game and a player. *)
Definition keyed (row : Boxscore.row) : Prop :=
  Boxscore.game_id row <> None /\ Boxscore.player_id row <> None.

(** ** Sample inputs

    The end-to-end scenario of the specification (game 700001, teams 10
    and 20, player 501), with the home team, the current inning and the
    batting stats left open, and the payloads derived from it. *)

Definition sample_now : datetime := ((2024, 4, 11), 0).
Definition sample_later : datetime := ((2024, 4, 12), 3600).

(** An empty store behind a reachable server: with statements
    committed as they come, as the comments of [connection.py] have
    it, and on the engine [connect()] builds. *)
Definition sample_server : server :=
  {| reachable := true; autocommit_mode := true; store := empty_database |}.

Definition sample_server_no_autocommit : server :=
  {| reachable := true; autocommit_mode := false; store := empty_database |}.

Definition sample_batting (at_bats : Z) : value :=
  PDict [("atBats", PInt at_bats); ("hits", PInt 2); ("homeRuns", PInt 1);
         ("baseOnBalls", PInt 1); ("hitByPitch", PInt 1)].

Definition sample_game_data (home_team_id : Z) (current_inning : value)
  : value :=
  PDict
    [("teams",
       PDict [("home", PDict [("team", PDict [("id", PInt home_team_id)]);
                              ("runs", PInt 3)]);
              ("away", PDict [("team", PDict [("id", PInt 20)]);
                              ("runs", PInt 1)])]);
     ("currentInning", current_inning);
     ("gameType", PStr "S")].

Definition sample_boxscore (home_team_id : Z) (batting : value)
  : list (string * value) :=
  [("teams",
     PDict
       [("home",
          PDict [("team", PDict [("id", PInt home_team_id);
                                 ("name", PStr "A")]);
                 ("players",
                   PDict [("ID501",
                            PDict [("person",
                                     PDict [("id", PInt 501);
                                            ("fullName", PStr "X")]);
                                   ("stats",
                                     PDict [("batting", batting)])])])]);
        ("away",
          PDict [("team", PDict [("id", PInt 20); ("name", PStr "B")]);
                 ("players", PDict [])])])].

Definition sample_combined_with (home_team_id : Z)
    (current_inning batting : value) : list (string * value) :=
  [("game_id", PInt 700001);
   ("game_date", PStr "2024-04-10");
   ("game_type", PStr "R");
   ("boxscore", PDict (sample_boxscore home_team_id batting));
   ("game_data", sample_game_data home_team_id current_inning)].

Definition sample_combined (home_team_id at_bats : Z)
  : list (string * value) :=
  sample_combined_with home_team_id PNone (sample_batting at_bats).

(** The same payload without its [game_data] entry. *)
Definition sample_combined_without_game : list (string * value) :=
  [("game_id", PInt 700001);
   ("game_date", PStr "2024-04-10");
   ("game_type", PStr "R");
   ("boxscore", PDict (sample_boxscore 10 (sample_batting 4)))].

(** The payload of the specification's end-to-end scenario, as it is
    written there. *)
Definition scenario_combined : value :=
  PDict
    [("game_id", PInt 700001);
     ("game_date", PStr "2024-04-10");
     ("game_type", PStr "R");
     ("boxscore",
       PDict
         [("teams",
            PDict
              [("home",
                 PDict
                   [("team", PDict [("id", PInt 10); ("name", PStr "A")]);
                    ("players",
                      PDict
                        [("ID1",
                           PDict
                             [("person", PDict [("id", PInt 501);
                                                ("fullName", PStr "X")]);
                              ("stats",
                                PDict
                                  [("batting",
                                     PDict [("atBats", PInt 4);
                                            ("hits", PInt 2);
                                            ("homeRuns", PInt 1)])])])])]);
               ("away",
                 PDict
                   [("team", PDict [("id", PInt 20); ("name", PStr "B")]);
                    ("players", PDict [])])])]);
     ("game_data",
       PDict
         [("teams",
            PDict [("home", PDict [("team", PDict [("id", PInt 10)]);
                                   ("runs", PInt 3)]);
                   ("away", PDict [("team", PDict [("id", PInt 20)]);
                                   ("runs", PInt 1)])]);
          ("currentInning", PNone)])].

Definition sample_combined_path : string :=
  "data/json/2024/04-April/combined_data_700001_20240410.json".

(** A raw boxscore document, as the API returns it (no identifier of
    the game inside), and the same with a top-level [gamePk]. *)
Definition sample_boxscore_raw : value :=
  PDict (sample_boxscore 10 (sample_batting 4)).

Definition sample_boxscore_raw_with_gamePk : value :=
  PDict (("gamePk", PInt 700001) :: sample_boxscore 10 (sample_batting 4)).

Definition sample_boxscore_path : string :=
  "data/json/2024/04-April/boxscore_raw_700001.json".

Definition sample_game_path : string :=
  "data/json/2024/04-April/game_raw_700001.json".

(** A schedule response with one date and one game, the game with or
    without its [gamePk]. *)
Definition sample_schedule (game_pk : value) (home_team_id : Z) : value :=
  PDict
    [("dates",
       PList
         [PDict
            [("date", PStr "2024-04-10");
             ("games",
               PList
                 [PDict
                    [("gamePk", game_pk);
                     ("gameType", PStr "R");
                     ("teams",
                       PDict
                         [("home",
                            PDict [("team",
                                     PDict [("id", PInt home_team_id)])]);
                          ("away",
                            PDict [("team", PDict [("id", PInt 20)])])]);
                     ("status",
                       PDict [("detailedState", PStr "Final")])]])]])].

(** A game of a schedule response that carries its [gameDate]. *)
Definition sample_scheduled_game (home_team_id : Z) : value :=
  PDict
    [("gamePk", PInt 700001);
     ("gameDate", PStr "2024-04-10T18:05:00Z");
     ("gameType", PStr "R");
     ("teams",
       PDict [("home", PDict [("team", PDict [("id", PInt home_team_id)])]);
              ("away", PDict [("team", PDict [("id", PInt 20)])])]);
     ("status", PDict [("detailedState", PStr "Final")])].

(** A game-only document with a top-level [gamePk]. *)
Definition sample_game_raw_with_gamePk : value :=
  PDict
    [("gamePk", PInt 700001);
     ("teams",
       PDict [("home", PDict [("team", PDict [("id", PInt 10)]);
                              ("runs", PInt 3)]);
              ("away", PDict [("team", PDict [("id", PInt 20)]);
                              ("runs", PInt 1)])]);
     ("currentInning", PNone);
     ("gameType", PStr "S")].

(** ** More of [DatabaseConnection], and the statements that clear a
    date range

    [load_june_data] and [load_dynamic_date_range_data] (with [--clear])
    empty a range of dates before they load it again, through
    [execute_transaction]. *)

(** [for query in queries: results.append(self.connection.execute(...))] *)
Fixpoint run_all {S A} (queries : list (M S A)) : M S (list A) :=
  match queries with
  | [] => ret []
  | query :: rest =>
      result <- query ;;
      results <- run_all rest ;;
      ret (result :: results)
  end.

(** [self.connection.close(); self.connection = self.engine.connect()]:
    what was pending on the connection is dropped.  (The connection
    being there, the engine is taken to be reachable.) *)
Definition reopen (c : connection) : connection :=
  {| autocommit := autocommit c; committed := committed c;
     session := committed c |}.

(** [execute_transaction(queries)]: on a fresh connection, the queries
    run in one transaction, which is committed when all have returned
    and rolled back, the exception going on, when one raises. *)
Definition execute_transaction {A} (queries : list (M database A))
  : M connection (list A) :=
  fun c => transaction (run_all queries) (reopen c).

(** [d1 <= d2] on DATE values. *)
Definition date_leb (d1 d2 : date) : bool :=
  let '(y1, m1, day1) := d1 in
  let '(y2, m2, day2) := d2 in
  (y1 <? y2) ||
  ((y1 =? y2) && ((m1 <? m2) || ((m1 =? m2) && (day1 <=? day2)))).

(** [game_date >= start AND game_date <= end]: not true of NULL. *)
Definition in_date_range (start_date end_date : date)
    (game_date : option date) : bool :=
  match game_date with
  | Some d => date_leb start_date d && date_leb d end_date
  | None => false
  end.

(** [line.game_id IN (SELECT game_id FROM games WHERE game_date >=
    start AND game_date <= end)] *)
Definition of_game_in_range (start_date end_date : date)
    (rows : list Game.row) (line : Boxscore.row) : bool :=
  existsb (fun g => in_date_range start_date end_date (Game.game_date g) &&
                    sql_eq (Boxscore.game_id line) (Game.game_id g)) rows.

(** [DELETE FROM boxscore WHERE game_id IN (SELECT game_id FROM games
    WHERE game_date >= start AND game_date <= end)] *)
Definition query_delete_boxscore_in_range (start_date end_date : date)
  : M database unit :=
  db <- get ;;
  put (set_boxscore db
         (filter (fun line =>
                    negb (of_game_in_range start_date end_date (games db)
                            line))
            (boxscore db))).

(** [DELETE FROM games WHERE game_date >= start AND game_date <= end],
    which the server refuses while a [boxscore] row refers to one of
    the games (the foreign key of [boxscore.game_id]). *)
Definition query_delete_games_in_range (start_date end_date : date)
  : M database unit :=
  db <- get ;;
  if existsb (of_game_in_range start_date end_date (games db)) (boxscore db)
  then raise IntegrityError
  else put (set_games db
              (filter (fun g => negb (in_date_range start_date end_date
                                        (Game.game_date g)))
                 (games db))).

(** [db.execute_transaction(delete_queries)] *)
Definition clear_date_range (start_date end_date : date)
  : M connection (list unit) :=
  execute_transaction
    [query_delete_boxscore_in_range start_date end_date;
     query_delete_games_in_range start_date end_date].

(** ** The scripts that run the loader

    A script finds its files with [glob]; a file is taken with what
    [load_from_json] makes of it and with the reading of the clock at
    the time it is loaded. *)

Record json_file : Type := {
  file_path : string;
  file_data : value;
  loaded_at : datetime
}.

(** [loader.load_json_to_database(file_path)] *)
Definition load_file (f : json_file) : M server bool :=
  load_json_to_database (loaded_at f) (file_path f) (file_data f).

(** The loop of [load_june_data], [load_july_data] and
    [load_dynamic_date_range_data]:
    [try: loader.load_json_to_database(str(file_path));
    success_count += 1 except Exception: error_count += 1] *)
Definition load_files_unchecked (files : list json_file)
  : M server (Z * Z) :=
  fold_m files
    (fun f '(success_count, error_count) =>
       try_except
         (_ <- load_file f ;;
          ret (success_count + 1, error_count))
         (fun _ => ret (success_count, error_count + 1)))
    (0, 0).

(** One turn of the loop of [load_march_data] (and of
    [reload_march_boxscore_data]):
    [try: if loader.load_json_to_database(file_path): success_count +=
    1 else: error_count += 1 except Exception: error_count += 1] *)
Definition load_and_count (f : json_file) (counts : Z * Z)
  : M server (Z * Z) :=
  let '(success_count, error_count) := counts in
  try_except
    (result <- load_file f ;;
     ret (if result : bool then (success_count + 1, error_count)
          else (success_count, error_count + 1)))
    (fun _ => ret (success_count, error_count + 1)).

(** What a script can end in besides the loader's exceptions. *)
Inductive script_exn : Type :=
| LoaderError (e : exn)
| ZeroDivisionError.

(** [load_march_data()] on the files it found: the loop, then the
    summary, which prints [(success_count/total_files)*100], then
    [return success_count, error_count]. *)
Definition load_march_data (march_files : list json_file)
  : server -> (Z * Z + script_exn) * server :=
  fun srv =>
    let total_files := Z.of_nat (length march_files) in
    match fold_m march_files load_and_count (0, 0) srv with
    | (Ok (success_count, error_count), srv') =>
        if total_files =? 0 then (inr ZeroDivisionError, srv')
        else (inl (success_count, error_count), srv')
    | (Raise e, srv') => (inr (LoaderError e), srv')
    end.

(** [range(start, stop, step)] for a positive [step]. *)
Fixpoint range_from (fuel start stop step : nat) : list nat :=
  match fuel with
  | O => []
  | S fuel' =>
      if (start <? stop)%nat
      then start :: range_from fuel' (start + step) stop step
      else []
  end.

Definition range (start stop step : nat) : list nat :=
  range_from stop start stop step.

(** [l[i:j]] for [0 <= i <= j] *)
Definition slice {A} (i j : nat) (l : list A) : list A :=
  firstn (j - i) (skipn i l).

(** One turn of the inner loop of [process_all_remaining_games]:
    [try: processed += 1; if loader.load_json_to_database(file_path):
    successful += 1 else: failed += 1 except Exception: failed += 1] *)
Definition process_file (f : json_file) (counts : Z * Z * Z)
  : M server (Z * Z * Z) :=
  let '(processed, successful, failed) := counts in
  try_except
    (result <- load_file f ;;
     ret (if result : bool then (processed + 1, successful + 1, failed)
          else (processed + 1, successful, failed + 1)))
    (fun _ => ret (processed + 1, successful, failed + 1)).

(** Its two loops:
    [for i in range(0, total_files, batch_size): batch =
    boxscore_files[i:i + batch_size]; for file_path in batch: ...] *)
Definition process_in_batches (batch_size : nat) (files : list json_file)
  : M server (Z * Z * Z) :=
  fold_m (range 0 (length files) batch_size)
    (fun i counts =>
       fold_m (slice i (i + batch_size) files) process_file counts)
    (0, 0, 0).

(** [len(v)] *)
Definition py_len (v : value) : result Z :=
  l <~ py_iter v ;; Ok (Z.of_nat (length l)).

(** [sum(len(date_entry.get('games', [])) for date_entry in dates)] *)
Fixpoint sum_games (dates : list value) : result Z :=
  match dates with
  | [] => Ok 0
  | date_entry :: rest =>
      games <~ dict_get date_entry "games" (PList []) ;;
      n <~ py_len games ;;
      total <~ sum_games rest ;;
      Ok (n + total)
  end.

(** [load_schedule_for_date_range(start_date, end_date)] of
    [load_schedule.py], given what [fetch_schedule] returned or
    raised. *)
Definition load_schedule_for_date_range (fetched : result value)
  : M server bool :=
  try_except
    (schedule_data <- lift fetched ;;
     total_games <- lift (dates <~ (d <~ dict_get schedule_data "dates"
                                            (PList []) ;;
                                    py_iter d) ;;
                          sum_games dates) ;;
     if total_games =? 0 then ret false
     else load_schedule_data schedule_data)
    (fun _ => ret false).

(** ** File names

    The names [save_to_json] gives the files of a game, and the date
    [load_dynamic_date_range_data] reads back from them.  File names
    are taken to be ASCII. *)

(** [str(n)] for an [int] *)
Definition str_of_int (n : Z) : string :=
  NilZero.string_of_int (Z.to_int n).

(** [c.isdigit()] *)
Definition isdigit (c : ascii) : bool :=
  match digit c with Some _ => true | None => false end.

(** [s[-n:]] for a positive [n] *)
Definition last_chars (n : nat) (s : string) : list ascii :=
  let chars := list_ascii_of_string s in
  skipn (length chars - n) chars.

(** The name of the file [save_to_json(data, filename, directory)]
    writes; [timestamp] is [datetime.now().strftime("%Y%m%d_%H%M%S")]. *)
Definition json_file_name (timestamp filename : string) : string :=
  if negb (existsb isdigit (last_chars 20 filename))
  then filename ++ "_" ++ timestamp ++ ".json"
  else filename ++ ".json".

(** [f"boxscore_raw_{game_id}"] and [f"game_raw_{game_id}"], the names
    [save_raw_api_data] passes. *)
Definition boxscore_raw_name (game_id : Z) : string :=
  "boxscore_raw_" ++ str_of_int game_id.

Definition game_raw_name (game_id : Z) : string :=
  "game_raw_" ++ str_of_int game_id.

(** The digit [n] as a character, and two of them. *)
Definition digit_char (n : Z) : ascii := ascii_of_nat (48 + Z.to_nat n).

Definition two_digit (n : Z) : string :=
  String (digit_char (n / 10)) (String (digit_char (n mod 10)) EmptyString).

(** [d.strftime('%Y-%m-%d')] for a date from the year 1000 on. *)
Definition strftime_ymd (d : date) : string :=
  let '(y, m, day) := d in
  two_digit (y / 100) ++ two_digit (y mod 100) ++ "-" ++
  two_digit m ++ "-" ++ two_digit day.

Fixpoint string_drop (n : nat) (s : string) : string :=
  match n, s with
  | O, _ => s
  | S n', String _ rest => string_drop n' rest
  | S _, EmptyString => EmptyString
  end.

(** [s.replace(old, new)] for a non-empty [old]: every occurrence of
    [old], found from the left and not overlapping, gives way to
    [new]. *)
Fixpoint replace_from (fuel : nat) (old new s : string) : string :=
  match fuel with
  | O => s
  | S fuel' =>
      if String.prefix old s
      then new ++ replace_from fuel' old new (string_drop (String.length old) s)
      else match s with
           | EmptyString => EmptyString
           | String c rest => String c (replace_from fuel' old new rest)
           end
  end.

Definition str_replace (old new s : string) : string :=
  replace_from (S (String.length s)) old new s.

(** [f"combined_data_{game_id}_{date_str.replace('-', '')}"], the name
    [extract_season_data] passes for a game of the day [game_day]. *)
Definition combined_data_name (game_id : Z) (game_day : date) : string :=
  "combined_data_" ++ str_of_int game_id ++ "_" ++
  str_replace "-" EmptyString (strftime_ymd game_day).

Definition is_leap (y : Z) : bool :=
  ((y mod 4 =? 0) && negb (y mod 100 =? 0)) || (y mod 400 =? 0).

Definition days_in_month (y m : Z) : Z :=
  if m =? 2 then (if is_leap y then 29 else 28)
  else if (m =? 4) || (m =? 6) || (m =? 9) || (m =? 11) then 30
  else 31.

(** [datetime.strptime(s, '%Y%m%d').date()] for a string of eight
    digits, [None] where it raises ValueError: the format takes four
    digits for the year, and reads all of the string only when it can
    take two for a month from 01 to 12 and two for a day from 01 to 31;
    [date] then wants a year from 1 on and a day the month has. *)
Definition strptime_compact (s : string) : option date :=
  match list_ascii_of_string s with
  | [y1; y2; y3; y4; m1; m2; d1; d2] =>
      match two_digits y1 y2, two_digits y3 y4, two_digits m1 m2,
            two_digits d1 d2 with
      | Some yh, Some yl, Some m, Some d =>
          let y := 100 * yh + yl in
          if (1 <=? y) && (1 <=? m) && (m <=? 12) && (1 <=? d) &&
             (d <=? days_in_month y m)
          then Some (y, m, d)
          else None
      | _, _, _, _ => None
      end
  | _ => None
  end.

(** [re.search(r'_(\d{8})\.json$', filename)], its group 1: the name
    ends in an underscore, eight digits and [.json]; [$] also matches
    before a newline that ends the name. *)
Definition date_match (filename : string) : option string :=
  let backwards := rev (list_ascii_of_string filename) in
  let backwards := match backwards with
                   | c :: rest => if Ascii.eqb c "010" then rest
                                  else backwards
                   | [] => backwards
                   end in
  let digits := rev (firstn 8 (skipn 5 backwards)) in
  if (string_of_list_ascii (rev (firstn 5 backwards)) =? ".json")%string &&
     (length digits =? 8)%nat && forallb isdigit digits &&
     match skipn 13 backwards with
     | c :: _ => Ascii.eqb c "_"
     | [] => false
     end
  then Some (string_of_list_ascii digits)
  else None.

(** [extract_date_from_filename(filename)] of
    [load_dynamic_date_range_data.py]. *)
Definition extract_date_from_filename (filename : string) : option date :=
  match date_match filename with
  | Some date_str => strptime_compact date_str
  | None => None
  end.


(** [d1 < d2] and [d1 == d2] on dates. *)
Definition date_ltb (d1 d2 : date) : bool :=
  let '(y1, m1, day1) := d1 in
  let '(y2, m2, day2) := d2 in
  (y1 <? y2) ||
  ((y1 =? y2) && ((m1 <? m2) || ((m1 =? m2) && (day1 <? day2)))).

Definition date_eqb (d1 d2 : date) : bool :=
  let '(y1, m1, day1) := d1 in
  let '(y2, m2, day2) := d2 in
  (y1 =? y2) && (m1 =? m2) && (day1 =? day2).

(** [{row[0] for row in db.fetch_results("SELECT DISTINCT game_date
    FROM games WHERE game_date >= :start_date AND game_date <=
    :end_date")}]: the dates of the range on which a game is stored. *)
Definition existing_dates (start_date end_date : date) (db : database)
  : list date :=
  flat_map (fun g => match Game.game_date g with
                     | Some d =>
                         if date_leb start_date d && date_leb d end_date
                         then [d] else []
                     | None => []
                     end)
    (games db).

(** What [load_dynamic_date_range_data] does with a file it found in a
    month folder: it cannot read a date from the name, the date is
    outside the range asked for, the date has data already, or the
    file is to be loaded. *)
Inductive file_fate : Type :=
| Unparsed
| OutOfRange
| AlreadyLoaded
| ToLoad.

Definition file_fate_of (start_date end_date : date)
    (clear_existing dry_run : bool) (existing : list date) (name : string)
  : file_fate :=
  match extract_date_from_filename name with
  | None => Unparsed
  | Some file_date =>
      if date_ltb file_date start_date || date_ltb end_date file_date
      then OutOfRange
      else if negb clear_existing && negb dry_run &&
              existsb (date_eqb file_date) existing
      then AlreadyLoaded
      else ToLoad
  end.

(** ** Vocabulary of the further properties *)

(** [l'] is [l] with rows added at its end. *)
Definition extends {A} (l l' : list A) : Prop :=
  exists more, l' = (l ++ more)%list.

(** No row of [teams], [players], [boxscore] or [raw_json_data] is gone
    or changed, and no game is gone: each of these tables, and the
    [game_id] column of [games], is what it was with rows added at the
    end. *)
Definition nothing_lost (db db' : database) : Prop :=
  extends (teams db) (teams db') /\
  extends (players db) (players db') /\
  extends (map Game.game_id (games db)) (map Game.game_id (games db')) /\
  extends (boxscore db) (boxscore db') /\
  extends (raw_json_data db) (raw_json_data db').

(** What a connection has committed and what it sees both stand in
    [R] to [db0]. *)
Definition reaches (R : database -> database -> Prop) (db0 : database)
    (c : connection) : Prop :=
  R db0 (committed c) /\ R db0 (session c).

(** A step on the connection keeps it so. *)
Definition stays_reached (R : database -> database -> Prop) (db0 : database)
    (c c' : connection) : Prop :=
  reaches R db0 c -> reaches R db0 c'.

(** The games of a schedule response, each with the [date] of its
    date entry, in the order [load_schedule_data] visits them. *)
Definition date_entry_games (date_entry : value) : list (value * value) :=
  match (g <~ dict_get date_entry "games" (PList []) ;; py_iter g) with
  | Ok games =>
      map (fun game => (got (dict_get1 date_entry "date"), game)) games
  | Raise _ => []
  end.

Definition schedule_games (schedule_data : value) : list (value * value) :=
  match (d <~ dict_get schedule_data "dates" (PList []) ;; py_iter d) with
  | Ok dates => flat_map date_entry_games dates
  | Raise _ => []
  end.

(** On a connection that does not commit statements on its own, as
    the engine of [connect()] gives them, nothing more is committed. *)
Definition commits_nothing (c c' : connection) : Prop :=
  autocommit c = false ->
  autocommit c' = false /\ committed c' = committed c.

(** [game_data.get('teams', {}).get(side, {}).get('team', {})] *)
Definition payload_side_team (game_data : value) (side : string)
  : result value :=
  teams_data <~ dict_get game_data "teams" (PDict []) ;;
  side_team teams_data side.

(** * Properties *)

(** ** Running the monads *)

Lemma bind_ok {S A B} (m : M S A) (k : A -> M S B) s b s' :
  bind m k s = (Ok b, s') ->
  exists a s1, m s = (Ok a, s1) /\ k a s1 = (Ok b, s').
Proof.
  unfold bind. destruct (m s) as [[a|e] s1]; intros H.
  - eauto.
  - discriminate.
Qed.

Lemma lift_ok {S A} (r : result A) (s s' : S) a :
  lift r s = (Ok a, s') -> r = Ok a /\ s' = s.
Proof. unfold lift. intros H. inversion H. auto. Qed.

Lemma rbind_ok {A B} (r : result A) (k : A -> result B) b :
  rbind r k = Ok b -> exists a, r = Ok a /\ k a = Ok b.
Proof. destruct r; simpl; intros H; [eauto | discriminate]. Qed.

Lemma get_ok {S} (s s' a : S) : get s = (Ok a, s') -> a = s /\ s' = s.
Proof. unfold get. intros H. inversion H. auto. Qed.

Lemma put_ok {S} (s0 s s' : S) u : put s0 s = (Ok u, s') -> s' = s0.
Proof. unfold put. intros H. inversion H. auto. Qed.

Lemma ret_ok {S A} (a b : A) (s s' : S) :
  ret a s = (Ok b, s') -> b = a /\ s' = s.
Proof. unfold ret. intros H. inversion H. auto. Qed.

(** Inverting a run that returned: split binds, read off the pure
    steps. *)
Ltac run_ok H :=
  repeat match type of H with
  | bind _ _ _ = (Ok _, _) =>
      let a := fresh "a" in let s := fresh "s" in
      let H1 := fresh "Hrun" in
      apply bind_ok in H; destruct H as (a & s & H1 & H);
      match type of H1 with
      | get _ = _ => apply get_ok in H1; destruct H1 as [-> ->]
      | lift _ _ = _ => apply lift_ok in H1; destruct H1 as [H1 ->]
      | _ => idtac
      end
  end.

(** ** The boxscore line upserter *)


(** A call that returns has either found the key and changed nothing,
    or appended the row built from its arguments. *)
Lemma _insert_boxscore_stats_ok game_id player_id team_id batting db db' :
  _insert_boxscore_stats game_id player_id team_id batting db = (Ok tt, db') ->
  exists row,
    boxscore_line game_id player_id team_id batting = Ok row /\
    db' = if boxscore_exists db (Boxscore.game_id row) (Boxscore.player_id row)
          then db
          else set_boxscore db (boxscore db ++ [row]).
Proof.
  unfold _insert_boxscore_stats, boxscore_line. intros H.
  run_ok H.
  rewrite Hrun. simpl.
  unfold query_insert_boxscore in H. run_ok H.
  rewrite Hrun0. exists a0. split; [reflexivity|].
  destruct (boxscore_exists db (Boxscore.game_id a0) (Boxscore.player_id a0)).
  - apply ret_ok in H. destruct H as [_ ->]. reflexivity.
  - destruct (fk_game db (Boxscore.game_id a0) &&
              fk_player db (Boxscore.player_id a0) &&
              fk_team db (Boxscore.team_id a0)).
    + apply put_ok in H. exact H.
    + discriminate.
Qed.

Ltac pure_ok H :=
  repeat (let x := fresh "x" in
          let Hx := fresh "Hx" in
          apply rbind_ok in H; destruct H as (x & Hx & H)).

(** The row a call builds, column by column. *)
Lemma boxscore_line_columns game_id player_id team_id batting row :
  boxscore_line game_id player_id team_id (PDict batting) = Ok row ->
  forall ext col, In (ext, col) batting_columns ->
    as_int (match assoc ext batting with Some v => v | None => PInt 0 end)
    = Ok (match boxscore_column row col with Some z => z | None => None end)
    /\ boxscore_column row col <> None.
Proof.
  unfold boxscore_line, boxscore_params, dict_get. cbn [rbind].
  unfold boxscore_of_params, int_param, param. cbn.
  intros H. pure_ok H. inversion H; subst row; clear H.
  intros ext col Hin. simpl in Hin.
  repeat (destruct Hin as [Hin|Hin];
          [inversion Hin; subst ext col; cbn; split;
           [assumption | discriminate] | ]).
  contradiction.
Qed.

(** What a returning call of [_insert_boxscore_stats] has done. *)
Lemma _insert_boxscore_stats_spec
    game_id player_id team_id batting db db' :
  _insert_boxscore_stats game_id player_id team_id (PDict batting) db
    = (Ok tt, db') ->
  exists row,
    boxscore_line game_id player_id team_id (PDict batting) = Ok row /\
    (boxscore_exists db (Boxscore.game_id row) (Boxscore.player_id row)
       = true -> db' = db) /\
    (boxscore_exists db (Boxscore.game_id row) (Boxscore.player_id row)
       = false -> db' = set_boxscore db (boxscore db ++ [row])) /\
    (forall ext col v z, In (ext, col) batting_columns ->
       assoc ext batting = Some v -> as_int v = Ok z ->
       boxscore_column row col = Some z) /\
    (forall ext col, In (ext, col) batting_columns ->
       assoc ext batting = None ->
       boxscore_column row col = Some (Some 0)).
Proof.
  intros H. apply _insert_boxscore_stats_ok in H.
  destruct H as (row & Hrow & Hdb). exists row.
  split; [exact Hrow|].
  split; [intros E; rewrite E in Hdb; exact Hdb|].
  split; [intros E; rewrite E in Hdb; exact Hdb|].
  split.
  - intros ext col v z Hin Hv Hz.
    destruct (boxscore_line_columns _ _ _ _ _ Hrow ext col Hin) as [Hc Hn].
    rewrite Hv, Hz in Hc.
    destruct (boxscore_column row col); [congruence | contradiction].
  - intros ext col Hin Hv.
    destruct (boxscore_line_columns _ _ _ _ _ Hrow ext col Hin) as [Hc Hn].
    rewrite Hv in Hc. simpl in Hc.
    destruct (boxscore_column row col); [congruence | contradiction].
Qed.


(** C2 (as amended). A call of the boxscore line upserter that returns
    has built one row from its arguments, every stat column from the
    payload field [batting_columns] pairs it with and 0 for a field the
    payload lacks; it has appended that row when no row with the same
    (game_id, player_id) was stored, and has left the database exactly
    as it was when one was. *)
Theorem C2_insert_if_absent_else_untouched
    game_id player_id team_id batting db db' :
  _insert_boxscore_stats game_id player_id team_id (PDict batting) db
    = (Ok tt, db') ->
  exists row,
    boxscore_line game_id player_id team_id (PDict batting) = Ok row /\
    (boxscore_exists db (Boxscore.game_id row) (Boxscore.player_id row)
       = true -> db' = db) /\
    (boxscore_exists db (Boxscore.game_id row) (Boxscore.player_id row)
       = false -> db' = set_boxscore db (boxscore db ++ [row])) /\
    (forall ext col v z, In (ext, col) batting_columns ->
       assoc ext batting = Some v -> as_int v = Ok z ->
       boxscore_column row col = Some z) /\
    (forall ext col, In (ext, col) batting_columns ->
       assoc ext batting = None ->
       boxscore_column row col = Some (Some 0)).
Proof. apply _insert_boxscore_stats_spec. Qed.


(** ** What a step leaves alone *)

Section Preservation.

Context {S : Type} (R : S -> S -> Prop).
Hypothesis R_refl : forall s, R s s.
Hypothesis R_trans : forall s1 s2 s3, R s1 s2 -> R s2 s3 -> R s1 s3.

Lemma preserves_ret {A} (a : A) : preserves R (ret a).
Proof. intros s r s' H. inversion H. apply R_refl. Qed.

Lemma preserves_raise {A} (e : exn) : preserves R (@raise S A e).
Proof. intros s r s' H. inversion H. apply R_refl. Qed.

Lemma preserves_lift {A} (x : result A) : preserves R (lift x).
Proof. intros s r s' H. inversion H. apply R_refl. Qed.

Lemma preserves_get : preserves R (@get S).
Proof. intros s r s' H. inversion H. apply R_refl. Qed.

Lemma preserves_bind {A B} (m : M S A) (k : A -> M S B) :
  preserves R m -> (forall a, preserves R (k a)) -> preserves R (bind m k).
Proof.
  intros Hm Hk s r s'. unfold bind.
  destruct (m s) as [[a|e] s1] eqn:E; intros H.
  - apply R_trans with s1; [eapply Hm; eassumption | eapply Hk; eassumption].
  - inversion H; subst. eapply Hm; eassumption.
Qed.

Lemma preserves_when (c : bool) (body : M S unit) :
  preserves R body -> preserves R (when c body).
Proof. destruct c; simpl; auto using preserves_ret. Qed.

Lemma preserves_try_except {A} (body : M S A) (handler : exn -> M S A) :
  preserves R body -> (forall e, preserves R (handler e)) ->
  preserves R (try_except body handler).
Proof.
  intros Hb Hh s r s'. unfold try_except.
  destruct (body s) as [[a|e] s1] eqn:E; intros H.
  - inversion H; subst. eapply Hb; eassumption.
  - apply R_trans with s1; [eapply Hb; eassumption | eapply Hh; eassumption].
Qed.

Lemma preserves_bind_lift {A B} (x : result A) (k : A -> M S B) :
  (forall a, x = Ok a -> preserves R (k a)) ->
  preserves R (bind (lift x) k).
Proof.
  intros Hk s r s'. unfold bind, lift. destruct x as [a|e]; intros H.
  - eapply Hk; [reflexivity | eassumption].
  - inversion H. apply R_refl.
Qed.

Lemma preserves_when_true (c : bool) (body : M S unit) :
  (c = true -> preserves R body) -> preserves R (when c body).
Proof.
  destruct c; simpl; intros H; [auto | apply preserves_ret].
Qed.

Lemma preserves_for_each {A} (l : list A) (body : A -> M S unit) :
  (forall x, In x l -> preserves R (body x)) ->
  preserves R (for_each l body).
Proof.
  induction l as [|x l IH]; simpl; intros Hbody.
  - apply preserves_ret.
  - apply preserves_bind; [apply Hbody; auto|].
    intros _. apply IH. intros y Hy. apply Hbody. auto.
Qed.

End Preservation.

Lemma keeps_refl {T} (f : database -> T) db : keeps f db db.
Proof. reflexivity. Qed.

Lemma keeps_trans {T} (f : database -> T) db1 db2 db3 :
  keeps f db1 db2 -> keeps f db2 db3 -> keeps f db1 db3.
Proof. unfold keeps. congruence. Qed.

(** A statement run to its end: case on every test it makes. *)
Ltac statement_cases H :=
  unfold bind, lift, get, put, ret, raise in H;
  repeat match type of H with
         | context [match ?x with _ => _ end] => destruct x eqn:?
         | context [if ?x then _ else _] => destruct x eqn:?
         end;
  inversion H; subst.

Lemma query_insert_raw_json_keeps {T} (f : database -> T) ps json_data t :
  (forall db l, f (set_raw_json_data db l) = f db) ->
  preserves (keeps f) (query_insert_raw_json ps json_data t).
Proof.
  intros Hf s r s' H. unfold query_insert_raw_json in H.
  statement_cases H; unfold keeps; auto.
Qed.

Lemma query_insert_team_keeps {T} (f : database -> T) ps :
  (forall db l, f (set_teams db l) = f db) ->
  preserves (keeps f) (query_insert_team ps).
Proof.
  intros Hf s r s' H. unfold query_insert_team in H.
  statement_cases H; unfold keeps; auto.
Qed.

Lemma query_insert_player_keeps {T} (f : database -> T) ps :
  (forall db l, f (set_players db l) = f db) ->
  preserves (keeps f) (query_insert_player ps).
Proof.
  intros Hf s r s' H. unfold query_insert_player in H.
  statement_cases H; unfold keeps; auto.
Qed.

Lemma query_upsert_game_keeps {T} (f : database -> T) ps :
  (forall db l, f (set_games db l) = f db) ->
  preserves (keeps f) (query_upsert_game ps).
Proof.
  intros Hf s r s' H. unfold query_upsert_game, insert_game in H.
  statement_cases H; unfold keeps; auto.
Qed.

Lemma query_insert_boxscore_keeps {T} (f : database -> T) ps :
  (forall db l, f (set_boxscore db l) = f db) ->
  preserves (keeps f) (query_insert_boxscore ps).
Proof.
  intros Hf s r s' H. unfold query_insert_boxscore in H.
  statement_cases H; unfold keeps; auto.
Qed.

Create HintDb frame.

Lemma keeps_ret {T A} (f : database -> T) (a : A) :
  preserves (keeps f) (ret a).
Proof. apply preserves_ret, keeps_refl. Qed.

Lemma keeps_raise {T A} (f : database -> T) e :
  preserves (keeps f) (@raise database A e).
Proof. apply preserves_raise, keeps_refl. Qed.

Lemma keeps_lift {T A} (f : database -> T) (x : result A) :
  preserves (keeps f) (lift x).
Proof. apply preserves_lift, keeps_refl. Qed.

Lemma keeps_bind {T A B} (f : database -> T) (m : M database A)
    (k : A -> M database B) :
  preserves (keeps f) m -> (forall a, preserves (keeps f) (k a)) ->
  preserves (keeps f) (bind m k).
Proof. apply preserves_bind, keeps_trans. Qed.

Lemma keeps_when {T} (f : database -> T) c (body : M database unit) :
  preserves (keeps f) body -> preserves (keeps f) (when c body).
Proof. apply preserves_when, keeps_refl. Qed.

Lemma keeps_try_except {T A} (f : database -> T) (body : M database A) h :
  preserves (keeps f) body -> (forall e, preserves (keeps f) (h e)) ->
  preserves (keeps f) (try_except body h).
Proof. apply preserves_try_except, keeps_trans. Qed.

Lemma keeps_for_each {T A} (f : database -> T) (l : list A) body :
  (forall x, preserves (keeps f) (body x)) ->
  preserves (keeps f) (for_each l body).
Proof.
  intros H. apply preserves_for_each;
    [apply keeps_refl | apply keeps_trans | auto].
Qed.

Lemma keeps_when_key {T} (f : database -> T) data key body :
  (forall v, preserves (keeps f) (body v)) ->
  preserves (keeps f) (when_key data key body).
Proof.
  intros H. unfold when_key.
  destruct data; try apply keeps_raise.
  destruct (assoc key items); [apply H | apply keeps_ret].
Qed.

#[local] Hint Resolve keeps_ret keeps_raise keeps_lift keeps_bind keeps_when
  keeps_try_except keeps_for_each keeps_when_key
  query_insert_raw_json_keeps query_insert_team_keeps
  query_insert_player_keeps query_upsert_game_keeps
  query_insert_boxscore_keeps : frame.

Lemma _save_raw_json_keeps {T} (f : database -> T) now game_id kind data :
  (forall db l, f (set_raw_json_data db l) = f db) ->
  preserves (keeps f) (_save_raw_json now game_id kind data).
Proof. unfold _save_raw_json. auto with frame. Qed.

Lemma _insert_team_keeps {T} (f : database -> T) team_data :
  (forall db l, f (set_teams db l) = f db) ->
  preserves (keeps f) (_insert_team team_data).
Proof. unfold _insert_team. auto with frame. Qed.

Lemma _insert_player_keeps {T} (f : database -> T) player_data team_id :
  (forall db l, f (set_players db l) = f db) ->
  preserves (keeps f) (_insert_player player_data team_id).
Proof. unfold _insert_player. auto with frame. Qed.

Lemma _insert_game_keeps {T} (f : database -> T) now gid gd ht awt gdate meta :
  (forall db l, f (set_games db l) = f db) ->
  preserves (keeps f) (_insert_game now gid gd ht awt gdate meta).
Proof. unfold _insert_game. auto with frame. Qed.

Lemma _insert_boxscore_stats_keeps {T} (f : database -> T) gid pid tid b :
  (forall db l, f (set_boxscore db l) = f db) ->
  preserves (keeps f) (_insert_boxscore_stats gid pid tid b).
Proof. unfold _insert_boxscore_stats. auto with frame. Qed.

#[local] Hint Resolve _save_raw_json_keeps _insert_team_keeps
  _insert_player_keeps _insert_game_keeps _insert_boxscore_stats_keeps
  : frame.

(** Processing a boxscore writes no [games] row. *)
Lemma _process_boxscore_data_keeps_games game_id boxscore_data :
  preserves (keeps games) (_process_boxscore_data game_id boxscore_data).
Proof.
  unfold _process_boxscore_data, process_team.
  apply keeps_try_except; [|auto with frame].
  apply keeps_bind; [auto with frame|]. intros teams_data.
  apply keeps_for_each. intros team_type.
  repeat (simple apply keeps_bind; [auto with frame|]; intros).
  apply keeps_for_each. intros [player_key player_data].
  unfold process_player.
  apply keeps_when.
  repeat (simple apply keeps_bind; [auto 7 with frame|]; intros).
  auto 7 with frame.
Qed.

(** Processing the game data writes no [boxscore] row. *)
Lemma _process_game_data_keeps_boxscore now game_id game_data gdate meta :
  preserves (keeps boxscore)
    (_process_game_data now game_id game_data gdate meta).
Proof.
  unfold _process_game_data.
  apply keeps_try_except; [|auto with frame].
  repeat (simple apply keeps_bind; [auto with frame|]; intros).
  auto with frame.
Qed.

(** ** The game upserter *)

Lemma existsb_false_filter {A} (f : A -> bool) (l : list A) :
  existsb f l = false -> filter f l = [].
Proof.
  induction l as [|x l IH]; simpl; [reflexivity|].
  destruct (f x); simpl; [discriminate | exact IH].
Qed.

Lemma existsb_true_filter {A} (f : A -> bool) (l : list A) :
  existsb f l = true -> filter f l <> [].
Proof.
  induction l as [|x l IH]; simpl; [discriminate|].
  destruct (f x); simpl; [discriminate | exact IH].
Qed.

Lemma games_with_update (set : Game.row -> Game.row) id rows :
  (forall old, Game.game_id (set old) = Game.game_id old) ->
  games_with id (update_where_game_id set id rows)
  = map set (games_with id rows).
Proof.
  intros Hset. unfold games_with, update_where_game_id.
  induction rows as [|r rows IH]; simpl; [reflexivity|].
  destruct (sql_eq (Game.game_id r) id) eqn:E; simpl.
  - rewrite Hset, E. simpl. f_equal. exact IH.
  - rewrite E. exact IH.
Qed.

Lemma games_with_app id l1 l2 :
  games_with id (l1 ++ l2) = (games_with id l1 ++ games_with id l2)%list.
Proof. apply filter_app. Qed.

Lemma sql_eq_refl_some (id : option Z) :
  id <> None -> sql_eq id id = true.
Proof.
  destruct id as [z|]; [|congruence]. intros _. simpl. apply Z.eqb_refl.
Qed.

(** What a returning call of [_insert_game] has done. *)
Lemma _insert_game_spec now gid gd ht awt gdate meta db db' :
  _insert_game now gid gd ht awt gdate meta db = (Ok tt, db') ->
  exists new,
    game_line now gid gd ht awt gdate meta = Ok new /\
    Game.game_id new <> None /\
    db' = set_games db
            (if game_exists db (Game.game_id new)
             then update_where_game_id (set_scores_and_metadata new)
                    (Game.game_id new) (games db)
             else games db ++ [new]).
Proof.
  unfold _insert_game, game_line. intros H. run_ok H.
  rewrite Hrun. cbn [rbind].
  unfold query_upsert_game in H. run_ok H.
  rewrite Hrun0. exists a0. split; [reflexivity|].
  destruct (game_exists db (Game.game_id a0)) eqn:E.
  - apply put_ok in H. split; [|exact H].
    intros Hnone. rewrite Hnone in E. unfold game_exists in E.
    clear - E. induction (games db) as [|r l IH]; simpl in E; [discriminate|].
    destruct (Game.game_id r); simpl in E; auto.
  - unfold insert_game in H. run_ok H.
    destruct (Game.game_id a0) eqn:Eid; [|discriminate].
    split; [discriminate|].
    destruct (fk_team db (Game.home_team_id a0) &&
              fk_team db (Game.away_team_id a0)); [|discriminate].
    apply put_ok in H. exact H.
Qed.

(** After a returning call there is exactly one way the rows under the
    game's id can look: the stored ones with the nine updated columns
    taken from the new row, or the new row alone. *)
Lemma _insert_game_rows now gid gd ht awt gdate meta db db' :
  _insert_game now gid gd ht awt gdate meta db = (Ok tt, db') ->
  exists new,
    game_line now gid gd ht awt gdate meta = Ok new /\
    Game.game_id new <> None /\
    games_with (Game.game_id new) (games db')
    = match games_with (Game.game_id new) (games db) with
      | [] => [new]
      | old => map (set_scores_and_metadata new) old
      end.
Proof.
  intros H. apply _insert_game_spec in H.
  destruct H as (new & Hline & Hid & ->). exists new.
  split; [exact Hline|]. split; [exact Hid|]. simpl.
  unfold game_exists.
  destruct (existsb (fun r => sql_eq (Game.game_id r) (Game.game_id new))
              (games db)) eqn:E.
  - rewrite games_with_update by reflexivity.
    apply existsb_true_filter in E.
    change (games_with (Game.game_id new) (games db) <> []) in E.
    destruct (games_with (Game.game_id new) (games db));
      [contradiction | reflexivity].
  - rewrite games_with_app.
    apply existsb_false_filter in E.
    change (games_with (Game.game_id new) (games db) = []) in E.
    rewrite E. simpl. rewrite sql_eq_refl_some by exact Hid. reflexivity.
Qed.

Lemma try_except_reraise {S A} (m : M S A) s :
  try_except m (fun e => raise e) s = m s.
Proof. unfold try_except, raise. destruct (m s) as [[a|e] s']; auto. Qed.

Ltac rewrite_reads :=
  repeat match goal with
         | H : ?t = Ok _ |- context [?t] => progress rewrite H
         end.

(** The columns of the row [_insert_game] builds that the claims are
    about: the key, the team ids, the status and the metadata. *)
Lemma game_line_columns now gid gd ht awt gdate meta new :
  game_line now gid gd ht awt gdate meta = Ok new ->
  as_int gid = Ok (Game.game_id new) /\
  as_int (got (dict_get1 ht "id")) = Ok (Game.home_team_id new) /\
  as_int (got (dict_get1 awt "id")) = Ok (Game.away_team_id new) /\
  Game.game_status new
    = Some (if truthy (got (dict_get1 gd "currentInning"))
            then "Live" else "Final") /\
  as_str (py_or (got (dict_get1 (metadata_or_empty meta) "game_type"))
                (got (dict_get1 gd "gameType")))
    = Ok (Game.game_type new) /\
  as_str (py_or (got (dict_get1 (metadata_or_empty meta)
                        "series_description"))
                (got (dict_get1 gd "seriesDescription")))
    = Ok (Game.series_description new) /\
  as_date (py_or (got (dict_get1 (metadata_or_empty meta) "official_date"))
                 (got (dict_get1 gd "officialDate")))
    = Ok (Game.official_date new).
Proof.
  unfold game_line. intros H.
  apply rbind_ok in H. destruct H as (ps & Hps & H).
  unfold game_params in Hps. cbv zeta in Hps.
  pure_ok Hps. inversion Hps; subst ps; clear Hps.
  unfold game_of_params, int_param, str_param, date_param, param in H.
  cbn in H. pure_ok H. inversion H; subst new; clear H.
  cbn [Game.game_id Game.home_team_id Game.away_team_id Game.game_status
       Game.game_type Game.series_description Game.official_date].
  rewrite_reads. cbn [got].
  repeat split; try assumption.
  match goal with
  | H : as_str (if truthy ?v then _ else _) = Ok ?x |- ?x = _ =>
      destruct (truthy v); simpl in H; inversion H; reflexivity
  end.
Qed.

Lemma in_games_with id row rows :
  In row rows -> Game.game_id row = id -> id <> None ->
  In row (games_with id rows).
Proof.
  intros Hin Hid Hn. unfold games_with. apply filter_In. split; [exact Hin|].
  rewrite Hid. apply sql_eq_refl_some. exact Hn.
Qed.

(** After a returning call, every row stored under the game's id has
    its nine updated columns from the row the call built. *)
Lemma _insert_game_row_columns now gid gd ht awt gdate meta db db' :
  _insert_game now gid gd ht awt gdate meta db = (Ok tt, db') ->
  exists new,
    game_line now gid gd ht awt gdate meta = Ok new /\
    Game.game_id new <> None /\
    games_with (Game.game_id new) (games db') <> [] /\
    forall row, In row (games db') ->
                Game.game_id row = Game.game_id new ->
                set_scores_and_metadata new row = row.
Proof.
  intros H. apply _insert_game_rows in H.
  destruct H as (new & Hline & Hid & Hrows). exists new.
  split; [exact Hline|]. split; [exact Hid|]. split.
  - rewrite Hrows.
    destruct (games_with (Game.game_id new) (games db)); discriminate.
  - intros row Hin Hrow.
    apply (in_games_with (Game.game_id new)) in Hin; try assumption.
    rewrite Hrows in Hin.
    destruct (games_with (Game.game_id new) (games db)) as [|old olds].
    + destruct Hin as [<-|[]]. destruct new; reflexivity.
    + apply in_map_iff in Hin. destruct Hin as (old' & <- & _).
      reflexivity.
Qed.

Lemma when_insert_team_keeps {T} (f : database -> T) c team s r s' :
  (forall db l, f (set_teams db l) = f db) ->
  when c (_insert_team team) s = (r, s') -> f s' = f s.
Proof.
  intros Hf H.
  apply (preserves_when (keeps f) (keeps_refl f) c (_insert_team team)
           (_insert_team_keeps f team Hf) s r s' H).
Qed.

(** What a returning call of [_process_game_data] has done to [games]
    and [boxscore]. *)
Lemma _process_game_data_rows now gid gd gdate meta db db' :
  _process_game_data now gid gd gdate meta db = (Ok tt, db') ->
  exists new,
    payload_game_line now gid gd gdate meta = Ok new /\
    Game.game_id new <> None /\
    games_with (Game.game_id new) (games db')
    = match games_with (Game.game_id new) (games db) with
      | [] => [new]
      | old => map (set_scores_and_metadata new) old
      end /\
    (forall row, In row (games db') ->
                 Game.game_id row = Game.game_id new ->
                 set_scores_and_metadata new row = row) /\
    boxscore db' = boxscore db.
Proof.
  intros H.
  pose proof (_process_game_data_keeps_boxscore _ _ _ _ _ _ _ _ H) as Hbox.
  unfold _process_game_data in H. rewrite try_except_reraise in H.
  run_ok H.
  repeat match goal with
         | Hw : when _ (_insert_team _) _ = _ |- _ =>
             apply (when_insert_team_keeps games) in Hw; [|reflexivity]
         end.
  pose proof (_insert_game_rows _ _ _ _ _ _ _ _ _ H)
    as (new & Hline & Hid & Hrows).
  pose proof (_insert_game_row_columns _ _ _ _ _ _ _ _ _ H)
    as (new' & Hline' & _ & _ & Hcols).
  rewrite Hline in Hline'. inversion Hline'; subst new'.
  exists new. unfold payload_game_line.
  rewrite_reads. cbn [rbind]. rewrite_reads.
  unfold keeps in Hbox.
  repeat match goal with
         | Hk : games _ = games _ |- _ => rewrite Hk in Hrows; clear Hk
         end.
  auto.
Qed.

Lemma games_with_nonempty id rows :
  games_with id rows <> [] ->
  exists row, In row rows /\ sql_eq (Game.game_id row) id = true.
Proof.
  unfold games_with. intros H.
  destruct (filter (fun r => sql_eq (Game.game_id r) id) rows) as [|r l] eqn:E;
    [contradiction|].
  exists r.
  apply (proj1 (filter_In (fun r => sql_eq (Game.game_id r) id) r rows)).
  rewrite E. left. reflexivity.
Qed.

Lemma sql_eq_true a b : sql_eq a b = true -> a = b /\ a <> None.
Proof.
  destruct a as [x|], b as [y|]; simpl; try discriminate.
  intros H. apply Z.eqb_eq in H. subst. split; [reflexivity|discriminate].
Qed.

(** C9 (as amended). After a call of [_insert_game] that returns, the
    game has a stored row, and the status of every row stored under the
    game's id is "Live" when the payload's currentInning is truthy
    (present, not null, not 0, not empty) and "Final" in every other
    case. *)
Theorem C9_status_from_truthy_inning
    now game_id game_data home_team away_team game_date game_metadata
    db db' :
  _insert_game now game_id game_data home_team away_team game_date
    game_metadata db = (Ok tt, db') ->
  (exists row, In row (games db') /\
               as_int game_id = Ok (Game.game_id row)) /\
  (forall row, In row (games db') ->
     as_int game_id = Ok (Game.game_id row) ->
     Game.game_status row
     = Some (if truthy (got (dict_get1 game_data "currentInning"))
             then "Live" else "Final")).
Proof.
  intros H. apply _insert_game_row_columns in H.
  destruct H as (new & Hline & Hid & Hex & Hcols).
  apply game_line_columns in Hline.
  destruct Hline as (Hgid & _ & _ & Hstatus & _).
  split.
  - apply games_with_nonempty in Hex. destruct Hex as (row & Hin & Heq).
    exists row. split; [exact Hin|].
    apply sql_eq_true in Heq. destruct Heq as [-> _]. exact Hgid.
  - intros row Hin Hrow. rewrite Hgid in Hrow. inversion Hrow as [Hrow'].
    rewrite <- (Hcols row Hin (eq_sym Hrow')). simpl. exact Hstatus.
Qed.

(** The UPDATE branch leaves the team ids of every stored game as they
    were, whatever the payload says. *)
Lemma update_where_keeps_team_ids new id rows :
  map Game.home_team_id
      (update_where_game_id (set_scores_and_metadata new) id rows)
  = map Game.home_team_id rows /\
  map Game.away_team_id
      (update_where_game_id (set_scores_and_metadata new) id rows)
  = map Game.away_team_id rows.
Proof.
  unfold update_where_game_id.
  induction rows as [|r rows [IHh IHa]]; simpl; [auto|].
  rewrite IHh, IHa.
  destruct (sql_eq (Game.game_id r) id); auto.
Qed.

Lemma _insert_game_update_keeps_team_ids
    now gid gd ht awt gdate meta db db' new :
  _insert_game now gid gd ht awt gdate meta db = (Ok tt, db') ->
  game_line now gid gd ht awt gdate meta = Ok new ->
  game_exists db (Game.game_id new) = true ->
  map Game.home_team_id (games db') = map Game.home_team_id (games db) /\
  map Game.away_team_id (games db') = map Game.away_team_id (games db).
Proof.
  intros H Hline Hex. apply _insert_game_spec in H.
  destruct H as (new' & Hline' & _ & ->).
  rewrite Hline in Hline'. inversion Hline'; subst new'.
  rewrite Hex. simpl. apply update_where_keeps_team_ids.
Qed.

(** ** Recovering the game id from a document *)

Lemma _extract_game_id_top_level_game_id items v :
  assoc "game_id" items = Some v ->
  _extract_game_id_from_data (PDict items) = v.
Proof. intros H. simpl. rewrite H. reflexivity. Qed.

Lemma _extract_game_id_top_level_gamePk items v :
  assoc "game_id" items = None ->
  assoc "gamePk" items = Some v ->
  _extract_game_id_from_data (PDict items) = v.
Proof. intros H1 H2. simpl. rewrite H1, H2. reflexivity. Qed.

Lemma _extract_game_id_one_level_down items :
  assoc "game_id" items = None ->
  assoc "gamePk" items = None ->
  _extract_game_id_from_data (PDict items) = nested_gamePk items.
Proof. intros H1 H2. simpl. rewrite H1, H2. reflexivity. Qed.

(** A document none of whose nested objects has a [gamePk] gives
    [None]; there is no further recourse. *)
Lemma nested_gamePk_none items :
  (forall key inner, In (key, PDict inner) items ->
                     assoc "gamePk" inner = None) ->
  nested_gamePk items = PNone.
Proof.
  induction items as [|[key v] items IH]; simpl; intros H; [reflexivity|].
  destruct v as [| | | | |inner|];
    try (apply IH; intros k i Hin; apply (H k i); auto).
  rewrite (H key inner) by auto.
  apply IH. intros k i Hin. apply (H k i). auto.
Qed.

(** ** The combined path, from the file to the store *)

(** [_load_combined_data] in one equation: [False] when a read of the
    header raises; otherwise the writes run in the transaction, which
    commits them all and gives [True], or rolls back and gives
    [False]. *)
Lemma _load_combined_data_cases now data c :
  _load_combined_data now data c
  = match combined_header data with
    | Raise _ => (Ok false, c)
    | Ok (game_id, game_date, game_metadata) =>
        match combined_writes now game_id game_date game_metadata data
                (session c) with
        | (Ok _, s') =>
            (Ok true, {| autocommit := autocommit c; committed := s';
                         session := s' |})
        | (Raise _, _) =>
            (Ok false, {| autocommit := autocommit c;
                          committed := committed c;
                          session := committed c |})
        end
    end.
Proof.
  unfold _load_combined_data, try_except, bind, lift, transaction, ret.
  destruct (combined_header data) as [[[gid gdate] meta]|e]; [|reflexivity].
  destruct (combined_writes now gid gdate meta data (session c))
    as [[u|e] s']; reflexivity.
Qed.

(** A file whose name contains [combined_data] goes down the combined
    path. *)
Lemma load_combined_file now path data srv :
  contains path "combined_data" = true ->
  truthy data = true ->
  reachable srv = true ->
  load_json_to_database now path data srv
  = (fst (_load_combined_data now data (connect srv)),
     disconnect srv (snd (_load_combined_data now data (connect srv)))).
Proof.
  intros Hpath Hdata Hsrv.
  unfold load_json_to_database. rewrite Hdata, Hpath.
  change (negb true) with false. cbv iota.
  unfold with_connection. rewrite Hsrv.
  unfold try_except. rewrite _load_combined_data_cases.
  destruct (combined_header data) as [[[gid gdate] meta]|e]; [|reflexivity].
  destruct (combined_writes now gid gdate meta data (session (connect srv)))
    as [[u|e] s']; reflexivity.
Qed.

Lemma load_json_to_database_true now path data srv srv' :
  load_json_to_database now path data srv = (Ok true, srv') ->
  truthy data = true /\ reachable srv = true.
Proof.
  unfold load_json_to_database, with_connection.
  destruct (truthy data); simpl; [|discriminate].
  destruct (reachable srv); [|discriminate]. auto.
Qed.

(** A combined load that reports success has run all its writes on the
    store it found and committed the outcome. *)
Lemma load_combined_file_true now path data srv srv' :
  contains path "combined_data" = true ->
  load_json_to_database now path data srv = (Ok true, srv') ->
  exists game_id game_date game_metadata,
    combined_header data = Ok (game_id, game_date, game_metadata) /\
    combined_writes now game_id game_date game_metadata data (store srv)
      = (Ok tt, store srv').
Proof.
  intros Hpath H.
  destruct (load_json_to_database_true _ _ _ _ _ H) as [Hdata Hsrv].
  rewrite load_combined_file in H by assumption.
  rewrite _load_combined_data_cases in H.
  destruct (combined_header data) as [[[gid gdate] meta]|e];
    [|discriminate].
  exists gid, gdate, meta. split; [reflexivity|].
  simpl session in H.
  destruct (combined_writes now gid gdate meta data (store srv))
    as [[[]|e] s']; simpl in H; [|discriminate].
  inversion H. reflexivity.
Qed.

Lemma combined_header_dict items :
  combined_header (PDict items)
  = Ok (got (dict_get1 (PDict items) "game_id"),
        got (dict_get1 (PDict items) "game_date"),
        PDict [("game_type", got (dict_get1 (PDict items) "game_type"));
               ("official_date",
                 got (dict_get1 (PDict items) "official_date"));
               ("series_description",
                 got (dict_get1 (PDict items) "series_description"))]).
Proof. reflexivity. Qed.

(** What the writes of a combined load have done to [games] when the
    payload has a [game_data] entry. *)
Lemma combined_writes_games now gid gdate meta items game_data db db' :
  assoc "game_data" items = Some game_data ->
  combined_writes now gid gdate meta (PDict items) db = (Ok tt, db') ->
  exists new,
    payload_game_line now gid game_data gdate meta = Ok new /\
    Game.game_id new <> None /\
    games_with (Game.game_id new) (games db')
    = match games_with (Game.game_id new) (games db) with
      | [] => [new]
      | old => map (set_scores_and_metadata new) old
      end /\
    (forall row, In row (games db') ->
                 Game.game_id row = Game.game_id new ->
                 set_scores_and_metadata new row = row).
Proof.
  intros Hgd H. unfold combined_writes in H. run_ok H.
  simpl when_key in Hrun0. rewrite Hgd in Hrun0.
  destruct a0.
  apply _process_game_data_rows in Hrun0.
  destruct Hrun0 as (new & Hline & Hid & Hrows & Hcols & _).
  assert (H1 : games s = games db).
  { eapply (_save_raw_json_keeps games); [reflexivity | eassumption]. }
  assert (H2 : games db' = games s0).
  { eapply (keeps_when_key games); [|eassumption].
    intros v. apply _process_boxscore_data_keeps_games. }
  exists new. rewrite H2, <- H1. auto.
Qed.

Lemma payload_game_line_teams now gid gd gdate meta new :
  payload_game_line now gid gd gdate meta = Ok new ->
  exists home_team away_team,
    (teams_data <~ dict_get gd "teams" (PDict []) ;;
     side_team teams_data "home") = Ok home_team /\
    (teams_data <~ dict_get gd "teams" (PDict []) ;;
     side_team teams_data "away") = Ok away_team /\
    game_line now gid gd home_team away_team gdate meta = Ok new.
Proof.
  unfold payload_game_line. intros H.
  do 3 (apply rbind_ok in H; destruct H as (? & ? & H)).
  rewrite_reads. cbn [rbind]. eauto.
Qed.

(** C8. After a combined load that reports success, for a payload with
    a game_data entry, the game has a stored row, and in every row
    stored under the payload's game_id the columns game_type,
    series_description and official_date hold the payload's top-level
    value whenever that value is there (truthy: not null, not empty),
    whatever game_data carries under gameType, seriesDescription and
    officialDate. *)
Theorem C8_top_level_metadata_wins now path items game_data srv srv' :
  contains path "combined_data" = true ->
  load_json_to_database now path (PDict items) srv = (Ok true, srv') ->
  assoc "game_data" items = Some game_data ->
  (exists row,
     In row (games (store srv')) /\
     as_int (got (dict_get1 (PDict items) "game_id"))
       = Ok (Game.game_id row)) /\
  (forall row,
     In row (games (store srv')) ->
     as_int (got (dict_get1 (PDict items) "game_id"))
       = Ok (Game.game_id row) ->
     (forall v, assoc "game_type" items = Some v -> truthy v = true ->
                as_str v = Ok (Game.game_type row)) /\
     (forall v, assoc "series_description" items = Some v ->
                truthy v = true ->
                as_str v = Ok (Game.series_description row)) /\
     (forall v, assoc "official_date" items = Some v -> truthy v = true ->
                as_date v = Ok (Game.official_date row))).
Proof.
  intros Hpath Hload Hgd.
  apply load_combined_file_true in Hload; [|exact Hpath].
  destruct Hload as (gid & gdate & meta & Hhead & Hwrites).
  rewrite combined_header_dict in Hhead. inversion Hhead; subst; clear Hhead.
  destruct (combined_writes_games _ _ _ _ _ _ _ _ Hgd Hwrites)
    as (new & Hline & Hid & Hrows & Hcols).
  apply payload_game_line_teams in Hline.
  destruct Hline as (ht & awt & _ & _ & Hline).
  apply game_line_columns in Hline.
  destruct Hline as (Hgid & _ & _ & _ & Htype & Hseries & Hofficial).
  split.
  - assert (Hne : games_with (Game.game_id new) (games (store srv')) <> []).
    { rewrite Hrows.
      destruct (games_with (Game.game_id new) (games (store srv)));
        discriminate. }
    apply games_with_nonempty in Hne. destruct Hne as (row & Hin & Heq).
    exists row. split; [exact Hin|].
    apply sql_eq_true in Heq. destruct Heq as [-> _]. exact Hgid.
  - intros row Hin Hrow.
    pose proof (eq_trans (eq_sym Hgid) Hrow) as Hrow'.
    inversion Hrow' as [Hsame].
    rewrite <- (Hcols row Hin (eq_sym Hsame)).
    cbn [Game.game_type Game.series_description Game.official_date
         set_scores_and_metadata].
    cbn in Htype, Hseries, Hofficial.
    repeat split; intros v Hv Htruthy.
    + rewrite Hv in Htype. unfold py_or in Htype.
      rewrite Htruthy in Htype. exact Htype.
    + rewrite Hv in Hseries. unfold py_or in Hseries.
      rewrite Htruthy in Hseries. exact Hseries.
    + rewrite Hv in Hofficial. unfold py_or in Hofficial.
      rewrite Htruthy in Hofficial. exact Hofficial.
Qed.

(** ** Failures *)

Lemma execute_bind {A B} (m : M database A) (k : A -> M database B) c :
  execute (bind m k) c = bind (execute m) (fun a => execute (k a)) c.
Proof.
  unfold execute, bind.
  destruct (m (session c)) as [[a|e] s1]; simpl; [|reflexivity].
  destruct (k a s1) as [r s2]. destruct (autocommit c); reflexivity.
Qed.

(** The two paths without a transaction, in one equation each: the
    answer is whether the writes returned, and what they did up to
    their end or their failure stays in the session (and is committed
    as they go in autocommit mode). *)
Lemma _load_boxscore_data_cases now data c :
  _load_boxscore_data now data c
  = (Ok (is_ok (fst (boxscore_file_writes now data (session c)))),
     snd (execute (boxscore_file_writes now data) c)).
Proof.
  unfold _load_boxscore_data, boxscore_file_writes. cbv zeta.
  unfold try_except, bind, execute, ret.
  destruct (_save_raw_json now (_extract_game_id_from_data data) "boxscore"
              data (session c)) as [[u|e] s1]; simpl.
  - destruct (_process_boxscore_data (_extract_game_id_from_data data)
                data s1) as [[u'|e] s2]; simpl;
      destruct (autocommit c); reflexivity.
  - reflexivity.
Qed.

Lemma _load_game_data_cases now data c :
  _load_game_data now data c
  = (Ok (is_ok (fst (game_file_writes now data (session c)))),
     snd (execute (game_file_writes now data) c)).
Proof.
  unfold _load_game_data, game_file_writes. cbv zeta.
  unfold try_except, bind, execute, ret.
  destruct (_save_raw_json now (_extract_game_id_from_data data) "game_data"
              data (session c)) as [[u|e] s1]; simpl.
  - destruct (_process_game_data now (_extract_game_id_from_data data)
                data PNone PNone s1) as [[u'|e] s2]; simpl;
      destruct (autocommit c); reflexivity.
  - reflexivity.
Qed.

Lemma _load_combined_data_answer now data c :
  fst (_load_combined_data now data c)
  = Ok (is_ok (fst (combined_file_writes now data (session c)))).
Proof.
  rewrite _load_combined_data_cases. unfold combined_file_writes, bind, lift.
  destruct (combined_header data) as [[[gid gdate] meta]|e]; [|reflexivity].
  destruct (combined_writes now gid gdate meta data (session c))
    as [[u|e] s']; reflexivity.
Qed.

(** A file load never raises: its answer is whether the writes for the
    file's kind returned. *)
Lemma load_json_to_database_answer now path data srv :
  truthy data = true ->
  reachable srv = true ->
  fst (load_json_to_database now path data srv)
  = Ok (is_ok (fst (file_writes now path data (store srv))) &&
        (contains path "combined_data" || contains path "boxscore_raw" ||
         contains path "game_raw")).
Proof.
  intros Hdata Hsrv. unfold load_json_to_database, file_writes.
  rewrite Hdata. change (negb true) with false. cbv iota.
  unfold with_connection, try_except. rewrite Hsrv.
  destruct (contains path "combined_data").
  { pose proof (_load_combined_data_answer now data (connect srv)) as H.
    destruct (_load_combined_data now data (connect srv)) as [r c'].
    simpl in H. subst r. simpl.
    rewrite andb_true_r. reflexivity. }
  destruct (contains path "boxscore_raw").
  { rewrite _load_boxscore_data_cases. simpl.
    rewrite andb_true_r. reflexivity. }
  destruct (contains path "game_raw").
  { rewrite _load_game_data_cases. simpl.
    rewrite andb_true_r. reflexivity. }
  reflexivity.
Qed.

Lemma load_json_to_database_no_data now path data srv :
  truthy data = false ->
  load_json_to_database now path data srv = (Ok false, srv).
Proof.
  intros H. unfold load_json_to_database. rewrite H. reflexivity.
Qed.

Lemma load_json_to_database_unreachable now path data srv :
  reachable srv = false ->
  load_json_to_database now path data srv = (Ok false, srv).
Proof.
  intros H. unfold load_json_to_database.
  destruct (truthy data); [|reflexivity].
  change (negb true) with false. cbv iota.
  unfold with_connection. rewrite H. reflexivity.
Qed.

Lemma load_json_to_database_never_raises now path data srv :
  exists answer, fst (load_json_to_database now path data srv) = Ok answer.
Proof.
  destruct (truthy data) eqn:Hdata.
  - destruct (reachable srv) eqn:Hsrv.
    + rewrite load_json_to_database_answer by assumption. eauto.
    + rewrite load_json_to_database_unreachable by assumption. simpl. eauto.
  - rewrite load_json_to_database_no_data by assumption. simpl. eauto.
Qed.

(** A combined load leaves the store as it found it unless it reports
    success. *)
Lemma load_combined_file_false now path data srv :
  contains path "combined_data" = true ->
  fst (load_json_to_database now path data srv) = Ok false ->
  snd (load_json_to_database now path data srv) = srv.
Proof.
  intros Hpath H.
  destruct (truthy data) eqn:Hdata;
    [|rewrite load_json_to_database_no_data by assumption; reflexivity].
  destruct (reachable srv) eqn:Hsrv;
    [|rewrite load_json_to_database_unreachable by assumption;
      reflexivity].
  rewrite load_combined_file in * by assumption.
  rewrite _load_combined_data_cases in *.
  destruct (combined_header data) as [[[gid gdate] meta]|e].
  - destruct (combined_writes now gid gdate meta data
                (session (connect srv))) as [[u|e] s'];
      simpl in *; [discriminate|].
    destruct srv; simpl in *. subst. reflexivity.
  - destruct srv; simpl in *. subst. reflexivity.
Qed.

(** A boxscore-only file runs its writes on the connection as they
    come: the answer is whether they returned, and in autocommit mode
    the store ends where they ended or failed. *)
Lemma load_boxscore_file now path data srv :
  contains path "combined_data" = false ->
  contains path "boxscore_raw" = true ->
  truthy data = true ->
  reachable srv = true ->
  load_json_to_database now path data srv
  = (Ok (is_ok (fst (boxscore_file_writes now data (store srv)))),
     {| reachable := true;
        autocommit_mode := autocommit_mode srv;
        store := if autocommit_mode srv
                 then snd (boxscore_file_writes now data (store srv))
                 else store srv |}).
Proof.
  intros Hc Hb Hdata Hsrv.
  unfold load_json_to_database. rewrite Hdata, Hc, Hb.
  change (negb true) with false. cbv iota.
  unfold with_connection. rewrite Hsrv.
  unfold try_except. rewrite _load_boxscore_data_cases.
  unfold execute, disconnect, connect. simpl.
  destruct (boxscore_file_writes now data (store srv)) as [r s'].
  simpl. rewrite Hsrv. reflexivity.
Qed.

(** Of the file's name only its kind matters. *)
Lemma load_json_to_database_same_kind now path1 path2 data srv :
  contains path1 "combined_data" = contains path2 "combined_data" ->
  contains path1 "boxscore_raw" = contains path2 "boxscore_raw" ->
  contains path1 "game_raw" = contains path2 "game_raw" ->
  load_json_to_database now path1 data srv
  = load_json_to_database now path2 data srv.
Proof.
  intros Hc Hb Hg. unfold load_json_to_database.
  rewrite Hc, Hb, Hg. reflexivity.
Qed.

(** C5 (as amended). When the writes of a file load fail, with a
    payload that was read and a database that was reached, the loader
    does not raise to its caller: it returns False; and in the combined
    path the store is then as it was before the load. *)
Theorem C5_failed_write_returns_false now path data srv e db_at_failure :
  truthy data = true ->
  reachable srv = true ->
  file_writes now path data (store srv) = (Raise e, db_at_failure) ->
  fst (load_json_to_database now path data srv) = Ok false /\
  (contains path "combined_data" = true ->
   snd (load_json_to_database now path data srv) = srv).
Proof.
  intros Hdata Hsrv Hfail.
  assert (H : fst (load_json_to_database now path data srv) = Ok false).
  { rewrite load_json_to_database_answer by assumption.
    rewrite Hfail. reflexivity. }
  split; [exact H|].
  intros Hpath. apply load_combined_file_false; assumption.
Qed.

(** ** Loading a schedule *)

(** The class namespace holds the definition of line 494. *)
Lemma load_schedule_data_in_effect schedule_data srv :
  load_schedule_data schedule_data srv
  = load_schedule_data_494 schedule_data srv.
Proof. reflexivity. Qed.

Lemma for_each_returns {S A} (l : list A) (body : A -> M S unit) :
  (forall x, In x l -> forall s, exists s', body x s = (Ok tt, s')) ->
  forall s, exists s', for_each l body s = (Ok tt, s').
Proof.
  induction l as [|x l IH]; simpl; intros Hbody s.
  - exists s. reflexivity.
  - destruct (Hbody x (or_introl eq_refl) s) as (s1 & H1).
    destruct (IH (fun y Hy => Hbody y (or_intror Hy)) s1) as (s2 & H2).
    exists s2. unfold bind. rewrite H1. exact H2.
Qed.

(** One game of the schedule: whatever its writes do, the step
    returns. *)
Lemma schedule_game_step_returns game_date game c :
  is_dict game = true ->
  exists c', schedule_game_step game_date game c = (Ok tt, c').
Proof.
  intros Hgame. destruct game; try discriminate.
  unfold schedule_game_step, try_except.
  destruct (execute (schedule_game_writes (PDict items) game_date) c)
    as [[[]|e] c'].
  - eauto.
  - exists c'. reflexivity.
Qed.

Lemma schedule_date_step_returns date_entry c :
  date_entry_shape date_entry = true ->
  exists c', schedule_date_step date_entry c = (Ok tt, c').
Proof.
  unfold date_entry_shape. intros H. apply andb_prop in H.
  destruct H as [Hdict Hgames].
  destruct date_entry; try discriminate. clear Hdict.
  unfold schedule_date_step, bind, lift.
  simpl dict_get1. cbv iota.
  simpl in Hgames. simpl rbind.
  destruct (match assoc "games" items with
            | Some v => v
            | None => PList []
            end) as [| | | |games| |]; try discriminate.
  simpl py_iter. cbv iota.
  apply for_each_returns. intros game Hin c0.
  apply schedule_game_step_returns.
  rewrite forallb_forall in Hgames. apply Hgames. exact Hin.
Qed.

(** C10. For a schedule-API response (an object whose dates are a list
    of objects whose games are lists of objects) and a database that
    can be reached, a call of [load_schedule_data] runs the later of the
    two definitions of that name and returns True, whatever the
    per-game writes do. *)
Theorem C10_load_schedule_data_returns_true schedule_data srv :
  reachable srv = true ->
  schedule_shape schedule_data = true ->
  load_schedule_data schedule_data srv
    = load_schedule_data_494 schedule_data srv /\
  fst (load_schedule_data schedule_data srv) = Ok true.
Proof.
  intros Hsrv Hshape. split; [apply load_schedule_data_in_effect|].
  rewrite load_schedule_data_in_effect.
  unfold schedule_shape in Hshape. apply andb_prop in Hshape.
  destruct Hshape as [Hdict Hdates].
  destruct schedule_data; try discriminate. clear Hdict.
  unfold load_schedule_data_494, with_connection. rewrite Hsrv.
  unfold try_except, bind, lift.
  simpl in Hdates. simpl rbind.
  destruct (match assoc "dates" items with
            | Some v => v
            | None => PList []
            end) as [| | | |dates| |]; try discriminate.
  simpl py_iter. cbv iota.
  destruct (for_each_returns dates schedule_date_step) with (s := connect srv)
    as (c' & Hc').
  - intros date_entry Hin c0. apply schedule_date_step_returns.
    rewrite forallb_forall in Hdates. apply Hdates. exact Hin.
  - rewrite Hc'. reflexivity.
Qed.

(** ** Reloading a combined payload *)

Lemma lines_from_refl Q db : lines_from Q db db.
Proof. intros row H. left. exact H. Qed.

Lemma lines_from_trans Q db1 db2 db3 :
  lines_from Q db1 db2 -> lines_from Q db2 db3 -> lines_from Q db1 db3.
Proof.
  intros H12 H23 row H. destruct (H23 row H) as [H2|HQ]; [|right; exact HQ].
  apply H12. exact H2.
Qed.

Lemma lines_stay_unique_refl db : lines_stay_unique db db.
Proof. intros gid pid H. exact H. Qed.

Lemma lines_stay_unique_trans db1 db2 db3 :
  lines_stay_unique db1 db2 -> lines_stay_unique db2 db3 ->
  lines_stay_unique db1 db3.
Proof. intros H12 H23 gid pid H. apply H23, H12, H. Qed.

Lemma lines_stay_refl db : lines_stay db db.
Proof. intros row H. exact H. Qed.

Lemma lines_stay_trans db1 db2 db3 :
  lines_stay db1 db2 -> lines_stay db2 db3 -> lines_stay db1 db3.
Proof. intros H12 H23 row H. apply H23, H12, H. Qed.

(** A step that keeps the [boxscore] table satisfies all three. *)
Lemma keeps_boxscore_lines_from {A} Q (m : M database A) :
  preserves (keeps boxscore) m -> preserves (lines_from Q) m.
Proof.
  intros Hm s r s' H row Hin. left. rewrite <- (Hm s r s' H). exact Hin.
Qed.

Lemma keeps_boxscore_lines_stay_unique {A} (m : M database A) :
  preserves (keeps boxscore) m -> preserves lines_stay_unique m.
Proof.
  intros Hm s r s' H gid pid Hle. rewrite (Hm s r s' H). exact Hle.
Qed.

Lemma keeps_boxscore_lines_stay {A} (m : M database A) :
  preserves (keeps boxscore) m -> preserves lines_stay m.
Proof.
  intros Hm s r s' H row Hin. rewrite (Hm s r s' H). exact Hin.
Qed.

(** Every run of [_insert_boxscore_stats], returning or raising: the
    database is as before, or the call returned and appended the row it
    built, under a key that had no row. *)
Lemma _insert_boxscore_stats_runs gid pid tid batting db r db' :
  _insert_boxscore_stats gid pid tid batting db = (r, db') ->
  db' = db \/
  exists row,
    r = Ok tt /\
    boxscore_line gid pid tid batting = Ok row /\
    boxscore_exists db (Boxscore.game_id row) (Boxscore.player_id row)
      = false /\
    db' = set_boxscore db (boxscore db ++ [row]).
Proof.
  unfold _insert_boxscore_stats, boxscore_line, query_insert_boxscore.
  intros H.
  destruct (boxscore_params gid pid tid batting) as [ps|e] eqn:Eps;
    [|statement_cases H; auto].
  destruct (boxscore_of_params ps) as [row|e] eqn:Erow;
    [|unfold bind, lift in H; rewrite Erow in H; inversion H; auto].
  unfold bind, lift, get in H. rewrite Erow in H.
  destruct (boxscore_exists db (Boxscore.game_id row)
              (Boxscore.player_id row)) eqn:Eex.
  - inversion H. auto.
  - destruct (fk_game db (Boxscore.game_id row) &&
              fk_player db (Boxscore.player_id row) &&
              fk_team db (Boxscore.team_id row)).
    + inversion H. right. exists row. simpl. auto.
    + inversion H. auto.
Qed.

Lemma lines_with_app gid pid l1 l2 :
  lines_with gid pid (l1 ++ l2)
  = (lines_with gid pid l1 ++ lines_with gid pid l2)%list.
Proof. apply filter_app. Qed.

Lemma _insert_boxscore_stats_lines_from Q gid pid tid batting :
  (forall row, boxscore_line gid pid tid batting = Ok row -> Q row) ->
  preserves (lines_from Q) (_insert_boxscore_stats gid pid tid batting).
Proof.
  intros HQ s r s' H. apply _insert_boxscore_stats_runs in H.
  destruct H as [->|(row & _ & Hrow & _ & ->)].
  - apply lines_from_refl.
  - intros row' Hin. simpl in Hin. apply in_app_or in Hin.
    destruct Hin as [Hin|[<-|[]]]; [left; exact Hin | right; auto].
Qed.

Lemma _insert_boxscore_stats_lines_stay gid pid tid batting :
  preserves lines_stay (_insert_boxscore_stats gid pid tid batting).
Proof.
  intros s r s' H. apply _insert_boxscore_stats_runs in H.
  destruct H as [->|(row & _ & _ & _ & ->)].
  - apply lines_stay_refl.
  - intros row' Hin. simpl. apply in_or_app. left. exact Hin.
Qed.

Lemma _insert_boxscore_stats_lines_stay_unique gid pid tid batting :
  preserves lines_stay_unique (_insert_boxscore_stats gid pid tid batting).
Proof.
  intros s r s' H. apply _insert_boxscore_stats_runs in H.
  destruct H as [->|(row & _ & _ & Hnew & ->)].
  - apply lines_stay_unique_refl.
  - intros g p Hle. simpl. rewrite lines_with_app, length_app.
    unfold lines_with at 2. simpl.
    destruct (sql_eq (Boxscore.game_id row) g &&
              sql_eq (Boxscore.player_id row) p) eqn:E; simpl; [|lia].
    apply andb_prop in E. destruct E as [Eg Ep].
    apply sql_eq_true in Eg. apply sql_eq_true in Ep.
    destruct Eg as [<- _]. destruct Ep as [<- _].
    unfold boxscore_exists in Hnew. apply existsb_false_filter in Hnew.
    unfold lines_with. rewrite Hnew. simpl. lia.
Qed.

(** Processing a boxscore, for any relation [R] on the [boxscore] table
    that inserting a line satisfies as long as the line satisfies
    [Q]. *)
Section BoxscoreProcessing.

Variable R : database -> database -> Prop.
Variable Q : Boxscore.row -> Prop.
Hypothesis R_keeps : forall {A} (m : M database A),
  preserves (keeps boxscore) m -> preserves R m.
Hypothesis R_refl : forall db, R db db.
Hypothesis R_trans : forall db1 db2 db3, R db1 db2 -> R db2 db3 -> R db1 db3.
Hypothesis R_insert : forall gid pid tid batting,
  (forall row, boxscore_line gid pid tid batting = Ok row -> Q row) ->
  preserves R (_insert_boxscore_stats gid pid tid batting).

Lemma process_player_preserves game_id team_info item :
  (forall row, In row (player_lines game_id team_info item) -> Q row) ->
  preserves R (process_player game_id team_info item).
Proof.
  destruct item as [player_key player_data]. intros HQ.
  unfold process_player.
  apply preserves_when_true; [exact R_refl|]. intros Hkey.
  apply preserves_bind_lift; [exact R_refl|]. intros person Hperson.
  apply preserves_bind_lift; [exact R_refl|]. intros stats Hstats.
  apply preserves_bind; [exact R_trans | |].
  { apply R_keeps. apply keeps_when.
    apply keeps_bind; [apply keeps_lift|]. intros team_id.
    apply _insert_player_keeps. reflexivity. }
  intros _.
  apply preserves_bind_lift; [exact R_refl|]. intros batting Hbatting.
  apply preserves_when_true; [exact R_refl|]. intros Htruthy.
  apply preserves_bind_lift; [exact R_refl|]. intros player_id Hplayer.
  apply preserves_bind_lift; [exact R_refl|]. intros team_id Hteam.
  apply R_insert. intros row Hrow. apply HQ.
  unfold player_lines. rewrite Hkey, Hperson. cbn [rbind].
  rewrite Hstats. cbn [rbind]. rewrite Hbatting. cbn [rbind].
  rewrite Htruthy, Hplayer. cbn [rbind]. rewrite Hteam. cbn [rbind].
  rewrite Hrow. left. reflexivity.
Qed.

Lemma process_team_preserves game_id teams_data team_type :
  (forall row, In row (team_lines game_id teams_data team_type) -> Q row) ->
  preserves R (process_team game_id teams_data team_type).
Proof.
  intros HQ. unfold process_team.
  apply preserves_bind_lift; [exact R_refl|]. intros team_data Hdata.
  apply preserves_bind_lift; [exact R_refl|]. intros team_info Hinfo.
  apply preserves_bind_lift; [exact R_refl|]. intros players Hplayers.
  apply preserves_bind; [exact R_trans | |].
  { apply R_keeps. apply keeps_when. apply _insert_team_keeps. reflexivity. }
  intros _.
  apply preserves_bind_lift; [exact R_refl|]. intros items Hitems.
  apply preserves_for_each; [exact R_refl | exact R_trans |].
  intros item Hin. apply process_player_preserves.
  intros row Hrow. apply HQ.
  unfold team_lines. rewrite Hdata. cbn [rbind]. rewrite Hinfo. cbn [rbind].
  rewrite Hplayers. cbn [rbind]. rewrite Hitems. cbn [rbind].
  apply in_flat_map. exists item. auto.
Qed.

Lemma _process_boxscore_data_preserves game_id boxscore_data :
  (forall row, In row (payload_lines game_id boxscore_data) -> Q row) ->
  preserves R (_process_boxscore_data game_id boxscore_data).
Proof.
  intros HQ. unfold _process_boxscore_data.
  apply preserves_try_except; [exact R_trans | |].
  - apply preserves_bind_lift; [exact R_refl|]. intros teams_data Hteams.
    apply preserves_for_each; [exact R_refl | exact R_trans |].
    intros team_type Hin. apply process_team_preserves.
    intros row Hrow. apply HQ.
    unfold payload_lines. rewrite Hteams.
    apply in_flat_map. exists team_type. auto.
  - intros e. apply preserves_raise. exact R_refl.
Qed.

End BoxscoreProcessing.

Lemma _process_boxscore_data_lines_from game_id boxscore_data :
  preserves
    (lines_from (fun row => In row (payload_lines game_id boxscore_data)))
    (_process_boxscore_data game_id boxscore_data).
Proof.
  apply _process_boxscore_data_preserves
    with (Q := fun row => In row (payload_lines game_id boxscore_data)).
  - intros A m. apply keeps_boxscore_lines_from.
  - apply lines_from_refl.
  - apply lines_from_trans.
  - intros. apply _insert_boxscore_stats_lines_from. assumption.
  - auto.
Qed.

Lemma process_player_lines_stay game_id team_info item :
  preserves lines_stay (process_player game_id team_info item).
Proof.
  apply process_player_preserves with (Q := fun _ => True).
  - intros A m. apply keeps_boxscore_lines_stay.
  - apply lines_stay_refl.
  - apply lines_stay_trans.
  - intros. apply _insert_boxscore_stats_lines_stay.
  - auto.
Qed.

Lemma process_team_lines_stay game_id teams_data team_type :
  preserves lines_stay (process_team game_id teams_data team_type).
Proof.
  apply process_team_preserves with (Q := fun _ => True).
  - intros A m. apply keeps_boxscore_lines_stay.
  - apply lines_stay_refl.
  - apply lines_stay_trans.
  - intros. apply _insert_boxscore_stats_lines_stay.
  - auto.
Qed.

Lemma _process_boxscore_data_lines_stay_unique game_id boxscore_data :
  preserves lines_stay_unique (_process_boxscore_data game_id boxscore_data).
Proof.
  apply _process_boxscore_data_preserves with (Q := fun _ => True).
  - intros A m. apply keeps_boxscore_lines_stay_unique.
  - apply lines_stay_unique_refl.
  - apply lines_stay_unique_trans.
  - intros. apply _insert_boxscore_stats_lines_stay_unique.
  - auto.
Qed.

(** A loop that returned has run its body to the end on every element,
    so what each body establishes, and no body undoes, holds at the
    end. *)
Lemma for_each_stable {S A} (P : S -> Prop) (l : list A)
    (body : A -> M S unit) :
  (forall x s r s', body x s = (r, s') -> P s -> P s') ->
  forall s r s', for_each l body s = (r, s') -> P s -> P s'.
Proof.
  intros Hstable. induction l as [|a l IH]; simpl; intros s r s' H Hs.
  - inversion H. subst. exact Hs.
  - unfold bind in H. destruct (body a s) as [[[]|e] s1] eqn:Ea.
    + eapply IH; [eassumption|]. eapply Hstable; eassumption.
    + inversion H. subst. eapply Hstable; eassumption.
Qed.

Lemma for_each_post {S A} (P : A -> S -> Prop) (l : list A)
    (body : A -> M S unit) :
  (forall x s s', In x l -> body x s = (Ok tt, s') -> P x s') ->
  (forall x y s r s', body x s = (r, s') -> P y s -> P y s') ->
  forall s s', for_each l body s = (Ok tt, s') ->
  forall x, In x l -> P x s'.
Proof.
  induction l as [|a l IH]; simpl; intros Hpost Hstable s s' H x Hin;
    [contradiction|].
  apply bind_ok in H. destruct H as ([] & s1 & Ha & Hrest).
  destruct Hin as [<-|Hin].
  - apply (for_each_stable (P a) l body) with (s := s1) (r := Ok tt).
    + intros y s0 r s0' Hy. apply (Hstable y a s0 r s0' Hy).
    + exact Hrest.
    + apply (Hpost a s s1); [left; reflexivity | exact Ha].
  - apply (IH (fun y s0 s0' Hy => Hpost y s0 s0' (or_intror Hy)) Hstable
             s1 s' Hrest x Hin).
Qed.

Lemma has_line_stays db db' row :
  lines_stay db db' -> has_line db row -> has_line db' row.
Proof.
  unfold has_line, boxscore_exists. intros Hstay H.
  apply existsb_exists in H. destruct H as (r & Hin & Hr).
  apply existsb_exists. exists r. auto.
Qed.

Lemma has_line_after_insert gid pid tid batting db db' row :
  _insert_boxscore_stats gid pid tid batting db = (Ok tt, db') ->
  boxscore_line gid pid tid batting = Ok row ->
  keyed row -> has_line db' row.
Proof.
  intros H Hrow [Hg Hp]. apply _insert_boxscore_stats_ok in H.
  destruct H as (row' & Hrow' & ->).
  rewrite Hrow in Hrow'. inversion Hrow'; subst row'.
  unfold has_line.
  destruct (boxscore_exists db (Boxscore.game_id row)
              (Boxscore.player_id row)) eqn:E; [exact E|].
  unfold boxscore_exists. simpl. rewrite existsb_app. simpl.
  rewrite !sql_eq_refl_some by assumption. simpl.
  apply orb_true_r.
Qed.

Ltac rewrite_reads_in Hin :=
  repeat match goal with
         | H : ?t = Ok _ |- _ => progress rewrite H in Hin
         end.

Lemma process_player_post game_id team_info item db db' :
  process_player game_id team_info item db = (Ok tt, db') ->
  forall row, In row (player_lines game_id team_info item) ->
              keyed row -> has_line db' row.
Proof.
  destruct item as [player_key player_data].
  unfold process_player, player_lines. intros H row Hin Hkeyed.
  destruct (startswith player_key "ID"); [|contradiction].
  simpl when in H. run_ok H.
  rewrite_reads_in Hin. cbn [rbind] in Hin.
  rewrite_reads_in Hin. cbn [rbind] in Hin.
  rewrite_reads_in Hin. cbn [rbind] in Hin.
  match type of Hin with
  | context [truthy ?b] => destruct (truthy b); [|contradiction]
  end.
  simpl when in H. run_ok H.
  rewrite_reads_in Hin. cbn [rbind] in Hin.
  rewrite_reads_in Hin. cbn [rbind] in Hin.
  match type of Hin with
  | context [boxscore_line ?g ?p ?t ?b] =>
      destruct (boxscore_line g p t b) as [row'|e] eqn:Erow;
        [|contradiction]
  end.
  cbn [rbind] in Hin. destruct Hin as [<-|[]].
  eapply has_line_after_insert; eassumption.
Qed.

Lemma process_team_post game_id teams_data team_type db db' :
  process_team game_id teams_data team_type db = (Ok tt, db') ->
  forall row, In row (team_lines game_id teams_data team_type) ->
              keyed row -> has_line db' row.
Proof.
  unfold process_team, team_lines. intros H row Hin Hkeyed.
  run_ok H.
  rewrite_reads_in Hin. cbn [rbind] in Hin.
  rewrite_reads_in Hin. cbn [rbind] in Hin.
  rewrite_reads_in Hin. cbn [rbind] in Hin.
  rewrite_reads_in Hin. cbn [rbind] in Hin.
  apply in_flat_map in Hin. destruct Hin as (item & Hitem & Hrow).
  revert row Hrow Hkeyed.
  match type of H with
  | for_each ?items (process_player ?g ?ti) ?start = (_, ?final) =>
      refine (for_each_post
                (fun item db => forall row,
                     In row (player_lines g ti item) ->
                     keyed row -> has_line db row)
                items (process_player g ti) _ _ start final H item Hitem)
  end.
  - intros x sa sb _ Hx. exact (process_player_post _ _ _ _ _ Hx).
  - intros x y sa r sb Hx Hy row' Hrow' Hk.
    apply (has_line_stays sa sb); [|auto].
    eapply process_player_lines_stay. eassumption.
Qed.

(** After a boxscore has been processed to the end, every line of the
    payload that names a game and a player has a row under its key. *)
Lemma _process_boxscore_data_post game_id boxscore_data db db' :
  _process_boxscore_data game_id boxscore_data db = (Ok tt, db') ->
  forall row, In row (payload_lines game_id boxscore_data) ->
              keyed row -> has_line db' row.
Proof.
  unfold _process_boxscore_data, payload_lines. intros H row Hin Hkeyed.
  rewrite try_except_reraise in H. run_ok H.
  rewrite_reads_in Hin.
  apply in_flat_map in Hin. destruct Hin as (team_type & Htype & Hrow).
  revert row Hrow Hkeyed.
  match type of H with
  | for_each ?types (process_team ?g ?td) ?start = (_, ?final) =>
      refine (for_each_post
                (fun team_type db => forall row,
                     In row (team_lines g td team_type) ->
                     keyed row -> has_line db row)
                types (process_team g td) _ _ start final H team_type Htype)
  end.
  - intros x sa sb _ Hx. exact (process_team_post _ _ _ _ _ Hx).
  - intros x y sa r sb Hx Hy row' Hrow' Hk.
    apply (has_line_stays sa sb); [|auto].
    eapply process_team_lines_stay. eassumption.
Qed.

(** What the writes of a combined load have done to [boxscore]. *)
Lemma combined_writes_boxscore now gid gdate meta items db db' :
  combined_writes now gid gdate meta (PDict items) db = (Ok tt, db') ->
  let lines := match assoc "boxscore" items with
               | Some boxscore_data => payload_lines gid boxscore_data
               | None => []
               end in
  lines_from (fun row => In row lines) db db' /\
  lines_stay_unique db db' /\
  (forall row, In row lines -> keyed row -> has_line db' row).
Proof.
  intros H lines. subst lines. unfold combined_writes in H. run_ok H.
  assert (H0 : boxscore s = boxscore db).
  { eapply (_save_raw_json_keeps boxscore); [reflexivity | eassumption]. }
  assert (H1 : boxscore s0 = boxscore s).
  { eapply (keeps_when_key boxscore); [|eassumption].
    intros v. apply _process_game_data_keeps_boxscore. }
  rewrite H0 in H1. clear H0 Hrun Hrun0.
  simpl when_key in H.
  destruct (assoc "boxscore" items) as [boxscore_data|].
  - pose proof (_process_boxscore_data_lines_from _ _ _ _ _ H) as Hfrom.
    pose proof (_process_boxscore_data_lines_stay_unique _ _ _ _ _ H)
      as Huniq.
    pose proof (_process_boxscore_data_post _ _ _ _ H) as Hpost.
    unfold lines_from, lines_stay_unique in *. rewrite H1 in *.
    auto.
  - apply ret_ok in H. destruct H as [_ ->].
    unfold lines_from, lines_stay_unique. rewrite H1.
    repeat split; auto. intros row [].
Qed.

Lemma lines_with_fresh gid pid rows :
  (forall row, In row rows -> Boxscore.game_id row <> gid) ->
  lines_with gid pid rows = [].
Proof.
  intros Hfresh. unfold lines_with.
  induction rows as [|r rows IH]; simpl; [reflexivity|].
  destruct (sql_eq (Boxscore.game_id r) gid) eqn:E.
  - apply sql_eq_true in E. destruct E as [E _].
    exfalso. apply (Hfresh r); [left; reflexivity | exact E].
  - simpl. apply IH. intros row Hin. apply Hfresh. right. exact Hin.
Qed.

Lemma has_line_lines_with db row :
  has_line db row ->
  lines_with (Boxscore.game_id row) (Boxscore.player_id row) (boxscore db)
  <> [].
Proof.
  unfold has_line, boxscore_exists, lines_with. apply existsb_true_filter.
Qed.

Lemma boxscore_line_game_id gid pid tid batting row :
  boxscore_line gid pid tid batting = Ok row ->
  as_int gid = Ok (Boxscore.game_id row).
Proof.
  unfold boxscore_line. intros H.
  apply rbind_ok in H. destruct H as (ps & Hps & H).
  unfold boxscore_params in Hps. pure_ok Hps.
  inversion Hps; subst ps; clear Hps.
  unfold boxscore_of_params, int_param, param in H. cbn in H.
  pure_ok H. inversion H; subst row. simpl. assumption.
Qed.

Lemma player_lines_game_id gid team_info item row :
  In row (player_lines gid team_info item) ->
  as_int gid = Ok (Boxscore.game_id row).
Proof.
  destruct item as [player_key player_data]. unfold player_lines.
  destruct (startswith player_key "ID"); [|contradiction].
  match goal with
  | |- In row (match ?r with Ok _ => _ | Raise _ => _ end) -> _ =>
      destruct r as [rows|e] eqn:E; [|contradiction]
  end.
  do 3 (apply rbind_ok in E; destruct E as (? & ? & E)).
  match type of E with
  | context [truthy ?b] => destruct (truthy b)
  end.
  - do 3 (apply rbind_ok in E; destruct E as (? & ? & E)).
    inversion E; subst rows. intros [<-|[]].
    eapply boxscore_line_game_id. eassumption.
  - inversion E; subst rows. contradiction.
Qed.

Lemma payload_lines_game_id gid boxscore_data row :
  In row (payload_lines gid boxscore_data) ->
  as_int gid = Ok (Boxscore.game_id row).
Proof.
  unfold payload_lines.
  destruct (dict_get boxscore_data "teams" (PDict [])) as [teams_data|e];
    [|contradiction].
  intros Hin. apply in_flat_map in Hin.
  destruct Hin as (team_type & _ & Hin). unfold team_lines in Hin.
  match type of Hin with
  | In row (match ?r with Ok _ => _ | Raise _ => _ end) =>
      destruct r as [rows|e] eqn:E; [|contradiction]
  end.
  pure_ok E. inversion E; subst rows.
  apply in_flat_map in Hin. destruct Hin as (item & _ & Hin).
  eapply player_lines_game_id. eassumption.
Qed.

(** The team ids and the key of the row built for a payload do not
    depend on the clock. *)
Lemma payload_game_line_fixed now1 now2 gid gd gdate meta new1 new2 :
  payload_game_line now1 gid gd gdate meta = Ok new1 ->
  payload_game_line now2 gid gd gdate meta = Ok new2 ->
  Game.game_id new1 = Game.game_id new2 /\
  Game.home_team_id new1 = Game.home_team_id new2 /\
  Game.away_team_id new1 = Game.away_team_id new2.
Proof.
  intros H1 H2.
  apply payload_game_line_teams in H1, H2.
  destruct H1 as (ht1 & awt1 & Hh1 & Ha1 & H1).
  destruct H2 as (ht2 & awt2 & Hh2 & Ha2 & H2).
  rewrite Hh1 in Hh2. inversion Hh2; subst ht2.
  rewrite Ha1 in Ha2. inversion Ha2; subst awt2.
  apply game_line_columns in H1, H2.
  destruct H1 as (Hg1 & Hh1' & Ha1' & _).
  destruct H2 as (Hg2 & Hh2' & Ha2' & _).
  rewrite Hg1 in Hg2. rewrite Hh1' in Hh2'. rewrite Ha1' in Ha2'.
  inversion Hg2. inversion Hh2'. inversion Ha2'. auto.
Qed.

(** C1 (as amended). Take a store that holds no Game row and no
    BoxscoreLine row for the payload's game_id, and load the same
    combined payload (one with a game_data entry) twice, both loads
    reporting success.  Then the store holds exactly one Game row for
    the game_id, equal to the row computed from the payload at the
    second load; at most one BoxscoreLine row per (game_id, player_id);
    every BoxscoreLine row of the game is a row computed from the
    payload; and every row computed from the payload that names a
    player is stored under its key. *)
Theorem C1_reload_of_a_fresh_game
    now1 now2 path items game_data gid srv srv1 srv2 :
  contains path "combined_data" = true ->
  assoc "game_data" items = Some game_data ->
  as_int (got (dict_get1 (PDict items) "game_id")) = Ok gid ->
  games_with gid (games (store srv)) = [] ->
  (forall row, In row (boxscore (store srv)) ->
               Boxscore.game_id row <> gid) ->
  load_json_to_database now1 path (PDict items) srv = (Ok true, srv1) ->
  load_json_to_database now2 path (PDict items) srv1 = (Ok true, srv2) ->
  (exists game_row,
     combined_game_line now2 items game_data = Ok game_row /\
     games_with gid (games (store srv2)) = [game_row]) /\
  (forall pid,
     (length (lines_with gid pid (boxscore (store srv2))) <= 1)%nat) /\
  (forall row, In row (boxscore (store srv2)) ->
               Boxscore.game_id row = gid ->
               In row (combined_lines items)) /\
  (forall row, In row (combined_lines items) ->
               Boxscore.player_id row <> None ->
               lines_with gid (Boxscore.player_id row)
                 (boxscore (store srv2)) <> []).
Proof.
  intros Hpath Hgd Hgid Hnogame Hnolines Hload1 Hload2.
  apply load_combined_file_true in Hload1; [|exact Hpath].
  apply load_combined_file_true in Hload2; [|exact Hpath].
  destruct Hload1 as (gidv & gdate & meta & Hhead & Hwrites1).
  destruct Hload2 as (gidv' & gdate' & meta' & Hhead' & Hwrites2).
  rewrite Hhead in Hhead'. inversion Hhead'; subst gidv' gdate' meta'.
  clear Hhead'.
  assert (Hgidv : gidv = got (dict_get1 (PDict items) "game_id")).
  { rewrite combined_header_dict in Hhead. inversion Hhead. reflexivity. }
  rewrite <- Hgidv in Hgid.
  destruct (combined_writes_games _ _ _ _ _ _ _ _ Hgd Hwrites1)
    as (new1 & Hline1 & Hid1 & Hrows1 & _).
  destruct (combined_writes_games _ _ _ _ _ _ _ _ Hgd Hwrites2)
    as (new2 & Hline2 & Hid2 & Hrows2 & _).
  destruct (payload_game_line_fixed _ _ _ _ _ _ _ _ Hline1 Hline2)
    as (Hsame_id & Hsame_home & Hsame_away).
  assert (Hnew1 : Game.game_id new1 = gid).
  { apply payload_game_line_teams in Hline1.
    destruct Hline1 as (ht & awt & _ & _ & Hline1).
    apply game_line_columns in Hline1. destruct Hline1 as (Hg & _).
    rewrite Hgid in Hg. inversion Hg. reflexivity. }
  assert (Hnew2 : Game.game_id new2 = gid) by congruence.
  destruct (combined_writes_boxscore _ _ _ _ _ _ _ Hwrites1)
    as (Hfrom1 & Huniq1 & _).
  destruct (combined_writes_boxscore _ _ _ _ _ _ _ Hwrites2)
    as (Hfrom2 & Huniq2 & Hpost2).
  fold (combined_lines items) in Hfrom1, Hfrom2, Hpost2.
  assert (Hlines : combined_lines items
                   = match assoc "boxscore" items with
                     | Some boxscore_data => payload_lines gidv boxscore_data
                     | None => []
                     end).
  { unfold combined_lines. rewrite Hgidv. reflexivity. }
  rewrite <- Hlines in Hfrom1, Hfrom2, Hpost2.
  split; [|split; [|split]].
  - exists new2. split.
    + unfold combined_game_line. rewrite Hhead. cbn [rbind]. exact Hline2.
    + rewrite Hnew2 in Hrows2. rewrite Hnew1 in Hrows1.
      rewrite Hnogame in Hrows1. rewrite Hrows1 in Hrows2.
      rewrite Hrows2. simpl. f_equal.
      destruct new1, new2; unfold set_scores_and_metadata; simpl in *.
      congruence.
  - intros pid. apply Huniq2, Huniq1.
    rewrite lines_with_fresh by exact Hnolines. simpl. lia.
  - intros row Hin Hrow.
    destruct (Hfrom2 row Hin) as [Hin1|HQ]; [|exact HQ].
    destruct (Hfrom1 row Hin1) as [Hin0|HQ]; [|exact HQ].
    exfalso. apply (Hnolines row Hin0 Hrow).
  - intros row Hin Hpid.
    assert (Hrow : Boxscore.game_id row = gid).
    { rewrite Hlines in Hin.
      destruct (assoc "boxscore" items) as [boxscore_data|]; [|contradiction].
      apply payload_lines_game_id in Hin. rewrite Hgid in Hin.
      inversion Hin. reflexivity. }
    rewrite <- Hrow. apply has_line_lines_with. apply Hpost2; [exact Hin|].
    split; [|exact Hpid]. rewrite Hrow, <- Hnew1. exact Hid1.
Qed.

(** * Beyond the claims

    Properties of the rest of the loader, of the connection it runs on
    and of the scripts that run it. *)

(** ** Teams and players are written once *)

(** Every run of [_insert_team], returning or raising: the database is
    as before, or the call returned and appended the row it built,
    under an id no team had. *)
Lemma _insert_team_runs team_data db r db' :
  _insert_team team_data db = (r, db') ->
  db' = db \/
  exists row,
    r = Ok tt /\
    as_int (got (dict_get1 team_data "id")) = Ok (Team.team_id row) /\
    Team.team_id row <> None /\
    team_exists db (Team.team_id row) = false /\
    db' = set_teams db (teams db ++ [row]).
Proof.
  unfold _insert_team. intros H.
  match type of H with
  | bind (lift ?x) _ _ = _ => destruct x as [ps|e] eqn:Eps
  end; [|inversion H; auto].
  pure_ok Eps. inversion Eps; subst ps; clear Eps.
  unfold bind, lift, query_insert_team in H.
  match type of H with
  | context [team_of_params ?ps] =>
      destruct (team_of_params ps) as [row|e] eqn:Erow
  end; [|inversion H; auto].
  unfold bind, lift, get in H.
  destruct (team_exists db (Team.team_id row)) eqn:Eex;
    [inversion H; auto|].
  destruct (Team.team_id row) eqn:Ei; [|inversion H; auto].
  inversion H; subst. right. exists row.
  split; [reflexivity|].
  unfold team_of_params, int_param, str_param, param in Erow. cbn in Erow.
  pure_ok Erow. inversion Erow; subst row; clear Erow. simpl in *.
  rewrite_reads. cbn [got].
  repeat split; congruence.
Qed.

Lemma team_exists_app db row id :
  team_exists (set_teams db (teams db ++ [row])) id
  = team_exists db id || sql_eq (Team.team_id row) id.
Proof.
  unfold team_exists. simpl. rewrite existsb_app. simpl.
  rewrite orb_false_r. reflexivity.
Qed.

(** After a call that returned, the team is stored. *)
Lemma _insert_team_stored team_data db db' :
  _insert_team team_data db = (Ok tt, db') ->
  exists id,
    as_int (got (dict_get1 team_data "id")) = Ok id /\
    team_exists db' id = true.
Proof.
  intros H. unfold _insert_team in H. run_ok H.
  pure_ok Hrun. inversion Hrun; subst; clear Hrun.
  unfold query_insert_team in H. run_ok H.
  unfold team_of_params, int_param, str_param, param in Hrun. cbn in Hrun.
  pure_ok Hrun. inversion Hrun; subst; clear Hrun. simpl in H.
  rewrite_reads. cbn [got].
  match goal with
  | Hx : as_int _ = Ok ?i |- _ => exists i; split; [exact Hx|]
  end.
  match type of H with
  | context [team_exists db ?i] => destruct (team_exists db i) eqn:Eex
  end.
  - apply ret_ok in H. destruct H as [_ ->]. exact Eex.
  - match type of H with
    | context [match ?i with Some _ => _ | None => _ end] =>
        destruct i eqn:Ei; [|discriminate]
    end.
    apply put_ok in H. subst db'.
    rewrite team_exists_app. simpl. rewrite Z.eqb_refl. apply orb_true_r.
Qed.

(** X1. Of two team payloads with the same id the first one wins: once
    [_insert_team] has returned for a team, a later call for the same
    team_id, whatever name, abbreviation, league or division it
    carries and whether it returns or raises, leaves the database as it
    is. *)
Theorem X1_insert_team_first_payload_wins t1 t2 db db1 r db2 :
  _insert_team t1 db = (Ok tt, db1) ->
  as_int (got (dict_get1 t2 "id")) = as_int (got (dict_get1 t1 "id")) ->
  _insert_team t2 db1 = (r, db2) ->
  db2 = db1.
Proof.
  intros H1 Hsame H2.
  apply _insert_team_stored in H1. destruct H1 as (id & Hid & Hstored).
  apply _insert_team_runs in H2.
  destruct H2 as [H2|(row & _ & Hid2 & _ & Hnew & _)]; [exact H2|].
  rewrite Hsame, Hid in Hid2. inversion Hid2; subst id.
  rewrite Hstored in Hnew. discriminate.
Qed.

Lemma _insert_player_runs player_data team_id db r db' :
  _insert_player player_data team_id db = (r, db') ->
  db' = db \/
  exists row,
    r = Ok tt /\
    as_int (got (dict_get1 player_data "id")) = Ok (Player.player_id row) /\
    player_exists db (Player.player_id row) = false /\
    db' = set_players db (players db ++ [row]).
Proof.
  unfold _insert_player. intros H.
  match type of H with
  | bind (lift ?x) _ _ = _ => destruct x as [ps|e] eqn:Eps
  end; [|inversion H; auto].
  pure_ok Eps. inversion Eps; subst ps; clear Eps.
  unfold bind, lift, query_insert_player in H.
  match type of H with
  | context [player_of_params ?ps] =>
      destruct (player_of_params ps) as [row|e] eqn:Erow
  end; [|inversion H; auto].
  unfold bind, lift, get in H.
  destruct (player_exists db (Player.player_id row)) eqn:Eex;
    [inversion H; auto|].
  destruct (Player.player_id row) eqn:Ei; [|inversion H; auto].
  destruct (fk_team db (Player.team_id row)); [|inversion H; auto].
  inversion H; subst. right. exists row.
  split; [reflexivity|].
  unfold player_of_params, int_param, str_param, param in Erow. cbn in Erow.
  pure_ok Erow. inversion Erow; subst row; clear Erow. simpl in *.
  rewrite_reads. cbn [got].
  repeat split; congruence.
Qed.

Lemma player_exists_app db row id :
  player_exists (set_players db (players db ++ [row])) id
  = player_exists db id || sql_eq (Player.player_id row) id.
Proof.
  unfold player_exists. simpl. rewrite existsb_app. simpl.
  rewrite orb_false_r. reflexivity.
Qed.

Lemma _insert_player_stored player_data team_id db db' :
  _insert_player player_data team_id db = (Ok tt, db') ->
  exists id,
    as_int (got (dict_get1 player_data "id")) = Ok id /\
    player_exists db' id = true.
Proof.
  intros H. unfold _insert_player in H. run_ok H.
  pure_ok Hrun. inversion Hrun; subst; clear Hrun.
  unfold query_insert_player in H. run_ok H.
  unfold player_of_params, int_param, str_param, param in Hrun. cbn in Hrun.
  pure_ok Hrun. inversion Hrun; subst; clear Hrun. simpl in H.
  rewrite_reads. cbn [got].
  match type of H with
  | context [player_exists db ?i] =>
      exists i; split; [assumption|]; destruct (player_exists db i) eqn:Eex
  end.
  - apply ret_ok in H. destruct H as [_ ->]. exact Eex.
  - match type of H with
    | context [match ?i with Some _ => _ | None => _ end] =>
        destruct i eqn:Ei; [|discriminate]
    end.
    match type of H with
    | context [fk_team db ?t] => destruct (fk_team db t); [|discriminate]
    end.
    apply put_ok in H. subst db'.
    rewrite player_exists_app. simpl. rewrite Z.eqb_refl. apply orb_true_r.
Qed.

(** X2. A player is written once: after [_insert_player] has returned
    for a player, a later call for the same player_id, whatever name,
    position or team it carries and whether it returns or raises,
    leaves the database as it is; the stored player keeps the team of
    the first payload. *)
Theorem X2_insert_player_first_payload_wins p1 tid1 p2 tid2 db db1 r db2 :
  _insert_player p1 tid1 db = (Ok tt, db1) ->
  as_int (got (dict_get1 p2 "id")) = as_int (got (dict_get1 p1 "id")) ->
  _insert_player p2 tid2 db1 = (r, db2) ->
  db2 = db1.
Proof.
  intros H1 Hsame H2.
  apply _insert_player_stored in H1. destruct H1 as (id & Hid & Hstored).
  apply _insert_player_runs in H2.
  destruct H2 as [H2|(row & _ & Hid2 & Hnew & _)]; [exact H2|].
  rewrite Hsame, Hid in Hid2. inversion Hid2; subst id.
  rewrite Hstored in Hnew. discriminate.
Qed.

(** ** Lines without a key *)

Lemma boxscore_line_player_id gid pid tid batting row :
  boxscore_line gid pid tid batting = Ok row ->
  as_int pid = Ok (Boxscore.player_id row).
Proof.
  unfold boxscore_line. intros H.
  apply rbind_ok in H. destruct H as (ps & Hps & H).
  unfold boxscore_params in Hps. pure_ok Hps.
  inversion Hps; subst ps; clear Hps.
  unfold boxscore_of_params, int_param, param in H. cbn in H.
  pure_ok H. inversion H; subst row. simpl. assumption.
Qed.

Lemma boxscore_exists_null db gid pid :
  gid = None \/ pid = None -> boxscore_exists db gid pid = false.
Proof.
  intros H. unfold boxscore_exists.
  induction (boxscore db) as [|r l IH]; simpl; [reflexivity|].
  rewrite IH, orb_false_r.
  destruct H as [-> | ->].
  - destruct (Boxscore.game_id r); reflexivity.
  - destruct (Boxscore.game_id r), (Boxscore.player_id r); simpl;
      try reflexivity; apply andb_false_r.
Qed.

(** X3. The guard of the boxscore line upserter compares keys with
    [=], which NULL never satisfies: a call whose game_id or player_id
    is None finds no stored line, so every such call that returns
    appends a row, also when the same line was stored before. *)
Theorem X3_line_without_key_is_appended_again
    game_id player_id team_id batting db db' :
  game_id = PNone \/ player_id = PNone ->
  _insert_boxscore_stats game_id player_id team_id batting db = (Ok tt, db') ->
  exists row,
    boxscore_line game_id player_id team_id batting = Ok row /\
    boxscore db' = (boxscore db ++ [row])%list.
Proof.
  intros Hnull H. apply _insert_boxscore_stats_ok in H.
  destruct H as (row & Hrow & ->). exists row. split; [exact Hrow|].
  rewrite boxscore_exists_null; [reflexivity|].
  pose proof (boxscore_line_game_id _ _ _ _ _ Hrow) as Hg.
  pose proof (boxscore_line_player_id _ _ _ _ _ Hrow) as Hp.
  destruct Hnull as [-> | ->]; simpl in *.
  - left. congruence.
  - right. congruence.
Qed.

(** ** Every load, whatever it answers *)

Lemma preserves_when_key {S} (R : S -> S -> Prop) data key
    (body : value -> M S unit) :
  (forall s, R s s) ->
  (forall v, preserves R (body v)) ->
  preserves R (when_key data key body).
Proof.
  intros Hrefl Hbody. unfold when_key.
  destruct data; try (apply preserves_raise; exact Hrefl).
  destruct (assoc key items); [apply Hbody | apply preserves_ret; exact Hrefl].
Qed.

(** Splitting a computation into its steps, for a relation that is
    reflexive and transitive. *)
Ltac relation_steps Hrefl Htrans :=
  repeat first
    [ simple apply preserves_ret; exact Hrefl
    | simple apply preserves_raise; exact Hrefl
    | simple apply preserves_lift; exact Hrefl
    | simple apply preserves_bind; [exact Htrans | | intros ?]
    | simple apply preserves_when; [exact Hrefl |]
    | simple apply preserves_try_except; [exact Htrans | | intros ?]
    | simple apply preserves_for_each; [exact Hrefl | exact Htrans | intros ? ?]
    | simple apply preserves_when_key; [exact Hrefl | intros ?] ].

(** A relation between the database a load found and the one it left,
    carried from the statements to the store. *)
Section StoreRelation.

Variable R : database -> database -> Prop.
Hypothesis R_refl : forall db, R db db.
Hypothesis R_trans : forall db1 db2 db3, R db1 db2 -> R db2 db3 -> R db1 db3.

Lemma reaches_connect srv : reaches R (store srv) (connect srv).
Proof. split; apply R_refl. Qed.

Lemma execute_reaches {A} (m : M database A) db0 c :
  preserves R m -> reaches R db0 c -> reaches R db0 (snd (execute m c)).
Proof.
  intros Hm [Hc Hs]. unfold execute.
  destruct (m (session c)) as [r s'] eqn:E. simpl.
  assert (Hs' : R db0 s') by (eapply R_trans; [exact Hs | eapply Hm; exact E]).
  split; simpl; [destruct (autocommit c); assumption | assumption].
Qed.

Lemma transaction_reaches {A} (m : M database A) db0 c :
  preserves R m -> reaches R db0 c -> reaches R db0 (snd (transaction m c)).
Proof.
  intros Hm [Hc Hs]. unfold transaction.
  destruct (m (session c)) as [[a|e] s'] eqn:E; simpl.
  - assert (Hs' : R db0 s')
      by (eapply R_trans; [exact Hs | eapply Hm; exact E]).
    split; assumption.
  - split; assumption.
Qed.

(** On the connection, "what was reached stays reached" is itself a
    reflexive and transitive relation. *)
Lemma stays_reached_refl db0 c : stays_reached R db0 c c.
Proof. intros H. exact H. Qed.

Lemma stays_reached_trans db0 c1 c2 c3 :
  stays_reached R db0 c1 c2 -> stays_reached R db0 c2 c3 ->
  stays_reached R db0 c1 c3.
Proof. intros H12 H23 H. apply H23, H12, H. Qed.

Lemma execute_stays_reached {A} (m : M database A) db0 :
  preserves R m -> preserves (stays_reached R db0) (execute m).
Proof.
  intros Hm c r c' H Hc.
  replace c' with (snd (execute m c)) by (rewrite H; reflexivity).
  apply execute_reaches; assumption.
Qed.

Lemma transaction_stays_reached {A} (m : M database A) db0 :
  preserves R m -> preserves (stays_reached R db0) (transaction m).
Proof.
  intros Hm c r c' H Hc.
  replace c' with (snd (transaction m c)) by (rewrite H; reflexivity).
  apply transaction_reaches; assumption.
Qed.

Lemma with_connection_relates body srv :
  preserves (stays_reached R (store srv)) body ->
  R (store srv) (store (snd (with_connection body srv))).
Proof.
  intros Hbody. unfold with_connection.
  destruct (reachable srv); [|apply R_refl].
  destruct (try_except body (fun _ => ret false) (connect srv))
    as [r c'] eqn:E.
  simpl.
  assert (Hc' : reaches R (store srv) c').
  { refine (preserves_try_except (stays_reached R (store srv))
              (stays_reached_trans (store srv)) body (fun _ => ret false)
              Hbody _ (connect srv) r c' E (reaches_connect srv)).
    intros e. apply preserves_ret. apply stays_reached_refl. }
  exact (proj1 Hc').
Qed.

Hypothesis R_raw : forall now gid kind data,
  preserves R (_save_raw_json now gid kind data).
Hypothesis R_game : forall now gid gd gdate meta,
  preserves R (_process_game_data now gid gd gdate meta).
Hypothesis R_boxscore : forall gid bd,
  preserves R (_process_boxscore_data gid bd).

Lemma combined_writes_preserves now gid gdate meta data :
  preserves R (combined_writes now gid gdate meta data).
Proof.
  unfold combined_writes. relation_steps R_refl R_trans; auto.
Qed.

Lemma _load_combined_data_stays_reached now data db0 :
  preserves (stays_reached R db0) (_load_combined_data now data).
Proof.
  unfold _load_combined_data.
  apply preserves_try_except; [apply stays_reached_trans | |].
  - apply preserves_bind_lift; [apply stays_reached_refl|].
    intros [[gid gdate] meta] _.
    apply preserves_bind; [apply stays_reached_trans | |].
    + apply transaction_stays_reached. apply combined_writes_preserves.
    + intros _. apply preserves_ret. apply stays_reached_refl.
  - intros e. apply preserves_ret. apply stays_reached_refl.
Qed.

Lemma _load_boxscore_data_stays_reached now data db0 :
  preserves (stays_reached R db0) (_load_boxscore_data now data).
Proof.
  unfold _load_boxscore_data. cbv zeta.
  apply preserves_try_except; [apply stays_reached_trans | |].
  - apply preserves_bind; [apply stays_reached_trans | |].
    + apply execute_stays_reached. apply R_raw.
    + intros _. apply preserves_bind; [apply stays_reached_trans | |].
      * apply execute_stays_reached. apply R_boxscore.
      * intros _. apply preserves_ret. apply stays_reached_refl.
  - intros e. apply preserves_ret. apply stays_reached_refl.
Qed.

Lemma _load_game_data_stays_reached now data db0 :
  preserves (stays_reached R db0) (_load_game_data now data).
Proof.
  unfold _load_game_data. cbv zeta.
  apply preserves_try_except; [apply stays_reached_trans | |].
  - apply preserves_bind; [apply stays_reached_trans | |].
    + apply execute_stays_reached. apply R_raw.
    + intros _. apply preserves_bind; [apply stays_reached_trans | |].
      * apply execute_stays_reached. apply R_game.
      * intros _. apply preserves_ret. apply stays_reached_refl.
  - intros e. apply preserves_ret. apply stays_reached_refl.
Qed.

(** The store a file load leaves stands in [R] to the store it found,
    for any file and any answer. *)
Lemma load_json_to_database_relates now path data srv :
  R (store srv) (store (snd (load_json_to_database now path data srv))).
Proof.
  unfold load_json_to_database.
  destruct (negb (truthy data)); [apply R_refl|].
  apply with_connection_relates.
  destruct (contains path "combined_data");
    [apply _load_combined_data_stays_reached|].
  destruct (contains path "boxscore_raw");
    [apply _load_boxscore_data_stays_reached|].
  destruct (contains path "game_raw");
    [apply _load_game_data_stays_reached|].
  apply preserves_ret. apply stays_reached_refl.
Qed.

Hypothesis R_team : forall team_data, preserves R (_insert_team team_data).
Hypothesis R_upsert : forall ps, preserves R (query_upsert_game ps).

Lemma schedule_game_writes_preserves game game_date :
  preserves R (schedule_game_writes game game_date).
Proof.
  unfold schedule_game_writes, _insert_game_from_schedule.
  relation_steps R_refl R_trans; auto.
Qed.

(** The same for a schedule load. *)
Lemma load_schedule_data_relates schedule_data srv :
  R (store srv) (store (snd (load_schedule_data schedule_data srv))).
Proof.
  rewrite load_schedule_data_in_effect. unfold load_schedule_data_494.
  apply with_connection_relates.
  pose proof (stays_reached_refl (store srv)) as Hrefl.
  pose proof (stays_reached_trans (store srv)) as Htrans.
  relation_steps Hrefl Htrans.
  unfold schedule_date_step. relation_steps Hrefl Htrans.
  unfold schedule_game_step. relation_steps Hrefl Htrans.
  apply execute_stays_reached. apply schedule_game_writes_preserves.
Qed.

End StoreRelation.

(** ** Nothing is deleted *)

Lemma extends_refl {A} (l : list A) : extends l l.
Proof. exists []. rewrite app_nil_r. reflexivity. Qed.

Lemma extends_trans {A} (l1 l2 l3 : list A) :
  extends l1 l2 -> extends l2 l3 -> extends l1 l3.
Proof.
  intros [m1 ->] [m2 ->]. exists (m1 ++ m2)%list.
  rewrite app_assoc. reflexivity.
Qed.

Lemma extends_app {A} (l more : list A) : extends l (l ++ more).
Proof. exists more. reflexivity. Qed.

Lemma nothing_lost_refl db : nothing_lost db db.
Proof. repeat split; apply extends_refl. Qed.

Lemma nothing_lost_trans db1 db2 db3 :
  nothing_lost db1 db2 -> nothing_lost db2 db3 -> nothing_lost db1 db3.
Proof.
  intros (Ht & Hp & Hg & Hb & Hr) (Ht' & Hp' & Hg' & Hb' & Hr').
  repeat split; eapply extends_trans; eassumption.
Qed.

Lemma update_where_game_id_keys set id rows :
  (forall old, Game.game_id (set old) = Game.game_id old) ->
  map Game.game_id (update_where_game_id set id rows)
  = map Game.game_id rows.
Proof.
  intros Hset. unfold update_where_game_id. rewrite map_map.
  apply map_ext. intros old.
  destruct (sql_eq (Game.game_id old) id); [apply Hset | reflexivity].
Qed.

Ltac nothing_lost_cases H :=
  statement_cases H;
  try apply nothing_lost_refl;
  repeat split; simpl;
  try apply extends_refl; try apply extends_app.

Lemma query_insert_raw_json_nothing_lost ps json_data t :
  preserves nothing_lost (query_insert_raw_json ps json_data t).
Proof.
  intros s r s' H. unfold query_insert_raw_json in H. nothing_lost_cases H.
Qed.

Lemma query_insert_team_nothing_lost ps :
  preserves nothing_lost (query_insert_team ps).
Proof.
  intros s r s' H. unfold query_insert_team in H. nothing_lost_cases H.
Qed.

Lemma query_insert_player_nothing_lost ps :
  preserves nothing_lost (query_insert_player ps).
Proof.
  intros s r s' H. unfold query_insert_player in H. nothing_lost_cases H.
Qed.

Lemma query_insert_boxscore_nothing_lost ps :
  preserves nothing_lost (query_insert_boxscore ps).
Proof.
  intros s r s' H. unfold query_insert_boxscore in H. nothing_lost_cases H.
Qed.

Lemma query_upsert_game_nothing_lost ps :
  preserves nothing_lost (query_upsert_game ps).
Proof.
  intros s r s' H. unfold query_upsert_game, insert_game in H.
  nothing_lost_cases H.
  - rewrite update_where_game_id_keys by reflexivity. apply extends_refl.
  - rewrite map_app. apply extends_app.
Qed.

Lemma _save_raw_json_nothing_lost now gid kind data :
  preserves nothing_lost (_save_raw_json now gid kind data).
Proof. apply query_insert_raw_json_nothing_lost. Qed.

Lemma _insert_team_nothing_lost team_data :
  preserves nothing_lost (_insert_team team_data).
Proof.
  unfold _insert_team.
  relation_steps nothing_lost_refl nothing_lost_trans.
  apply query_insert_team_nothing_lost.
Qed.

Lemma _insert_player_nothing_lost player_data team_id :
  preserves nothing_lost (_insert_player player_data team_id).
Proof.
  unfold _insert_player.
  relation_steps nothing_lost_refl nothing_lost_trans.
  apply query_insert_player_nothing_lost.
Qed.

Lemma _process_game_data_nothing_lost now gid gd gdate meta :
  preserves nothing_lost (_process_game_data now gid gd gdate meta).
Proof.
  unfold _process_game_data, _insert_game.
  relation_steps nothing_lost_refl nothing_lost_trans;
    first [apply _insert_team_nothing_lost
          | apply query_upsert_game_nothing_lost].
Qed.

Lemma _process_boxscore_data_nothing_lost gid bd :
  preserves nothing_lost (_process_boxscore_data gid bd).
Proof.
  unfold _process_boxscore_data.
  relation_steps nothing_lost_refl nothing_lost_trans.
  unfold process_team.
  relation_steps nothing_lost_refl nothing_lost_trans;
    [apply _insert_team_nothing_lost|].
  match goal with |- preserves _ (process_player _ _ ?item) =>
    destruct item as [player_key player_data] end.
  unfold process_player, _insert_boxscore_stats.
  relation_steps nothing_lost_refl nothing_lost_trans;
    first [apply _insert_player_nothing_lost
          | apply query_insert_boxscore_nothing_lost].
Qed.

(** X5. No load deletes or rewrites what is stored.  Whatever file is
    loaded and whatever the load answers, and likewise for any schedule
    load, the [teams], [players], [boxscore] and [raw_json_data] tables
    of the store are afterwards what they were with rows added at the
    end, and so is the game_id column of [games]: stored rows of those
    four tables never change, and no game disappears. *)
Theorem X5_loads_never_delete :
  (forall now path data srv,
     nothing_lost (store srv)
       (store (snd (load_json_to_database now path data srv)))) /\
  (forall schedule_data srv,
     nothing_lost (store srv)
       (store (snd (load_schedule_data schedule_data srv)))).
Proof.
  split.
  - intros now path data srv.
    apply load_json_to_database_relates.
    + exact nothing_lost_refl.
    + exact nothing_lost_trans.
    + exact _save_raw_json_nothing_lost.
    + exact _process_game_data_nothing_lost.
    + exact _process_boxscore_data_nothing_lost.
  - intros schedule_data srv.
    apply load_schedule_data_relates.
    + exact nothing_lost_refl.
    + exact nothing_lost_trans.
    + exact _insert_team_nothing_lost.
    + exact query_upsert_game_nothing_lost.
Qed.

(** ** Keys of boxscore lines *)

(** X6. No file load gives a (game_id, player_id) key a second line:
    a key that has at most one line in the store before a load of any
    file has at most one after it, whatever the load answers.  (Keys
    with a NULL part are matched by no line, see X3.) *)
Theorem X6_file_load_keeps_line_keys_unique now path data srv :
  lines_stay_unique (store srv)
    (store (snd (load_json_to_database now path data srv))).
Proof.
  apply load_json_to_database_relates.
  - exact lines_stay_unique_refl.
  - exact lines_stay_unique_trans.
  - intros now' gid kind data'.
    apply keeps_boxscore_lines_stay_unique.
    apply _save_raw_json_keeps. reflexivity.
  - intros now' gid gd gdate meta.
    apply keeps_boxscore_lines_stay_unique.
    apply _process_game_data_keeps_boxscore.
  - exact _process_boxscore_data_lines_stay_unique.
Qed.

(** ** The raw backup *)

Lemma _process_game_data_keeps {T} (f : database -> T) now gid gd gdate meta :
  (forall db l, f (set_teams db l) = f db) ->
  (forall db l, f (set_games db l) = f db) ->
  preserves (keeps f) (_process_game_data now gid gd gdate meta).
Proof.
  intros Ht Hg. unfold _process_game_data.
  relation_steps (keeps_refl f) (keeps_trans f); auto with frame.
Qed.

Lemma _process_boxscore_data_keeps {T} (f : database -> T) gid bd :
  (forall db l, f (set_teams db l) = f db) ->
  (forall db l, f (set_players db l) = f db) ->
  (forall db l, f (set_boxscore db l) = f db) ->
  preserves (keeps f) (_process_boxscore_data gid bd).
Proof.
  intros Ht Hp Hb. unfold _process_boxscore_data.
  relation_steps (keeps_refl f) (keeps_trans f).
  unfold process_team.
  relation_steps (keeps_refl f) (keeps_trans f); [auto with frame|].
  match goal with |- preserves _ (process_player _ _ ?item) =>
    destruct item as [player_key player_data] end.
  unfold process_player.
  relation_steps (keeps_refl f) (keeps_trans f); auto with frame.
Qed.

Lemma _save_raw_json_ok now game_id kind data db db' :
  _save_raw_json now game_id kind data db = (Ok tt, db') ->
  exists id,
    as_int game_id = Ok id /\
    db' = set_raw_json_data db
            (raw_json_data db ++
             [{| RawJson.game_id := id; RawJson.data_type := Some kind;
                 RawJson.json_data := data;
                 RawJson.extraction_timestamp := now |}]).
Proof.
  unfold _save_raw_json, query_insert_raw_json. intros H. run_ok H.
  unfold raw_json_of_params, int_param, str_param, param in Hrun.
  cbn in Hrun. pure_ok Hrun. inversion Hrun; subst; clear Hrun.
  apply put_ok in H. subst db'.
  match goal with Hx : as_int game_id = Ok ?i |- _ => exists i end.
  split; [assumption | reflexivity].
Qed.

(** X4. A combined load that reports success has added exactly one row
    to [raw_json_data], at the end, and changed none of the rows that
    were there: the new row holds the payload's game_id, the type
    "combined", the whole payload and the time of the load.  Nothing
    looks for an earlier backup of the same game, so every reload of a
    file adds another row. *)
Theorem X4_combined_load_appends_one_backup_row now path data srv srv' :
  contains path "combined_data" = true ->
  load_json_to_database now path data srv = (Ok true, srv') ->
  exists game_id,
    as_int (got (dict_get1 data "game_id")) = Ok game_id /\
    raw_json_data (store srv')
    = (raw_json_data (store srv) ++
       [{| RawJson.game_id := game_id;
           RawJson.data_type := Some "combined";
           RawJson.json_data := data;
           RawJson.extraction_timestamp := now |}])%list.
Proof.
  intros Hpath H. apply load_combined_file_true in H; [|exact Hpath].
  destruct H as (gid & gdate & meta & Hhead & Hwrites).
  assert (Hgid : gid = got (dict_get1 data "game_id")).
  { destruct data; try discriminate.
    rewrite combined_header_dict in Hhead. inversion Hhead. reflexivity. }
  unfold combined_writes in Hwrites. run_ok Hwrites.
  repeat match goal with u : unit |- _ => destruct u end.
  apply _save_raw_json_ok in Hrun. destruct Hrun as (id & Hid & ->).
  exists id. split; [rewrite <- Hgid; exact Hid|].
  assert (H1 : raw_json_data s0
               = raw_json_data
                   (set_raw_json_data (store srv)
                      (raw_json_data (store srv) ++
                       [{| RawJson.game_id := id;
                           RawJson.data_type := Some "combined";
                           RawJson.json_data := data;
                           RawJson.extraction_timestamp := now |}]))).
  { eapply (keeps_when_key raw_json_data); [|eassumption].
    intros v. apply _process_game_data_keeps; reflexivity. }
  assert (H2 : raw_json_data (store srv') = raw_json_data s0).
  { eapply (keeps_when_key raw_json_data); [|eassumption].
    intros v. apply _process_boxscore_data_keeps; reflexivity. }
  rewrite H2, H1. reflexivity.
Qed.

(** ** Loads that are declined *)

(** X7. A file load answers False and leaves the server exactly as it
    was, without running any statement, when the file gave nothing to
    load (it could not be read, or it holds null, an empty object, an
    empty list, 0, false or an empty string), when the database cannot
    be reached, or when the file's name contains none of
    [combined_data], [boxscore_raw] and [game_raw]. *)
Theorem X7_load_declined now path data srv :
  truthy data = false \/
  reachable srv = false \/
  (contains path "combined_data" = false /\
   contains path "boxscore_raw" = false /\
   contains path "game_raw" = false) ->
  load_json_to_database now path data srv = (Ok false, srv).
Proof.
  intros [Hdata|[Hsrv|(Hc & Hb & Hg)]].
  - apply load_json_to_database_no_data. exact Hdata.
  - apply load_json_to_database_unreachable. exact Hsrv.
  - unfold load_json_to_database. rewrite Hc, Hb, Hg.
    destruct (negb (truthy data)); [reflexivity|].
    unfold with_connection, try_except, ret, disconnect, connect.
    destruct srv as [reach mode db]. simpl.
    destruct reach; reflexivity.
Qed.

(** ** The date of a game *)

Lemma game_line_date now gid gd ht awt gdate meta new :
  game_line now gid gd ht awt gdate meta = Ok new ->
  exists v, parse_game_date now gd gdate = Ok v /\
            as_date v = Ok (Game.game_date new).
Proof.
  unfold game_line. intros H.
  apply rbind_ok in H. destruct H as (ps & Hps & H).
  unfold game_params in Hps. cbv zeta in Hps.
  pure_ok Hps. inversion Hps; subst ps; clear Hps.
  unfold game_of_params, int_param, str_param, date_param, param in H.
  cbn in H. pure_ok H. inversion H; subst new; clear H.
  cbn [Game.game_date]. eauto.
Qed.

(** X8. When [_insert_game] is given no game date (the game-only path
    passes None, and so does the combined path for a payload without a
    truthy game_date), the stored game_date is never NULL and the call
    does not fail over the date: it is the date of the payload's
    gameDate when that is a non-empty string [fromisoformat] can read,
    and the date of the load in every other case (gameDate absent, null,
    empty, no string, or unreadable). *)
Theorem X8_missing_game_date_falls_back
    now game_id game_data home_team away_team game_date game_metadata
    db db' :
  truthy game_date = false ->
  _insert_game now game_id game_data home_team away_team game_date
    game_metadata db = (Ok tt, db') ->
  forall row, In row (games db') ->
    as_int game_id = Ok (Game.game_id row) ->
    Game.game_date row
    = Some (match got (dict_get1 game_data "gameDate") with
            | PStr s =>
                if (s =? EmptyString)%string then datetime_date now
                else match fromisoformat_date s with
                     | Some d => d
                     | None => datetime_date now
                     end
            | _ => datetime_date now
            end).
Proof.
  intros Hfalsy H row Hin Hrow.
  apply _insert_game_row_columns in H.
  destruct H as (new & Hline & Hid & _ & Hcols).
  pose proof (game_line_columns _ _ _ _ _ _ _ _ Hline) as (Hgid & _).
  rewrite Hgid in Hrow. inversion Hrow as [Hsame].
  rewrite <- (Hcols row Hin (eq_sym Hsame)).
  cbn [Game.game_date set_scores_and_metadata].
  apply game_line_date in Hline. destruct Hline as (v & Hparse & Hdate).
  unfold parse_game_date in Hparse. rewrite Hfalsy in Hparse.
  apply rbind_ok in Hparse. destruct Hparse as (gdt & Hgdt & Hparse).
  rewrite Hgdt. cbn [got].
  destruct gdt as [|b|n|s|l|items|d]; simpl in Hparse;
    try (destruct (truthy _) in Hparse);
    try (inversion Hparse; subst v; simpl in Hdate; inversion Hdate;
         reflexivity).
  - destruct b; inversion Hparse; subst v; simpl in Hdate;
      inversion Hdate; reflexivity.
  - destruct (n =? 0); inversion Hparse; subst v; simpl in Hdate;
      inversion Hdate; reflexivity.
  - destruct (s =? EmptyString)%string; simpl in Hparse.
    + inversion Hparse; subst v; simpl in Hdate; inversion Hdate.
      reflexivity.
    + destruct (fromisoformat_date s); inversion Hparse; subst v;
        simpl in Hdate; inversion Hdate; reflexivity.
  - destruct l; inversion Hparse; subst v; simpl in Hdate;
      inversion Hdate; reflexivity.
  - destruct items; inversion Hparse; subst v; simpl in Hdate;
      inversion Hdate; reflexivity.
Qed.

Lemma game_params_bad_date now gid gd ht awt s meta :
  s <> EmptyString -> strptime_date s = None ->
  exists e, game_params now gid gd ht awt (PStr s) meta = Raise e.
Proof.
  intros Hs Hbad. unfold game_params.
  destruct (dict_get gd "teams" (PDict [])) as [td|e]; cbn [rbind];
    [|eauto].
  destruct (dict_get td "home" (PDict [])) as [home|e]; cbn [rbind];
    [|eauto].
  destruct (dict_get home "runs" (PInt 0)) as [hs|e]; cbn [rbind]; [|eauto].
  destruct (dict_get td "away" (PDict [])) as [away|e]; cbn [rbind];
    [|eauto].
  destruct (dict_get away "runs" (PInt 0)) as [aws|e]; cbn [rbind];
    [|eauto].
  cbv zeta. unfold parse_game_date. simpl truthy.
  apply String.eqb_neq in Hs. rewrite Hs. simpl negb. cbv iota.
  rewrite Hbad. cbn [rbind]. eauto.
Qed.

Lemma _process_game_data_bad_date now gid gd s meta db :
  s <> EmptyString -> strptime_date s = None ->
  exists e db', _process_game_data now gid gd (PStr s) meta db
                = (Raise e, db').
Proof.
  intros Hs Hbad. unfold _process_game_data.
  rewrite try_except_reraise. unfold bind, lift.
  destruct (dict_get gd "teams" (PDict [])) as [td|e]; [|eauto].
  destruct (side_team td "home") as [ht|e]; [|eauto].
  destruct (side_team td "away") as [awt|e]; [|eauto].
  destruct (when (truthy ht) (_insert_team ht) db) as [[u|e] s1]; [|eauto].
  destruct (when (truthy awt) (_insert_team awt) s1) as [[u'|e] s2];
    [|eauto].
  unfold _insert_game, bind, lift.
  destruct (game_params_bad_date now gid gd ht awt s meta Hs Hbad)
    as (e & ->).
  eauto.
Qed.

(** X9. A combined payload with game data whose game_date is a string
    that [strptime(_, '%Y-%m-%d')] cannot read is not loaded at all: the
    load answers False, and the store is as it was (the raw backup row
    and the team rows written before the date was parsed are rolled
    back with the rest). *)
Theorem X9_combined_load_rejects_unreadable_game_date
    now path items s game_data srv :
  contains path "combined_data" = true ->
  assoc "game_date" items = Some (PStr s) ->
  s <> EmptyString ->
  strptime_date s = None ->
  assoc "game_data" items = Some game_data ->
  load_json_to_database now path (PDict items) srv = (Ok false, srv).
Proof.
  intros Hpath Hdate Hs Hbad Hgd.
  assert (Hanswer : fst (load_json_to_database now path (PDict items) srv)
                    = Ok false).
  { destruct (reachable srv) eqn:Hsrv;
      [|rewrite load_json_to_database_unreachable by assumption;
        reflexivity].
    assert (Hdata : truthy (PDict items) = true).
    { destruct items; [discriminate | reflexivity]. }
    rewrite load_json_to_database_answer by assumption.
    unfold file_writes. rewrite Hpath.
    unfold combined_file_writes, bind, lift.
    rewrite combined_header_dict. simpl dict_get1. rewrite Hdate.
    cbn [got]. unfold combined_writes, bind.
    match goal with
    | |- context [_save_raw_json ?n ?g ?k ?d ?db] =>
        destruct (_save_raw_json n g k d db) as [[u|e] s1]
    end; [|reflexivity].
    simpl when_key. rewrite Hgd.
    match goal with
    | |- context [_process_game_data ?n ?g ?gd (PStr s) ?m s1] =>
        destruct (_process_game_data_bad_date n g gd s m s1 Hs Hbad)
          as (e & s2 & ->)
    end.
    reflexivity. }
  pose proof (load_combined_file_false _ _ _ _ Hpath Hanswer) as Hstore.
  destruct (load_json_to_database now path (PDict items) srv) as [r srv'].
  simpl in *. subst. reflexivity.
Qed.

(** ** Game data without team objects *)

(** X10. When the game data names no team (its [teams] entry, if any,
    has no [team] object under [home] or [away], as in a linescore
    document), a call of [_process_game_data] that returns has written
    no team row, and a game it stores for the first time has NULL in
    home_team_id and away_team_id. *)
Theorem X10_game_data_without_team_objects
    now game_id game_data game_date game_metadata gid db db' :
  payload_side_team game_data "home" = Ok (PDict []) ->
  payload_side_team game_data "away" = Ok (PDict []) ->
  _process_game_data now game_id game_data game_date game_metadata db
    = (Ok tt, db') ->
  teams db' = teams db /\
  (as_int game_id = Ok gid ->
   games_with gid (games db) = [] ->
   exists new,
     games_with gid (games db') = [new] /\
     Game.home_team_id new = None /\
     Game.away_team_id new = None).
Proof.
  unfold payload_side_team. intros Hhome Haway H.
  split.
  - unfold _process_game_data in H. rewrite try_except_reraise in H.
    run_ok H. rewrite Hrun in Hhome, Haway. cbn [rbind] in Hhome, Haway.
    rewrite Hhome in Hrun0. rewrite Haway in Hrun1.
    inversion Hrun0; subst. inversion Hrun1; subst.
    simpl when in *.
    apply ret_ok in Hrun2. destruct Hrun2 as [_ ->].
    apply ret_ok in Hrun3. destruct Hrun3 as [_ ->].
    eapply (_insert_game_keeps teams); [reflexivity | eassumption].
  - intros Hgid Hfresh.
    apply _process_game_data_rows in H.
    destruct H as (new & Hline & _ & Hrows & _).
    apply payload_game_line_teams in Hline.
    destruct Hline as (ht & awt & Hht & Hawt & Hline).
    rewrite Hhome in Hht. rewrite Haway in Hawt.
    inversion Hht; subst ht. inversion Hawt; subst awt.
    apply game_line_columns in Hline.
    destruct Hline as (Hg & Hh & Ha & _).
    rewrite Hgid in Hg. inversion Hg; subst gid.
    rewrite Hfresh in Hrows.
    exists new. split; [exact Hrows|].
    simpl in Hh, Ha. inversion Hh. inversion Ha. auto.
Qed.

(** ** The games of a schedule *)

(** A call of [_insert_team] that returns does so on any database: it
    skips the team where it is stored and appends it where it is
    not. *)
Lemma _insert_team_anywhere team_data db db' :
  _insert_team team_data db = (Ok tt, db') ->
  exists row,
    Team.team_id row <> None /\
    as_int (got (dict_get1 team_data "id")) = Ok (Team.team_id row) /\
    forall db2,
      _insert_team team_data db2
      = (Ok tt, if team_exists db2 (Team.team_id row) then db2
                else set_teams db2 (teams db2 ++ [row])).
Proof.
  intros H. unfold _insert_team in H. run_ok H.
  unfold query_insert_team in H. run_ok H.
  exists a0.
  assert (Hsome : Team.team_id a0 <> None).
  { destruct (Team.team_id a0); [discriminate|].
    replace (team_exists db None) with false in H; [discriminate|].
    unfold team_exists. clear.
    induction (teams db) as [|r l IH]; simpl; [reflexivity|].
    rewrite <- IH. destruct (Team.team_id r); reflexivity. }
  split; [exact Hsome|]. split.
  - pure_ok Hrun. inversion Hrun; subst a; clear Hrun.
    unfold team_of_params, int_param, str_param, param in Hrun0.
    cbn in Hrun0. pure_ok Hrun0. inversion Hrun0; subst a0. simpl.
    rewrite_reads. cbn [got]. assumption.
  - intros db2. unfold _insert_team, bind, lift. rewrite Hrun.
    unfold query_insert_team, bind, lift, get. rewrite Hrun0.
    destruct (team_exists db2 (Team.team_id a0)); [reflexivity|].
    destruct (Team.team_id a0); [reflexivity | contradiction].
Qed.

Lemma team_exists_fk db id : team_exists db id = true -> fk_team db id = true.
Proof.
  unfold team_exists, fk_team, fk_ok. intros H.
  destruct id as [z|]; [|reflexivity].
  induction (teams db) as [|r l IH]; simpl in *; [discriminate|].
  destruct (sql_eq (Team.team_id r) (Some z)); simpl in *; auto.
Qed.

Lemma team_exists_extends db db' id :
  extends (teams db) (teams db') ->
  team_exists db id = true -> team_exists db' id = true.
Proof.
  intros [more Hmore] H. unfold team_exists in *. rewrite Hmore.
  rewrite existsb_app, H. reflexivity.
Qed.

Lemma falsy_has_no_id t : truthy t = false -> got (dict_get1 t "id") = PNone.
Proof.
  destruct t as [|b|n|s|l|items|d]; simpl; try reflexivity.
  - destruct items; [reflexivity | discriminate].
Qed.

(** The same for the guarded call [if team: self._insert_team(team)],
    with what it leaves behind. *)
Lemma when_insert_team_anywhere t db db' :
  when (truthy t) (_insert_team t) db = (Ok tt, db') ->
  exists id,
    as_int (got (dict_get1 t "id")) = Ok id /\
    forall db2, exists db2',
      when (truthy t) (_insert_team t) db2 = (Ok tt, db2') /\
      extends (teams db2) (teams db2') /\
      games db2' = games db2 /\
      fk_team db2' id = true.
Proof.
  destruct (truthy t) eqn:Ht; simpl.
  - intros H. apply _insert_team_anywhere in H.
    destruct H as (row & Hsome & Hid & Hany).
    exists (Team.team_id row). split; [exact Hid|].
    intros db2. rewrite Hany.
    destruct (team_exists db2 (Team.team_id row)) eqn:Eex.
    + exists db2. repeat split; try apply extends_refl.
      apply team_exists_fk. exact Eex.
    + eexists. split; [reflexivity|]. simpl.
      repeat split; try apply extends_app.
      apply team_exists_fk. rewrite team_exists_app.
      rewrite sql_eq_refl_some by exact Hsome. apply orb_true_r.
  - intros _. exists None. rewrite falsy_has_no_id by exact Ht.
    split; [reflexivity|].
    intros db2. exists db2. repeat split; apply extends_refl.
Qed.

Lemma fk_team_extends db db' id :
  extends (teams db) (teams db') ->
  fk_team db id = true -> fk_team db' id = true.
Proof.
  intros [more Hmore]. unfold fk_team, fk_ok.
  destruct id as [z|]; [|auto].
  rewrite Hmore, map_app, existsb_app. intros ->. reflexivity.
Qed.

Lemma game_exists_none db : game_exists db None = false.
Proof.
  unfold game_exists. induction (games db) as [|r l IH]; simpl;
    [reflexivity|].
  rewrite IH. destruct (Game.game_id r); reflexivity.
Qed.

(** The row [_insert_game_from_schedule] sends: its key and its team
    ids. *)
Lemma schedule_game_params_columns gid game gdate ps new :
  schedule_game_params gid game gdate = Ok ps ->
  game_of_params ps = Ok new ->
  as_int gid = Ok (Game.game_id new) /\
  as_int (got (dict_get1 (got (payload_side_team game "home")) "id"))
    = Ok (Game.home_team_id new) /\
  as_int (got (dict_get1 (got (payload_side_team game "away")) "id"))
    = Ok (Game.away_team_id new).
Proof.
  unfold schedule_game_params, payload_side_team. intros Hps H.
  pure_ok Hps. inversion Hps; subst ps; clear Hps.
  unfold game_of_params, int_param, str_param, date_param, param in H.
  cbn in H. pure_ok H. inversion H; subst new; clear H.
  cbn [Game.game_id Game.home_team_id Game.away_team_id].
  rewrite_reads. cbn [rbind got]. rewrite_reads. cbn [got].
  rewrite_reads. cbn [got].
  repeat split; assumption.
Qed.

(** Whether the writes for a game of a schedule return does not
    depend on the database they run on; and when they return the game
    is stored. *)
Lemma schedule_game_writes_anywhere game gdate db db' :
  schedule_game_writes game gdate db = (Ok tt, db') ->
  exists gid,
    as_int (got (dict_get1 game "gamePk")) = Ok gid /\
    forall db2, exists db2',
      schedule_game_writes game gdate db2 = (Ok tt, db2') /\
      game_exists db2' gid = true.
Proof.
  intros H. unfold schedule_game_writes in H. run_ok H.
  repeat match goal with u : unit |- _ => destruct u end.
  unfold _insert_game_from_schedule in H. run_ok H.
  unfold query_upsert_game in H. run_ok H.
  match goal with
  | Hps : schedule_game_params _ _ _ = Ok ?ps,
    Hnew : game_of_params ?ps = Ok ?new |- _ =>
      pose proof (schedule_game_params_columns _ _ _ _ _ Hps Hnew)
        as (Hgid & Hhome & Haway);
      rename Hps into Hparams; rename Hnew into Hrow; rename new into row
  end.
  rewrite Hrun0 in Hrun2. inversion Hrun2; subst a2. clear Hrun2.
  assert (Hsome : Game.game_id row <> None).
  { destruct (Game.game_id row) eqn:Eid; [discriminate|].
    rewrite game_exists_none in H. unfold insert_game in H. run_ok H.
    rewrite Eid in H. discriminate. }
  assert (Hht : got (payload_side_team game "home") = a1).
  { unfold payload_side_team. rewrite Hrun0. cbn [rbind]. rewrite Hrun1.
    reflexivity. }
  assert (Hawt : got (payload_side_team game "away") = a3).
  { unfold payload_side_team. rewrite Hrun0. cbn [rbind]. rewrite Hrun3.
    reflexivity. }
  rewrite Hht in Hhome. rewrite Hawt in Haway.
  apply when_insert_team_anywhere in Hrun4, Hrun5.
  destruct Hrun4 as (hid & Hhid & Hhome_any).
  destruct Hrun5 as (aid & Haid & Haway_any).
  rewrite Hhome in Hhid. inversion Hhid; subst hid.
  rewrite Haway in Haid. inversion Haid; subst aid.
  exists (Game.game_id row). split; [rewrite Hrun; exact Hgid|].
  intros db2.
  destruct (Hhome_any db2) as (db3 & Hstep1 & Hext1 & Hgames1 & Hfk1).
  destruct (Haway_any db3) as (db4 & Hstep2 & Hext2 & Hgames2 & Hfk2).
  unfold schedule_game_writes, bind, lift.
  rewrite Hrun, Hrun0, Hrun1, Hrun3, Hstep1, Hstep2.
  unfold _insert_game_from_schedule, bind, lift. rewrite Hparams.
  unfold query_upsert_game, bind, lift, get. rewrite Hrow.
  destruct (game_exists db4 (Game.game_id row)) eqn:Eex.
  - eexists. split; [reflexivity|].
    unfold game_exists. simpl.
    unfold game_exists in Eex. apply existsb_exists in Eex.
    destruct Eex as (r & Hin & Hr).
    apply existsb_exists.
    exists (if sql_eq (Game.game_id r) (Game.game_id row)
            then set_scores_and_metadata row r else r).
    split.
    + unfold update_where_game_id. apply in_map_iff. exists r. auto.
    + rewrite Hr. simpl. exact Hr.
  - unfold insert_game, bind, get.
    destruct (Game.game_id row) as [z|] eqn:Eid; [|contradiction].
    rewrite (fk_team_extends db3 db4 _ Hext2 Hfk1), Hfk2. simpl.
    eexists. split; [reflexivity|].
    unfold game_exists. simpl. rewrite existsb_app. simpl.
    rewrite Eid. simpl. rewrite Z.eqb_refl. apply orb_true_r.
Qed.

(** X22. The writes [load_schedule_data] makes for a game of a
    schedule (the two teams where they are missing, then the game)
    need nothing of the database: when they return on an empty
    database, where every insert is made, the game has a gamePk, and on
    every database they return and leave a row stored under that
    gamePk, whatever teams and games are stored there already. *)
Theorem X22_schedule_game_writes_anywhere game game_date db' :
  schedule_game_writes game game_date empty_database = (Ok tt, db') ->
  exists gid,
    as_int (got (dict_get1 game "gamePk")) = Ok gid /\
    gid <> None /\
    forall db, exists db2,
      schedule_game_writes game game_date db = (Ok tt, db2) /\
      game_exists db2 gid = true.
Proof.
  intros H.
  destruct (schedule_game_writes_anywhere game game_date empty_database db' H)
    as (gid & Hgid & Hany).
  exists gid. split; [exact Hgid|]. split; [|exact Hany].
  intros ->. destruct (Hany empty_database) as (db2 & _ & Hstored).
  rewrite game_exists_none in Hstored. discriminate.
Qed.

(** ** The other statement for scheduled games *)

Lemma scheduled_game_params_columns gid game gdate ht awt ps new :
  scheduled_game_params gid game gdate ht awt = Ok ps ->
  game_of_params ps = Ok new ->
  as_int gid = Ok (Game.game_id new) /\
  as_int (got (dict_get1 ht "id")) = Ok (Game.home_team_id new) /\
  as_int (got (dict_get1 awt "id")) = Ok (Game.away_team_id new).
Proof.
  unfold scheduled_game_params. intros Hps H.
  pure_ok Hps.
  match goal with
  | scores : (value * value * value * value)%type |- _ =>
      destruct scores as [[[home_score away_score] inning] inning_state]
  end.
  pure_ok Hps. inversion Hps; subst ps; clear Hps.
  unfold game_of_params, int_param, str_param, date_param, param in H.
  cbn in H. pure_ok H. inversion H; subst new; clear H.
  cbn [Game.game_id Game.home_team_id Game.away_team_id].
  rewrite_reads. cbn [got].
  repeat split; assumption.
Qed.

(** What a returning run of the statement of [_insert_scheduled_game]
    leaves under the game's id. *)
Lemma query_upsert_scheduled_game_rows ps db db' :
  query_upsert_scheduled_game ps db = (Ok tt, db') ->
  exists new,
    game_of_params ps = Ok new /\
    forall row, In row (games db') ->
                Game.game_id row = Game.game_id new ->
                Game.home_team_id row = Game.home_team_id new /\
                Game.away_team_id row = Game.away_team_id new.
Proof.
  unfold query_upsert_scheduled_game. intros H. run_ok H.
  exists a. split; [exact Hrun|].
  destruct (game_exists db (Game.game_id a)) eqn:Eex.
  - assert (Hsome : Game.game_id a <> None).
    { intros Hnone. rewrite Hnone, game_exists_none in Eex. discriminate. }
    destruct (fk_team db (Game.home_team_id a) &&
              fk_team db (Game.away_team_id a)); [|discriminate].
    apply put_ok in H. subst db'. simpl.
    intros row Hin Hrow. unfold update_where_game_id in Hin.
    apply in_map_iff in Hin. destruct Hin as (old & Hold & _).
    destruct (sql_eq (Game.game_id old) (Game.game_id a)) eqn:E.
    + subst row. simpl. auto.
    + subst row. rewrite Hrow in E.
      rewrite sql_eq_refl_some in E by exact Hsome. discriminate.
  - unfold insert_game in H. run_ok H.
    destruct (Game.game_id a) as [z|] eqn:Eid; [|discriminate].
    destruct (fk_team db (Game.home_team_id a) &&
              fk_team db (Game.away_team_id a)); [|discriminate].
    apply put_ok in H. subst db'. simpl.
    intros row Hin Hrow. apply in_app_or in Hin.
    destruct Hin as [Hin|[<-|[]]]; [|auto].
    exfalso. unfold game_exists in Eex.
    assert (Hex : existsb (fun r => sql_eq (Game.game_id r) (Some z))
                    (games db) = true).
    { apply existsb_exists. exists row. split; [exact Hin|].
      rewrite Hrow. simpl. apply Z.eqb_refl. }
    rewrite Hex in Eex. discriminate.
Qed.

(** X12. The statement of [_insert_scheduled_game] names the team
    columns in its SET list: after a call that answers True, every row
    the connection sees under the game's gamePk holds the payload's
    home and away team id, also when the game was stored before with
    other teams. *)
Theorem X12_scheduled_game_rows_take_the_team_ids
    game_data game_date c c' :
  _insert_scheduled_game game_data game_date c = (Ok true, c') ->
  forall row, In row (games (session c')) ->
    as_int (got (dict_get1 game_data "gamePk")) = Ok (Game.game_id row) ->
    as_int (got (dict_get1 (got (payload_side_team game_data "home")) "id"))
      = Ok (Game.home_team_id row) /\
    as_int (got (dict_get1 (got (payload_side_team game_data "away")) "id"))
      = Ok (Game.away_team_id row).
Proof.
  unfold _insert_scheduled_game, try_except. intros H.
  match type of H with
  | match ?body c with _ => _ end = _ =>
      destruct (body c) as [[answer|e] c1] eqn:Hbody
  end; [|discriminate].
  inversion H; subst answer c1; clear H.
  run_ok Hbody.
  destruct (negb (truthy a)); [discriminate|].
  run_ok Hbody. apply ret_ok in Hbody. destruct Hbody as [_ ->].
  unfold execute in Hrun0.
  match type of Hrun0 with
  | (let (_, _) := ?m (session c) in _) = _ =>
      destruct (m (session c)) as [r s1] eqn:Hwrites
  end.
  inversion Hrun0; subst r s. clear Hrun0. simpl session.
  run_ok Hwrites.
  repeat match goal with u : unit |- _ => destruct u end.
  apply query_upsert_scheduled_game_rows in Hwrites.
  destruct Hwrites as (new & Hnew & Hrows).
  match goal with
  | Hps : scheduled_game_params _ _ _ _ _ = Ok _ |- _ =>
      pose proof (scheduled_game_params_columns _ _ _ _ _ _ _ Hps Hnew)
        as (Hgid & Hhome & Haway)
  end.
  intros row Hin Hrow. rewrite Hrun in Hrow. cbn [got] in Hrow.
  rewrite Hgid in Hrow. inversion Hrow as [Hsame].
  destruct (Hrows row Hin (eq_sym Hsame)) as [-> ->].
  unfold payload_side_team. rewrite_reads. cbn [rbind]. rewrite_reads.
  cbn [got]. auto.
Qed.

(** Without a truthy [gameDate] the parameters are never built: the
    date falls to line 412, which reads [datetime] unbound. *)
Lemma scheduled_game_params_without_gameDate gid game gdate ht awt :
  truthy (got (dict_get1 game "gameDate")) = false ->
  is_ok (scheduled_game_params gid game gdate ht awt) = false.
Proof.
  intros Hdate. unfold scheduled_game_params.
  repeat match goal with
         | |- is_ok (rbind (dict_get1 game "gameDate") _) = false => fail 1
         | |- is_ok (rbind ?r _) = false =>
             destruct r as [?|?]; cbn [rbind is_ok]; [|reflexivity]
         | scores : (value * value * value * value)%type |- _ =>
             destruct scores as [[[? ?] ?] ?]
         end.
  destruct (dict_get1 game "gameDate") as [game_datetime|e];
    cbn [rbind is_ok got] in *; [|reflexivity].
  rewrite Hdate. reflexivity.
Qed.

(** X23. [_insert_scheduled_game] stores no game that comes without a
    [gameDate]: the function imports [datetime] in its own body, so the
    fallback to the date of the schedule entry (line 412) reads the
    name unbound; the UnboundLocalError is caught with the rest, the
    call answers False, and the [games] the connection sees are what
    they were, whatever the payload and the schedule date are. *)
Theorem X23_scheduled_game_without_gameDate game_data game_date c :
  truthy (got (dict_get1 game_data "gameDate")) = false ->
  fst (_insert_scheduled_game game_data game_date c) = Ok false /\
  games (session (snd (_insert_scheduled_game game_data game_date c)))
  = games (session c).
Proof.
  intros Hdate. unfold _insert_scheduled_game, try_except.
  destruct (dict_get1 game_data "gamePk") as [game_id|e];
    cbn [bind lift]; [|split; reflexivity].
  destruct (negb (truthy game_id)); [split; reflexivity|].
  match goal with |- context [execute ?m] => set (writes := m) end.
  assert (H : forall db, is_ok (fst (writes db)) = false /\
                         games (snd (writes db)) = games db).
  { intros db. unfold writes, bind, lift.
    destruct (dict_get game_data "teams" (PDict [])) as [teams_data|e];
      [|split; reflexivity].
    destruct (side_team teams_data "home") as [home_team|e];
      [|split; reflexivity].
    destruct (side_team teams_data "away") as [away_team|e];
      [|split; reflexivity].
    destruct (when (truthy home_team) (_insert_team home_team) db)
      as [[[]|e] db1] eqn:Hhome;
      apply (when_insert_team_keeps games) in Hhome; try reflexivity;
      [|split; [reflexivity | exact Hhome]].
    destruct (when (truthy away_team) (_insert_team away_team) db1)
      as [[[]|e] db2] eqn:Haway;
      apply (when_insert_team_keeps games) in Haway; try reflexivity;
      [|split; [reflexivity | simpl; rewrite Haway; exact Hhome]].
    pose proof (scheduled_game_params_without_gameDate game_id game_data
                  game_date home_team away_team Hdate) as Hparams.
    destruct (scheduled_game_params game_id game_data game_date home_team
                away_team) as [ps|e]; [discriminate|].
    split; [reflexivity | simpl; rewrite Haway; exact Hhome]. }
  unfold bind, execute. specialize (H (session c)).
  destruct (writes (session c)) as [[u|e] db']; simpl in H;
    destruct H as [Hr Hgames]; [discriminate|].
  simpl. split; [reflexivity | exact Hgames].
Qed.

(** ** Clearing a range of dates *)

Lemma existsb_filter_negb {A} (f : A -> bool) (l : list A) :
  existsb f (filter (fun x => negb (f x)) l) = false.
Proof.
  induction l as [|x l IH]; simpl; [reflexivity|].
  destruct (f x) eqn:E; simpl; [exact IH|].
  rewrite E, IH. reflexivity.
Qed.

(** X13. Clearing a date range never fails and is committed as a
    whole: [execute_transaction] with the two DELETE statements of
    [load_june_data] and [load_dynamic_date_range_data] returns on
    every connection (the lines go first, so the foreign key of
    boxscore.game_id never stands in the way of deleting the games),
    starting from what is committed, with nothing pending afterwards.
    What is then committed are the games whose date is outside the
    range or NULL, the lines that belong to no game of the range, and
    the teams, players and raw backups untouched. *)
Theorem X13_clear_date_range start_date end_date c :
  let before := committed c in
  let after :=
    set_games
      (set_boxscore before
         (filter (fun line =>
                    negb (of_game_in_range start_date end_date
                            (games before) line))
            (boxscore before)))
      (filter (fun g => negb (in_date_range start_date end_date
                                (Game.game_date g)))
         (games before)) in
  clear_date_range start_date end_date c
  = (Ok [tt; tt],
     {| autocommit := autocommit c; committed := after; session := after |}).
Proof.
  intros before after. subst after before.
  unfold clear_date_range, execute_transaction, transaction, reopen.
  cbn [session committed autocommit].
  assert (Hlines : query_delete_boxscore_in_range start_date end_date
                     (committed c)
                   = (Ok tt,
                      set_boxscore (committed c)
                        (filter (fun line =>
                                   negb (of_game_in_range start_date end_date
                                           (games (committed c)) line))
                           (boxscore (committed c))))) by reflexivity.
  assert (Hgames : forall db,
             existsb (of_game_in_range start_date end_date (games db))
               (boxscore db) = false ->
             query_delete_games_in_range start_date end_date db
             = (Ok tt,
                set_games db
                  (filter (fun g => negb (in_date_range start_date end_date
                                            (Game.game_date g)))
                     (games db)))).
  { intros db Hfree. unfold query_delete_games_in_range, bind, get.
    rewrite Hfree. reflexivity. }
  unfold run_all, bind. rewrite Hlines, Hgames.
  - reflexivity.
  - simpl. apply existsb_filter_negb.
Qed.

(** One combined load that reports success, into a store that holds
    no game row and no line for the payload's game. *)
Lemma combined_load_of_a_fresh_game now path items game_data gid srv srv' :
  contains path "combined_data" = true ->
  assoc "game_data" items = Some game_data ->
  as_int (got (dict_get1 (PDict items) "game_id")) = Ok gid ->
  games_with gid (games (store srv)) = [] ->
  (forall row, In row (boxscore (store srv)) ->
               Boxscore.game_id row <> gid) ->
  load_json_to_database now path (PDict items) srv = (Ok true, srv') ->
  (exists game_row,
     combined_game_line now items game_data = Ok game_row /\
     games_with gid (games (store srv')) = [game_row]) /\
  (forall pid,
     (length (lines_with gid pid (boxscore (store srv'))) <= 1)%nat) /\
  (forall row, In row (boxscore (store srv')) ->
               Boxscore.game_id row = gid ->
               In row (combined_lines items)) /\
  (forall row, In row (combined_lines items) ->
               Boxscore.player_id row <> None ->
               lines_with gid (Boxscore.player_id row)
                 (boxscore (store srv')) <> []).
Proof.
  intros Hpath Hgd Hgid Hnogame Hnolines Hload.
  apply load_combined_file_true in Hload; [|exact Hpath].
  destruct Hload as (gidv & gdate & meta & Hhead & Hwrites).
  assert (Hgidv : gidv = got (dict_get1 (PDict items) "game_id")).
  { rewrite combined_header_dict in Hhead. inversion Hhead. reflexivity. }
  rewrite <- Hgidv in Hgid.
  destruct (combined_writes_games _ _ _ _ _ _ _ _ Hgd Hwrites)
    as (new & Hline & Hid & Hrows & _).
  assert (Hnew : Game.game_id new = gid).
  { pose proof Hline as Hline'. apply payload_game_line_teams in Hline'.
    destruct Hline' as (ht & awt & _ & _ & Hline').
    apply game_line_columns in Hline'. destruct Hline' as (Hg & _).
    rewrite Hgid in Hg. inversion Hg. reflexivity. }
  destruct (combined_writes_boxscore _ _ _ _ _ _ _ Hwrites)
    as (Hfrom & Huniq & Hpost).
  assert (Hlines : combined_lines items
                   = match assoc "boxscore" items with
                     | Some boxscore_data => payload_lines gidv boxscore_data
                     | None => []
                     end).
  { unfold combined_lines. rewrite Hgidv. reflexivity. }
  rewrite <- Hlines in Hfrom, Hpost.
  split; [|split; [|split]].
  - exists new. split.
    + unfold combined_game_line. rewrite Hhead. cbn [rbind]. exact Hline.
    + rewrite Hnew in Hrows. rewrite Hnogame in Hrows. exact Hrows.
  - intros pid. apply Huniq.
    rewrite lines_with_fresh by exact Hnolines. simpl. lia.
  - intros row Hin Hrow.
    destruct (Hfrom row Hin) as [Hin0|HQ]; [|exact HQ].
    exfalso. apply (Hnolines row Hin0 Hrow).
  - intros row Hin Hpid.
    assert (Hrow : Boxscore.game_id row = gid).
    { rewrite Hlines in Hin.
      destruct (assoc "boxscore" items) as [boxscore_data|]; [|contradiction].
      apply payload_lines_game_id in Hin. rewrite Hgid in Hin.
      inversion Hin. reflexivity. }
    rewrite <- Hrow. apply has_line_lines_with. apply Hpost; [exact Hin|].
    split; [|exact Hpid]. rewrite Hrow, <- Hnew. exact Hid.
Qed.

(** What a clearing that returned has left of [games] and
    [boxscore]. *)
Lemma clear_date_range_leaves start_date end_date c results c' :
  clear_date_range start_date end_date c = (Ok results, c') ->
  games (committed c')
  = filter (fun g => negb (in_date_range start_date end_date
                             (Game.game_date g)))
      (games (committed c)) /\
  boxscore (committed c')
  = filter (fun line => negb (of_game_in_range start_date end_date
                                (games (committed c)) line))
      (boxscore (committed c)).
Proof.
  unfold clear_date_range, execute_transaction, transaction, reopen.
  cbn [session committed autocommit].
  unfold run_all, bind, query_delete_boxscore_in_range,
    query_delete_games_in_range, bind, get, put, ret, raise.
  cbn [games boxscore set_boxscore].
  match goal with
  | |- context [if ?b then _ else _] => destruct b
  end; intros H; inversion H; subst. simpl. auto.
Qed.

Lemma games_with_filter id (keep : Game.row -> bool) rows :
  games_with id (filter keep rows) = filter keep (games_with id rows).
Proof.
  unfold games_with. induction rows as [|r rows IH]; simpl; [reflexivity|].
  destruct (keep r) eqn:Ek, (sql_eq (Game.game_id r) id) eqn:Ei; simpl;
    rewrite ?Ek, ?Ei, IH; reflexivity.
Qed.

Lemma filter_none {A} (keep : A -> bool) (l : list A) :
  (forall x, In x l -> keep x = false) -> filter keep l = [].
Proof.
  induction l as [|x l IH]; simpl; intros H; [reflexivity|].
  rewrite (H x) by auto. apply IH. auto.
Qed.

(** X14. Clearing the date range a stored game lies in and then
    loading a combined payload for that game, the load reporting
    success, leaves the game as the payload has it: one [games] row,
    equal to the row computed from the payload (team ids included), at
    most one line per player, every line of the game a line computed
    from the payload, and every such line that names a player stored.
    This is how the repository's reload scripts refresh a game that a
    plain reload would leave stale. *)
Theorem X14_clear_then_load_refreshes
    now path items game_data gid start_date end_date srv results c srv' :
  contains path "combined_data" = true ->
  assoc "game_data" items = Some game_data ->
  as_int (got (dict_get1 (PDict items) "game_id")) = Ok gid ->
  games_with gid (games (store srv)) <> [] ->
  (forall row, In row (games_with gid (games (store srv))) ->
     in_date_range start_date end_date (Game.game_date row) = true) ->
  clear_date_range start_date end_date (connect srv) = (Ok results, c) ->
  load_json_to_database now path (PDict items)
    {| reachable := reachable srv; autocommit_mode := autocommit_mode srv;
       store := committed c |} = (Ok true, srv') ->
  (exists game_row,
     combined_game_line now items game_data = Ok game_row /\
     games_with gid (games (store srv')) = [game_row]) /\
  (forall pid,
     (length (lines_with gid pid (boxscore (store srv'))) <= 1)%nat) /\
  (forall row, In row (boxscore (store srv')) ->
               Boxscore.game_id row = gid ->
               In row (combined_lines items)) /\
  (forall row, In row (combined_lines items) ->
               Boxscore.player_id row <> None ->
               lines_with gid (Boxscore.player_id row)
                 (boxscore (store srv')) <> []).
Proof.
  intros Hpath Hgd Hgid Hstored Hrange Hclear Hload.
  apply clear_date_range_leaves in Hclear.
  destruct Hclear as [Hgames Hlines]. simpl committed in Hgames, Hlines.
  refine (combined_load_of_a_fresh_game _ _ _ _ _ _ _ Hpath Hgd Hgid _ _
            Hload).
  - simpl store. rewrite Hgames, games_with_filter. apply filter_none.
    intros row Hin. rewrite (Hrange row Hin). reflexivity.
  - simpl store. rewrite Hlines. intros row Hin Hrow.
    apply filter_In in Hin. destruct Hin as [_ Hkept].
    apply games_with_nonempty in Hstored.
    destruct Hstored as (g & Hg & Hgkey).
    assert (Hgin : In g (games_with gid (games (store srv)))).
    { unfold games_with. apply filter_In. auto. }
    apply sql_eq_true in Hgkey. destruct Hgkey as [Hgid' Hsome].
    assert (Hof : of_game_in_range start_date end_date (games (store srv))
                    row = true).
    { unfold of_game_in_range. apply existsb_exists. exists g.
      split; [exact Hg|]. rewrite (Hrange g Hgin), Hrow, <- Hgid'. simpl.
      apply sql_eq_refl_some. exact Hsome. }
    rewrite Hof in Hkept. discriminate.
Qed.

(** ** What the scripts count *)

Lemma load_file_never_raises f srv :
  exists answer srv', load_file f srv = (Ok answer, srv').
Proof.
  unfold load_file.
  destruct (load_json_to_database_never_raises (loaded_at f) (file_path f)
              (file_data f) srv) as (answer & Hanswer).
  destruct (load_json_to_database (loaded_at f) (file_path f) (file_data f)
              srv) as [r srv'].
  simpl in Hanswer. subst r. eauto.
Qed.

(** X15. The loading loop of [load_june_data], [load_july_data] and
    [load_dynamic_date_range_data] drops the answer of
    [load_json_to_database], which never raises: whatever the files
    hold and whatever becomes of them, the loop ends with success_count
    equal to the number of files and error_count equal to 0. *)
Theorem X15_unchecked_loop_counts_every_file files srv :
  fst (load_files_unchecked files srv)
  = Ok (Z.of_nat (length files), 0).
Proof.
  unfold load_files_unchecked.
  assert (H : forall s e srv0,
             fst (fold_m files
                    (fun f '(success_count, error_count) =>
                       try_except
                         (_ <- load_file f ;;
                          ret (success_count + 1, error_count))
                         (fun _ => ret (success_count, error_count + 1)))
                    (s, e) srv0)
             = Ok (s + Z.of_nat (length files), e)).
  { induction files as [|f files IH]; intros s e srv0.
    - simpl. rewrite Z.add_0_r. reflexivity.
    - cbn [fold_m]. unfold bind at 1. unfold try_except, bind at 1.
      destruct (load_file_never_raises f srv0) as (answer & srv1 & ->).
      unfold ret at 1. rewrite IH. cbn [length]. f_equal. f_equal. lia. }
  rewrite H. reflexivity.
Qed.

Lemma load_and_count_returns f s e srv :
  exists s' e' srv',
    load_and_count f (s, e) srv = (Ok (s', e'), srv') /\
    s' + e' = s + e + 1 /\ s <= s' /\ e <= e'.
Proof.
  unfold load_and_count, try_except, bind.
  destruct (load_file_never_raises f srv) as ([|] & srv1 & ->);
    unfold ret; do 3 eexists; (split; [reflexivity|lia]).
Qed.

Lemma fold_load_and_count files : forall s e srv,
  exists s' e' srv',
    fold_m files load_and_count (s, e) srv = (Ok (s', e'), srv') /\
    s' + e' = s + e + Z.of_nat (length files) /\ s <= s' /\ e <= e'.
Proof.
  induction files as [|f files IH]; intros s e srv.
  - exists s, e, srv. simpl. split; [reflexivity|lia].
  - cbn [fold_m]. unfold bind.
    destruct (load_and_count_returns f s e srv)
      as (s1 & e1 & srv1 & -> & Hsum1 & Hs1 & He1).
    destruct (IH s1 e1 srv1) as (s2 & e2 & srv2 & -> & Hsum2 & Hs2 & He2).
    exists s2, e2, srv2. split; [reflexivity|].
    cbn [length]. lia.
Qed.

(** X16. [load_march_data] returns its two counts only when it found
    files: they are then not negative and add up to the number of
    files (no load raises, so a file is an error exactly when its load
    answered False).  When it found no file it does not return (0, 0):
    the success rate of its summary divides by the number of files, and
    the call ends in ZeroDivisionError. *)
Theorem X16_load_march_data_outcome march_files srv :
  match fst (load_march_data march_files srv) with
  | inl (success_count, error_count) =>
      march_files <> [] /\
      0 <= success_count /\ 0 <= error_count /\
      success_count + error_count = Z.of_nat (length march_files)
  | inr err => march_files = [] /\ err = ZeroDivisionError
  end.
Proof.
  unfold load_march_data.
  destruct (fold_load_and_count march_files 0 0 srv)
    as (s & e & srv' & -> & Hsum & Hs & He).
  destruct march_files as [|f files].
  - simpl. auto.
  - cbn [length] in *. rewrite Nat2Z.inj_succ in *.
    destruct (Z.succ (Z.of_nat (length files)) =? 0) eqn:E;
      [apply Z.eqb_eq in E; lia|].
    simpl. repeat split; try lia. discriminate.
Qed.

Lemma fold_m_app {S A B} (l1 l2 : list A) (step : A -> B -> M S B) acc s :
  fold_m (l1 ++ l2) step acc s
  = bind (fold_m l1 step acc) (fun acc' => fold_m l2 step acc') s.
Proof.
  revert acc s. induction l1 as [|x l1 IH]; intros acc s; simpl.
  - reflexivity.
  - unfold bind. destruct (step x acc s) as [[acc1|e] s1]; [|reflexivity].
    rewrite IH. reflexivity.
Qed.

Lemma batches_from {A B} batch_size (files : list A)
    (step : A -> B -> M server B) :
  (0 < batch_size)%nat ->
  forall fuel i counts srv,
    (length files - i <= fuel)%nat ->
    fold_m (range_from fuel i (length files) batch_size)
      (fun i counts => fold_m (slice i (i + batch_size) files) step counts)
      counts srv
    = fold_m (skipn i files) step counts srv.
Proof.
  intros Hpos.
  induction fuel as [|fuel IH]; intros i counts srv Hfuel.
  - rewrite skipn_all2 by lia. reflexivity.
  - cbn [range_from]. destruct (i <? length files)%nat eqn:Ei.
    + apply Nat.ltb_lt in Ei. cbn [fold_m].
      unfold slice.
      replace (i + batch_size - i)%nat with batch_size by lia.
      transitivity
        (fold_m (firstn batch_size (skipn i files) ++
                 skipn batch_size (skipn i files))
           step counts srv);
        [|rewrite firstn_skipn; reflexivity].
      rewrite fold_m_app. unfold bind.
      destruct (fold_m (firstn batch_size (skipn i files)) step
                  counts srv) as [[counts1|e] srv1]; [|reflexivity].
      rewrite IH by lia. rewrite skipn_skipn.
      replace (batch_size + i)%nat with (i + batch_size)%nat by lia.
      reflexivity.
    + apply Nat.ltb_ge in Ei. rewrite skipn_all2 by lia. reflexivity.
Qed.

Lemma fold_process_file files : forall p s e srv,
  exists s' e' srv',
    fold_m files process_file (p, s, e) srv
    = (Ok (p + Z.of_nat (length files), s', e'), srv') /\
    s' + e' = s + e + Z.of_nat (length files) /\ s <= s' /\ e <= e'.
Proof.
  induction files as [|f files IH]; intros p s e srv.
  - exists s, e, srv. simpl. rewrite Z.add_0_r. split; [reflexivity|lia].
  - cbn [fold_m]. unfold bind.
    assert (Hf : exists s1 e1 srv1,
               process_file f (p, s, e) srv = (Ok (p + 1, s1, e1), srv1) /\
               s1 + e1 = s + e + 1 /\ s <= s1 /\ e <= e1).
    { unfold process_file, try_except, bind.
      destruct (load_file_never_raises f srv) as ([|] & srv1 & ->);
        unfold ret; do 3 eexists; (split; [reflexivity|lia]). }
    destruct Hf as (s1 & e1 & srv1 & -> & Hsum1 & Hs1 & He1).
    destruct (IH (p + 1) s1 e1 srv1)
      as (s2 & e2 & srv2 & -> & Hsum2 & Hs2 & He2).
    exists s2, e2, srv2. cbn [length]. rewrite Nat2Z.inj_succ.
    replace (p + Z.succ (Z.of_nat (length files)))
      with (p + 1 + Z.of_nat (length files)) by lia.
    split; [reflexivity | lia].
Qed.

(** X17. The batches of [process_all_remaining_games] cover the list
    of files exactly: for any positive batch size (the script uses 50),
    going through the slices [files[i:i + batch_size]] for [i] in
    [range(0, len(files), batch_size)] loads every file once, in the
    order of the list, and ends with the same store and the same counts
    as one loop over the files: as many processed as there are files,
    each of them either successful or failed. *)
Theorem X17_batches_cover_every_file_once batch_size files srv :
  (0 < batch_size)%nat ->
  process_in_batches batch_size files srv
    = fold_m files process_file (0, 0, 0) srv /\
  exists successful failed,
    fst (process_in_batches batch_size files srv)
      = Ok (Z.of_nat (length files), successful, failed) /\
    0 <= successful /\ 0 <= failed /\
    successful + failed = Z.of_nat (length files).
Proof.
  intros Hpos.
  assert (Hflat : process_in_batches batch_size files srv
                  = fold_m files process_file (0, 0, 0) srv).
  { unfold process_in_batches, range.
    rewrite (batches_from batch_size files process_file Hpos) by lia.
    reflexivity. }
  split; [exact Hflat|]. rewrite Hflat.
  destruct (fold_process_file files 0 0 0 srv)
    as (s & e & srv' & -> & Hsum & Hs & He).
  exists s, e. simpl. repeat split; lia.
Qed.

(** ** The schedule script *)

Lemma load_schedule_data_answer schedule_data srv :
  schedule_shape schedule_data = true ->
  fst (load_schedule_data schedule_data srv) = Ok (reachable srv).
Proof.
  intros Hshape. rewrite load_schedule_data_in_effect.
  unfold schedule_shape in Hshape. apply andb_prop in Hshape.
  destruct Hshape as [Hdict Hdates].
  destruct schedule_data; try discriminate. clear Hdict.
  unfold load_schedule_data_494, with_connection.
  destruct (reachable srv); [|reflexivity].
  unfold try_except, bind, lift.
  simpl in Hdates. simpl rbind.
  destruct (match assoc "dates" items with
            | Some v => v
            | None => PList []
            end) as [| | | |dates| |]; try discriminate.
  simpl py_iter. cbv iota.
  destruct (for_each_returns dates schedule_date_step) with (s := connect srv)
    as (c' & Hc').
  - intros date_entry Hin c0. apply schedule_date_step_returns.
    rewrite forallb_forall in Hdates. apply Hdates. exact Hin.
  - rewrite Hc'. reflexivity.
Qed.

Lemma sum_games_shaped dates :
  forallb date_entry_shape dates = true ->
  sum_games dates = Ok (Z.of_nat (length (flat_map date_entry_games dates))).
Proof.
  induction dates as [|date_entry dates IH]; simpl; intros H;
    [reflexivity|].
  apply andb_prop in H. destruct H as [Hshape Hrest].
  rewrite (IH Hrest). clear IH.
  unfold date_entry_shape in Hshape. apply andb_prop in Hshape.
  destruct Hshape as [Hdict Hgames].
  destruct date_entry; try discriminate.
  unfold date_entry_games. simpl dict_get in *. simpl got in Hgames.
  cbn [rbind].
  destruct (match assoc "games" items with
            | Some v => v
            | None => PList []
            end) as [| | | |games| |]; try discriminate.
  unfold py_len. simpl py_iter. cbn [rbind].
  rewrite length_app, length_map, Nat2Z.inj_add. reflexivity.
Qed.

(** X18. Given a schedule response of the API's shape,
    [load_schedule_for_date_range] does not raise: it answers True
    exactly when the schedule holds at least one game and the database
    can be reached, whether or not any game could be stored; and for a
    schedule without games it answers False without touching the
    server. *)
Theorem X18_schedule_script_answer schedule_data srv :
  schedule_shape schedule_data = true ->
  fst (load_schedule_for_date_range (Ok schedule_data) srv)
  = Ok (match schedule_games schedule_data with
        | [] => false
        | _ :: _ => reachable srv
        end) /\
  (schedule_games schedule_data = [] ->
   snd (load_schedule_for_date_range (Ok schedule_data) srv) = srv).
Proof.
  intros Hshape.
  pose proof (load_schedule_data_answer schedule_data srv Hshape) as Hload.
  unfold schedule_shape in Hshape. apply andb_prop in Hshape.
  destruct Hshape as [Hdict Hdates].
  destruct schedule_data; try discriminate. clear Hdict.
  unfold load_schedule_for_date_range, schedule_games.
  unfold try_except, bind, lift.
  simpl dict_get in *. simpl got in Hdates. cbn [rbind].
  destruct (match assoc "dates" items with
            | Some v => v
            | None => PList []
            end) as [| | | |dates| |] eqn:Edates; try discriminate.
  simpl py_iter. cbn [rbind].
  rewrite (sum_games_shaped dates Hdates).
  destruct (flat_map date_entry_games dates) as [|game games] eqn:Egames.
  - simpl. split; reflexivity.
  - replace (Z.of_nat (length (game :: games)) =? 0) with false
      by (symmetry; apply Z.eqb_neq; cbn [length]; lia).
    destruct (load_schedule_data (PDict items) srv) as [r srv'].
    simpl in Hload. subst r. simpl. split; [reflexivity | discriminate].
Qed.

(** ** What is committed outside a transaction

    [connect()] makes its engine with [create_engine(connection_string)]
    and no isolation level: a statement sent through [execute_query]
    outside a [begin()] block stays pending, and [disconnect()] drops
    it.  Only [_load_combined_data] and [execute_transaction] open a
    transaction and commit it. *)

Lemma commits_nothing_refl c : commits_nothing c c.
Proof. intros H. split; [exact H | reflexivity]. Qed.

Lemma commits_nothing_trans c1 c2 c3 :
  commits_nothing c1 c2 -> commits_nothing c2 c3 -> commits_nothing c1 c3.
Proof.
  intros H12 H23 H1. destruct (H12 H1) as [H2 Hc2].
  destruct (H23 H2) as [H3 Hc3].
  split; [exact H3 | rewrite Hc3; exact Hc2].
Qed.

Lemma execute_commits_nothing {A} (m : M database A) :
  preserves commits_nothing (execute m).
Proof.
  intros c r c' H Hc. unfold execute in H.
  destruct (m (session c)) as [r0 s']. inversion H; subst r c'; clear H.
  simpl. rewrite Hc. split; reflexivity.
Qed.

Lemma _load_boxscore_data_commits_nothing now data :
  preserves commits_nothing (_load_boxscore_data now data).
Proof.
  unfold _load_boxscore_data. cbv zeta.
  relation_steps commits_nothing_refl commits_nothing_trans;
    apply execute_commits_nothing.
Qed.

Lemma _load_game_data_commits_nothing now data :
  preserves commits_nothing (_load_game_data now data).
Proof.
  unfold _load_game_data. cbv zeta.
  relation_steps commits_nothing_refl commits_nothing_trans;
    apply execute_commits_nothing.
Qed.

Lemma schedule_date_step_commits_nothing date_entry :
  preserves commits_nothing (schedule_date_step date_entry).
Proof.
  unfold schedule_date_step.
  relation_steps commits_nothing_refl commits_nothing_trans.
  unfold schedule_game_step.
  relation_steps commits_nothing_refl commits_nothing_trans.
  apply execute_commits_nothing.
Qed.

(** Closing such a connection gives back the server as it was. *)
Lemma with_connection_commits_nothing body srv :
  autocommit_mode srv = false ->
  preserves commits_nothing body ->
  snd (with_connection body srv) = srv.
Proof.
  intros Hmode Hbody. unfold with_connection.
  destruct (reachable srv) eqn:Hreach; [|reflexivity].
  destruct (try_except body (fun _ => ret false) (connect srv))
    as [r c'] eqn:E.
  assert (Hc' : commits_nothing (connect srv) c').
  { refine (preserves_try_except commits_nothing commits_nothing_trans
              body (fun _ => ret false) Hbody _ (connect srv) r c' E).
    intros e. apply preserves_ret. apply commits_nothing_refl. }
  destruct (Hc' Hmode) as [_ Hsame].
  unfold disconnect. simpl. rewrite Hsame. simpl.
  destruct srv as [re au st]. simpl in *. subst. reflexivity.
Qed.

(** A boxscore-only or game-only file leaves the store as it found it,
    whatever the load answers. *)
Lemma non_combined_load_commits_nothing now path data srv :
  autocommit_mode srv = false ->
  contains path "combined_data" = false ->
  snd (load_json_to_database now path data srv) = srv.
Proof.
  intros Hmode Hpath. unfold load_json_to_database.
  destruct (negb (truthy data)); [reflexivity|].
  rewrite Hpath. apply with_connection_commits_nothing; [exact Hmode|].
  destruct (contains path "boxscore_raw");
    [apply _load_boxscore_data_commits_nothing|].
  destruct (contains path "game_raw");
    [apply _load_game_data_commits_nothing|].
  apply preserves_ret. apply commits_nothing_refl.
Qed.

(** X11. On the engine [connect()] builds, which does not commit
    statements on its own, a schedule load stores nothing: it runs its
    statements outside any transaction and closes the connection, so
    the server is afterwards exactly as it was, whatever the schedule
    holds; and for a schedule response of the API's shape on a database
    that can be reached it still answers True. *)
Theorem X11_schedule_load_commits_nothing schedule_data srv :
  autocommit_mode srv = false ->
  snd (load_schedule_data schedule_data srv) = srv /\
  (reachable srv = true ->
   schedule_shape schedule_data = true ->
   load_schedule_data schedule_data srv = (Ok true, srv)).
Proof.
  intros Hmode.
  assert (Hsame : snd (load_schedule_data schedule_data srv) = srv).
  { rewrite load_schedule_data_in_effect. unfold load_schedule_data_494.
    apply with_connection_commits_nothing; [exact Hmode|].
    relation_steps commits_nothing_refl commits_nothing_trans.
    apply schedule_date_step_commits_nothing. }
  split; [exact Hsame|].
  intros Hreach Hshape.
  pose proof (load_schedule_data_answer schedule_data srv Hshape) as Hanswer.
  destruct (load_schedule_data schedule_data srv) as [r srv'].
  simpl in Hsame, Hanswer. rewrite Hanswer, Hsame, Hreach. reflexivity.
Qed.

(** ** The names of the files *)

Lemma list_ascii_of_string_app s1 s2 :
  list_ascii_of_string (s1 ++ s2)
  = (list_ascii_of_string s1 ++ list_ascii_of_string s2)%list.
Proof. induction s1 as [|c s1 IH]; simpl; [reflexivity|]. rewrite IH. reflexivity. Qed.

Lemma digit_digit_char k : 0 <= k <= 9 -> digit (digit_char k) = Some k.
Proof.
  intros H.
  assert (Hk : k = 0 \/ k = 1 \/ k = 2 \/ k = 3 \/ k = 4 \/ k = 5 \/
               k = 6 \/ k = 7 \/ k = 8 \/ k = 9) by lia.
  repeat (destruct Hk as [->|Hk]; [reflexivity|]). subst. reflexivity.
Qed.

Lemma isdigit_digit_char k : 0 <= k <= 9 -> isdigit (digit_char k) = true.
Proof. intros H. unfold isdigit. rewrite digit_digit_char by exact H. reflexivity. Qed.

(** A decimal numeral ends in a digit. *)
Lemma string_of_uint_ends_in_digit (d : Decimal.uint) :
  d <> Decimal.Nil ->
  exists front c,
    list_ascii_of_string (NilEmpty.string_of_uint d) = (front ++ [c])%list /\
    isdigit c = true.
Proof.
  induction d as [|d IH|d IH|d IH|d IH|d IH|d IH|d IH|d IH|d IH|d IH];
    intros Hd; [contradiction| | | | | | | | | |];
    (destruct d;
     [ eexists [], _; split; [reflexivity|reflexivity]
     | destruct IH as (front & c & Hfront & Hc); [discriminate|];
       eexists (_ :: front), c; split;
       [cbn [NilEmpty.string_of_uint list_ascii_of_string] in *;
        rewrite Hfront; reflexivity | exact Hc] .. ]).
Qed.

Lemma str_of_int_ends_in_digit n :
  exists front c,
    list_ascii_of_string (str_of_int n) = (front ++ [c])%list /\
    isdigit c = true.
Proof.
  unfold str_of_int.
  assert (H : forall d, exists front c,
             list_ascii_of_string (NilZero.string_of_uint d)
             = (front ++ [c])%list /\ isdigit c = true).
  { intros d. destruct d;
      try (apply string_of_uint_ends_in_digit; discriminate).
    exists [], "0"%char. split; reflexivity. }
  destruct (Z.to_int n) as [d|d]; simpl.
  - apply H.
  - destruct (H d) as (front & c & Hfront & Hc).
    exists ("-"%char :: front), c. rewrite Hfront. split; [reflexivity|exact Hc].
Qed.

(** A name that ends in a digit gets no timestamp. *)
Lemma json_file_name_of_digit timestamp filename front c :
  list_ascii_of_string filename = (front ++ [c])%list ->
  isdigit c = true ->
  json_file_name timestamp filename = filename ++ ".json".
Proof.
  intros Hname Hc. unfold json_file_name, last_chars. cbv zeta.
  replace (existsb isdigit
             (skipn (length (list_ascii_of_string filename) - 20)
                (list_ascii_of_string filename))) with true; [reflexivity|].
  symmetry. apply existsb_exists. exists c. split; [|exact Hc].
  rewrite Hname. rewrite length_app. simpl length.
  rewrite skipn_app.
  apply in_or_app. right.
  replace (length front + 1 - 20 - length front)%nat with 0%nat by lia.
  left. reflexivity.
Qed.

(** X19. The files [save_raw_api_data] writes for a game get no
    timestamp: whatever the clock says, and for every game id, the raw
    boxscore goes to [boxscore_raw_<game_id>.json] and the raw game
    data to [game_raw_<game_id>.json], so extracting a game again
    writes over its files instead of adding new ones.  (A timestamp is
    added only to names with no digit among their last 20
    characters.) *)
Theorem X19_raw_file_names timestamp game_id :
  json_file_name timestamp (boxscore_raw_name game_id)
    = "boxscore_raw_" ++ str_of_int game_id ++ ".json" /\
  json_file_name timestamp (game_raw_name game_id)
    = "game_raw_" ++ str_of_int game_id ++ ".json".
Proof.
  destruct (str_of_int_ends_in_digit game_id) as (front & c & Hfront & Hc).
  split.
  - rewrite (json_file_name_of_digit timestamp (boxscore_raw_name game_id)
               (list_ascii_of_string "boxscore_raw_" ++ front) c).
    + reflexivity.
    + unfold boxscore_raw_name. rewrite list_ascii_of_string_app, Hfront.
      rewrite app_assoc. reflexivity.
    + exact Hc.
  - rewrite (json_file_name_of_digit timestamp (game_raw_name game_id)
               (list_ascii_of_string "game_raw_" ++ front) c).
    + reflexivity.
    + unfold game_raw_name. rewrite list_ascii_of_string_app, Hfront.
      rewrite app_assoc. reflexivity.
    + exact Hc.
Qed.

Lemma two_digits_two_digit n a b :
  0 <= n <= 99 ->
  two_digit n = String a (String b EmptyString) ->
  two_digits a b = Some n /\ isdigit a = true /\ isdigit b = true.
Proof.
  intros Hn H. unfold two_digit in H. inversion H; subst a b.
  assert (H1 : 0 <= n / 10 <= 9).
  { assert (n / 10 < 10) by (apply Z.div_lt_upper_bound; lia).
    assert (0 <= n / 10) by (apply Z.div_pos; lia). lia. }
  assert (H2 : 0 <= n mod 10 <= 9) by (pose proof (Z.mod_pos_bound n 10); lia).
  unfold two_digits. rewrite !digit_digit_char by assumption.
  rewrite !isdigit_digit_char by assumption.
  repeat split. f_equal. pose proof (Z.div_mod n 10). lia.
Qed.

Lemma prefix_dash_digit c rest :
  isdigit c = true -> String.prefix "-" (String c rest) = false.
Proof.
  intros Hc.
  change (String.prefix "-" (String c rest))
    with (if ascii_dec "-" c then String.prefix EmptyString rest else false).
  destruct (ascii_dec "-" c) as [<-|]; [discriminate | reflexivity].
Qed.

(** The eight digits of a day, as its file name carries them. *)
Lemma compact_date y m d :
  1000 <= y <= 9999 -> 1 <= m <= 12 -> 1 <= d <= 31 ->
  exists y1 y2 y3 y4 m1 m2 d1 d2,
    str_replace "-" EmptyString (strftime_ymd (y, m, d))
    = string_of_list_ascii [y1; y2; y3; y4; m1; m2; d1; d2] /\
    two_digits y1 y2 = Some (y / 100) /\
    two_digits y3 y4 = Some (y mod 100) /\
    two_digits m1 m2 = Some m /\
    two_digits d1 d2 = Some d /\
    forallb isdigit [y1; y2; y3; y4; m1; m2; d1; d2] = true.
Proof.
  intros Hy Hm Hd.
  assert (Hyh : 0 <= y / 100 <= 99).
  { assert (y / 100 < 100) by (apply Z.div_lt_upper_bound; lia).
    assert (0 <= y / 100) by (apply Z.div_pos; lia). lia. }
  assert (Hyl : 0 <= y mod 100 <= 99)
    by (pose proof (Z.mod_pos_bound y 100); lia).
  destruct (two_digits_two_digit (y / 100) _ _ Hyh eq_refl) as (Y12 & Iy1 & Iy2).
  destruct (two_digits_two_digit (y mod 100) _ _ Hyl eq_refl) as (Y34 & Iy3 & Iy4).
  assert (Hm' : 0 <= m <= 99) by lia.
  assert (Hd' : 0 <= d <= 99) by lia.
  destruct (two_digits_two_digit m _ _ Hm' eq_refl) as (M12 & Im1 & Im2).
  destruct (two_digits_two_digit d _ _ Hd' eq_refl) as (D12 & Id1 & Id2).
  do 8 eexists. split; [|repeat split; try eassumption].
  - unfold strftime_ymd, two_digit. cbn [append].
    unfold str_replace. cbn [String.length].
    repeat (cbn [replace_from];
            first [ rewrite prefix_dash_digit by assumption
                  | change (String.prefix "-" (String "-" ?r)) with true ];
            cbn [string_drop String.length append]).
    reflexivity.
  - cbn [forallb]. rewrite Iy1, Iy2, Iy3, Iy4, Im1, Im2, Id1, Id2. reflexivity.
Qed.

Lemma days_in_month_le_31 y m : days_in_month y m <= 31.
Proof.
  unfold days_in_month.
  destruct (m =? 2); [destruct (is_leap y); lia|].
  destruct ((m =? 4) || (m =? 6) || (m =? 9) || (m =? 11)); lia.
Qed.

(** The characters of the name [extract_season_data] passes for a
    game of a day, with the numbers its eight digits spell. *)
Lemma combined_data_name_chars game_id y m d :
  1000 <= y <= 9999 -> 1 <= m <= 12 -> 1 <= d <= 31 ->
  exists y1 y2 y3 y4 m1 m2 d1 d2,
    list_ascii_of_string (combined_data_name game_id (y, m, d))
    = (list_ascii_of_string ("combined_data_" ++ str_of_int game_id) ++
       ["_"%char; y1; y2; y3; y4; m1; m2; d1; d2])%list /\
    two_digits y1 y2 = Some (y / 100) /\
    two_digits y3 y4 = Some (y mod 100) /\
    two_digits m1 m2 = Some m /\
    two_digits d1 d2 = Some d /\
    forallb isdigit [y1; y2; y3; y4; m1; m2; d1; d2] = true.
Proof.
  intros Hy Hm Hd.
  destruct (compact_date y m d Hy Hm Hd)
    as (y1 & y2 & y3 & y4 & m1 & m2 & d1 & d2 &
        Hdigits & Y12 & Y34 & M12 & D12 & Hall).
  exists y1, y2, y3, y4, m1, m2, d1, d2.
  split; [|auto].
  unfold combined_data_name. rewrite Hdigits.
  change ("combined_data_" ++ str_of_int game_id ++ "_" ++
          string_of_list_ascii [y1; y2; y3; y4; m1; m2; d1; d2])
    with ("combined_data_" ++ (str_of_int game_id ++
          string_of_list_ascii ["_"%char; y1; y2; y3; y4; m1; m2; d1; d2])).
  change ("combined_data_" ++ str_of_int game_id)
    with (String "c" (String "o" (String "m" (String "b" (String "i"
         (String "n" (String "e" (String "d" (String "_" (String "d"
         (String "a" (String "t" (String "a" (String "_"
         (str_of_int game_id))))))))))))))).
  cbn [append list_ascii_of_string app].
  rewrite list_ascii_of_string_app, list_ascii_of_string_of_list_ascii.
  reflexivity.
Qed.

(** The date read from a name that ends in an underscore, the eight
    digits of a day and [.json]. *)
Lemma extract_date_of_chars name front y1 y2 y3 y4 m1 m2 d1 d2 y m d :
  list_ascii_of_string name
  = (front ++ ["_"%char; y1; y2; y3; y4; m1; m2; d1; d2] ++
     list_ascii_of_string ".json")%list ->
  two_digits y1 y2 = Some (y / 100) ->
  two_digits y3 y4 = Some (y mod 100) ->
  two_digits m1 m2 = Some m ->
  two_digits d1 d2 = Some d ->
  forallb isdigit [y1; y2; y3; y4; m1; m2; d1; d2] = true ->
  1 <= y -> 1 <= m <= 12 -> 1 <= d <= days_in_month y m ->
  extract_date_from_filename name = Some (y, m, d).
Proof.
  intros Hname Y12 Y34 M12 D12 Hall Hy Hm Hd.
  unfold extract_date_from_filename, date_match.
  rewrite Hname, rev_app_distr.
  cbn [list_ascii_of_string app rev firstn skipn Ascii.eqb Bool.eqb].
  cbv zeta. cbn [firstn skipn rev app length Nat.eqb].
  rewrite Hall.
  change (string_of_list_ascii ["."%char; "j"%char; "s"%char; "o"%char;
                                "n"%char] =? ".json")%string with true.
  cbn [andb].
  unfold strptime_compact.
  rewrite list_ascii_of_string_of_list_ascii, Y12, Y34, M12, D12.
  cbv zeta.
  replace (100 * (y / 100) + y mod 100) with y
    by (pose proof (Z.div_mod y 100); lia).
  replace ((1 <=? y) && (1 <=? m) && (m <=? 12) && (1 <=? d) &&
           (d <=? days_in_month y m)) with true; [reflexivity|].
  symmetry. rewrite !andb_true_iff, !Z.leb_le. lia.
Qed.

(** X20. The day of a game survives the file name.  For a day from
    the year 1000 on, the name [extract_season_data] passes to
    [save_to_json] for a game of that day gets no timestamp (the file
    is [combined_data_<game_id>_<YYYYMMDD>.json], whatever the clock
    says), and [extract_date_from_filename] reads that very day back
    from the name of the file. *)
Theorem X20_game_day_round_trip timestamp game_id y m d :
  1000 <= y <= 9999 -> 1 <= m <= 12 -> 1 <= d <= days_in_month y m ->
  json_file_name timestamp (combined_data_name game_id (y, m, d))
    = combined_data_name game_id (y, m, d) ++ ".json" /\
  extract_date_from_filename
    (json_file_name timestamp (combined_data_name game_id (y, m, d)))
    = Some (y, m, d).
Proof.
  intros Hy Hm Hd.
  pose proof (days_in_month_le_31 y m) as H31.
  assert (Hd31 : 1 <= d <= 31) by lia.
  destruct (combined_data_name_chars game_id y m d Hy Hm Hd31)
    as (y1 & y2 & y3 & y4 & m1 & m2 & d1 & d2 &
        Hname & Y12 & Y34 & M12 & D12 & Hall).
  assert (Hfile : json_file_name timestamp
                    (combined_data_name game_id (y, m, d))
                  = combined_data_name game_id (y, m, d) ++ ".json").
  { apply (json_file_name_of_digit timestamp _
             (list_ascii_of_string ("combined_data_" ++ str_of_int game_id)
              ++ ["_"%char; y1; y2; y3; y4; m1; m2; d1]) d2).
    - rewrite Hname, <- app_assoc. reflexivity.
    - cbn [forallb] in Hall.
      repeat (apply andb_prop in Hall; destruct Hall as [? Hall]).
      assumption. }
  split; [exact Hfile|]. rewrite Hfile.
  apply (extract_date_of_chars _
           (list_ascii_of_string ("combined_data_" ++ str_of_int game_id))
           y1 y2 y3 y4 m1 m2 d1 d2); try assumption; try lia.
  rewrite list_ascii_of_string_app, Hname, <- app_assoc. reflexivity.
Qed.

Lemma date_ltb_leb d1 d2 : date_ltb d1 d2 = negb (date_leb d2 d1).
Proof.
  destruct d1 as [[y1 m1] a1], d2 as [[y2 m2] a2]. simpl.
  destruct (Z.ltb_spec y1 y2), (Z.eqb_spec y1 y2), (Z.ltb_spec y2 y1),
    (Z.eqb_spec y2 y1); simpl; try reflexivity; try lia;
  destruct (Z.ltb_spec m1 m2), (Z.eqb_spec m1 m2), (Z.ltb_spec m2 m1),
    (Z.eqb_spec m2 m1); simpl; try reflexivity; try lia;
  destruct (Z.ltb_spec a1 a2), (Z.leb_spec a2 a1); simpl;
    try reflexivity; lia.
Qed.

Lemma existing_dates_has start_date end_date db day :
  in_date_range start_date end_date (Some day) = true ->
  existsb (date_eqb day) (existing_dates start_date end_date db)
  = existsb (fun g => match Game.game_date g with
                      | Some stored => date_eqb day stored
                      | None => false
                      end) (games db).
Proof.
  intros Hday. unfold existing_dates.
  induction (games db) as [|g rows IH]; simpl; [reflexivity|].
  rewrite existsb_app, IH. f_equal.
  destruct (Game.game_date g) as [stored|]; [|reflexivity].
  destruct (date_leb start_date stored && date_leb stored end_date) eqn:E;
    simpl; [apply orb_false_r|].
  destruct (date_eqb day stored) eqn:Eeq; [|reflexivity].
  exfalso.
  destruct day as [[y1 m1] a1], stored as [[y2 m2] a2].
  simpl in Eeq. apply andb_prop in Eeq. destruct Eeq as [Eeq Ea].
  apply andb_prop in Eeq. destruct Eeq as [Ey Em].
  apply Z.eqb_eq in Ey, Em, Ea. subst.
  unfold in_date_range in Hday. rewrite Hday in E. discriminate.
Qed.

(** X21. An incremental run of [load_dynamic_date_range_data] (neither
    [--clear] nor [--dry-run]) goes by the day, not by the game.  The
    combined file the extractor wrote for a game of some day is left
    out when the day is outside the range asked for, skipped as already
    loaded when any game of that day is stored, whichever game it is,
    and loaded otherwise. *)
Theorem X21_incremental_run_goes_by_the_day
    timestamp game_id y m d start_date end_date db :
  1000 <= y <= 9999 -> 1 <= m <= 12 -> 1 <= d <= days_in_month y m ->
  file_fate_of start_date end_date false false
    (existing_dates start_date end_date db)
    (json_file_name timestamp (combined_data_name game_id (y, m, d)))
  = if in_date_range start_date end_date (Some (y, m, d))
    then if existsb (fun g => match Game.game_date g with
                              | Some stored => date_eqb (y, m, d) stored
                              | None => false
                              end) (games db)
         then AlreadyLoaded
         else ToLoad
    else OutOfRange.
Proof.
  intros Hy Hm Hd.
  pose proof (days_in_month_le_31 y m) as H31.
  assert (Hd31 : 1 <= d <= 31) by lia.
  destruct (combined_data_name_chars game_id y m d Hy Hm Hd31)
    as (y1 & y2 & y3 & y4 & m1 & m2 & d1 & d2 &
        Hname & Y12 & Y34 & M12 & D12 & Hall).
  assert (Hd2 : isdigit d2 = true).
  { cbn [forallb] in Hall.
    repeat (apply andb_prop in Hall; destruct Hall as [? Hall]).
    assumption. }
  rewrite (json_file_name_of_digit timestamp _
             (list_ascii_of_string ("combined_data_" ++ str_of_int game_id)
              ++ ["_"%char; y1; y2; y3; y4; m1; m2; d1]) d2)
    by (try assumption; rewrite Hname, <- app_assoc; reflexivity).
  unfold file_fate_of.
  rewrite (extract_date_of_chars _
             (list_ascii_of_string ("combined_data_" ++ str_of_int game_id))
             y1 y2 y3 y4 m1 m2 d1 d2 y m d)
    by (try assumption; try lia;
        rewrite list_ascii_of_string_app, Hname, <- app_assoc; reflexivity).
  rewrite !date_ltb_leb, <- negb_andb.
  change (date_leb start_date (y, m, d) && date_leb (y, m, d) end_date)
    with (in_date_range start_date end_date (Some (y, m, d))).
  destruct (in_date_range start_date end_date (Some (y, m, d))) eqn:Ein;
    [|reflexivity].
  simpl negb. cbn [andb].
  rewrite existing_dates_has by exact Ein. reflexivity.
Qed.


End Loader.

(** * The claims on concrete inputs

    From here on the loader runs with the canonical date readers. *)

(** C1, counterexample. Load the sample payload with atBats = 4 into an
    empty store, then load twice the payload that differs from it only
    in atBats = 5.  All three loads report success, and the one
    BoxscoreLine row of (700001, 501) still has at_bats = 4: it is not
    the row computed from the payload that was loaded twice. *)
Lemma C1_stale_line_survives_reload :
  let load := load_json_to_database ymd_exact ymd_leading ymd_exact in
  let first := load sample_now sample_combined_path
                 (PDict (sample_combined 10 4)) sample_server in
  let second := load sample_later sample_combined_path
                  (PDict (sample_combined 10 5)) (snd first) in
  let third := load sample_later sample_combined_path
                 (PDict (sample_combined 10 5)) (snd second) in
  fst first = Ok true /\ fst second = Ok true /\ fst third = Ok true /\
  map (fun row => (Boxscore.game_id row, Boxscore.player_id row,
                   Boxscore.at_bats row))
      (boxscore (store (snd third)))
    = [(Some 700001, Some 501, Some 4)] /\
  map Boxscore.at_bats (combined_lines (sample_combined 10 5)) = [Some 5] /\
  (forall row, In row (boxscore (store (snd third))) ->
               ~ In row (combined_lines (sample_combined 10 5))).
Proof.
  intros load first second third.
  repeat (split; [vm_compute; reflexivity|]).
  intros row Hstored Hpayload. vm_compute in Hstored, Hpayload.
  destruct Hstored as [<-|[]]. destruct Hpayload as [H|[]]. discriminate.
Qed.

(** C1, witness: the sample payload loaded twice into an empty store. *)
Lemma C1_reload_of_a_fresh_game_witness :
  let load := load_json_to_database ymd_exact ymd_leading ymd_exact in
  let items := sample_combined 10 4 in
  let srv1 := snd (load sample_now sample_combined_path (PDict items)
                     sample_server) in
  let srv2 := snd (load sample_later sample_combined_path (PDict items)
                     srv1) in
  (contains sample_combined_path "combined_data" = true /\
   assoc "game_data" items = Some (sample_game_data 10 PNone) /\
   as_int (got (dict_get1 (PDict items) "game_id")) = Ok (Some 700001) /\
   games_with (Some 700001) (games (store sample_server)) = [] /\
   (forall row, In row (boxscore (store sample_server)) ->
                Boxscore.game_id row <> Some 700001) /\
   load sample_now sample_combined_path (PDict items) sample_server
     = (Ok true, srv1) /\
   load sample_later sample_combined_path (PDict items) srv1
     = (Ok true, srv2)) /\
  ((exists game_row,
      combined_game_line ymd_exact ymd_leading ymd_exact sample_later items
        (sample_game_data 10 PNone) = Ok game_row /\
      games_with (Some 700001) (games (store srv2)) = [game_row]) /\
   (forall pid,
      (length (lines_with (Some 700001%Z) pid (boxscore (store srv2)))
       <= 1)%nat) /\
   (forall row, In row (boxscore (store srv2)) ->
                Boxscore.game_id row = Some 700001 ->
                In row (combined_lines items)) /\
   (forall row, In row (combined_lines items) ->
                Boxscore.player_id row <> None ->
                lines_with (Some 700001) (Boxscore.player_id row)
                  (boxscore (store srv2)) <> [])).
Proof.
  intros load items srv1 srv2.
  assert (H1 : contains sample_combined_path "combined_data" = true)
    by (vm_compute; reflexivity).
  assert (H2 : assoc "game_data" items = Some (sample_game_data 10 PNone))
    by (vm_compute; reflexivity).
  assert (H3 : as_int (got (dict_get1 (PDict items) "game_id"))
               = Ok (Some 700001)) by (vm_compute; reflexivity).
  assert (H4 : games_with (Some 700001) (games (store sample_server)) = [])
    by (vm_compute; reflexivity).
  assert (H5 : forall row, In row (boxscore (store sample_server)) ->
                           Boxscore.game_id row <> Some 700001)
    by (simpl; contradiction).
  assert (H6 : load sample_now sample_combined_path (PDict items)
                 sample_server = (Ok true, srv1))
    by (vm_compute; reflexivity).
  assert (H7 : load sample_later sample_combined_path (PDict items) srv1
               = (Ok true, srv2)) by (vm_compute; reflexivity).
  split; [repeat split; assumption|].
  exact (C1_reload_of_a_fresh_game ymd_exact ymd_leading ymd_exact
           sample_now sample_later sample_combined_path items
           (sample_game_data 10 PNone) (Some 700001) sample_server srv1 srv2
           H1 H2 H3 H4 H5 H6 H7).
Defined.

(** C2, counterexample. The store holds the line of (700001, 501) with
    at_bats = 4; a call of the upserter for the same key with atBats = 5
    returns and leaves the database as it was: no update is made, and
    the stored at_bats is still 4. *)
Lemma C2_existing_line_not_overwritten :
  let db := store (snd (load_json_to_database ymd_exact ymd_leading ymd_exact
                          sample_now sample_combined_path
                          (PDict (sample_combined 10 4)) sample_server)) in
  let call := _insert_boxscore_stats (PInt 700001) (PInt 501) (PInt 10)
                (sample_batting 5) db in
  map Boxscore.at_bats (boxscore db) = [Some 4] /\
  call = (Ok tt, db) /\
  map Boxscore.at_bats (boxscore (snd call)) = [Some 4] /\
  dict_get (sample_batting 5) "atBats" (PInt 0) = Ok (PInt 5).
Proof.
  intros db call. repeat split; vm_compute; reflexivity.
Qed.

(** C2, witness: the first line of (700001, 501), stored in a database
    that has the game and the player but no line yet. *)
Lemma C2_insert_if_absent_else_untouched_witness :
  let db := store (snd (load_json_to_database ymd_exact ymd_leading ymd_exact
                          sample_now sample_combined_path
                          (PDict (sample_combined_with 10 PNone (PDict [])))
                          sample_server)) in
  let batting := [("atBats", PInt 4); ("hits", PInt 2)] in
  let db' := snd (_insert_boxscore_stats (PInt 700001) (PInt 501) (PInt 10)
                    (PDict batting) db) in
  _insert_boxscore_stats (PInt 700001) (PInt 501) (PInt 10) (PDict batting) db
    = (Ok tt, db') /\
  exists row,
    boxscore_line (PInt 700001) (PInt 501) (PInt 10) (PDict batting)
      = Ok row /\
    (boxscore_exists db (Boxscore.game_id row) (Boxscore.player_id row)
       = true -> db' = db) /\
    (boxscore_exists db (Boxscore.game_id row) (Boxscore.player_id row)
       = false -> db' = set_boxscore db (boxscore db ++ [row])) /\
    (forall ext col v z, In (ext, col) batting_columns ->
       assoc ext batting = Some v -> as_int v = Ok z ->
       boxscore_column row col = Some z) /\
    (forall ext col, In (ext, col) batting_columns ->
       assoc ext batting = None ->
       boxscore_column row col = Some (Some 0)).
Proof.
  intros db batting db'.
  assert (H : _insert_boxscore_stats (PInt 700001) (PInt 501) (PInt 10)
                (PDict batting) db = (Ok tt, db'))
    by (vm_compute; reflexivity).
  split; [exact H|].
  exact (C2_insert_if_absent_else_untouched (PInt 700001) (PInt 501)
           (PInt 10) batting db db' H).
Defined.

(** C3, at the failing input. The game 700001 is stored with home team
    10; a combined payload for the same game with home team 30 is then
    loaded and reports success; team 30 is now in [teams], and the
    stored game still has home_team_id = 10.  The same holds of the
    writes [load_schedule_data] makes for the game (the definition in
    effect, which uses [_insert_game_from_schedule]): they return, with
    team 30 inserted and the game left at 10.  The sibling
    [_insert_scheduled_game], whose statement names the team columns in
    its SET list, writes 30 on its connection when it is given the
    game. *)
Lemma C3_update_keeps_old_home_team :
  let load := load_json_to_database ymd_exact ymd_leading ymd_exact in
  let first := load sample_now sample_combined_path
                 (PDict (sample_combined 10 4))
                 sample_server_no_autocommit in
  let second := load sample_later sample_combined_path
                  (PDict (sample_combined 30 4)) (snd first) in
  let scheduled := schedule_game_writes ymd_exact ymd_exact
                     (sample_scheduled_game 30) (PStr "2024-04-10")
                     (store (snd first)) in
  let sibling := _insert_scheduled_game ymd_exact ymd_leading ymd_exact
                   (sample_scheduled_game 30) (PStr "2024-04-10")
                   (connect (snd first)) in
  fst first = Ok true /\
  map Game.home_team_id (games (store (snd first))) = [Some 10] /\
  fst second = Ok true /\
  map Team.team_id (teams (store (snd second))) = [Some 10; Some 20; Some 30] /\
  map Game.home_team_id (games (store (snd second))) = [Some 10] /\
  fst scheduled = Ok tt /\
  map Team.team_id (teams (snd scheduled)) = [Some 10; Some 20; Some 30] /\
  map Game.home_team_id (games (snd scheduled)) = [Some 10] /\
  fst sibling = Ok true /\
  map Game.home_team_id (games (session (snd sibling))) = [Some 30].
Proof.
  intros load first second scheduled sibling.
  repeat split; vm_compute; reflexivity.
Qed.

(** C4, at the failing input. On the engine [connect()] builds, a
    boxscore-only file for game 700001 is loaded into a store that has
    the game and no line of it.  Every write for the file returns (the
    raw payload, and the line of player 501 with at_bats = 4) and the
    load answers True, yet the server is afterwards exactly as it was:
    the statements ran outside any transaction and were dropped with
    the connection, so none of the writes is committed.  A game-only
    file does the same on an empty store.  In general a file that is
    not a combined one leaves the store as it found it, whatever its
    load answers. *)
Lemma C4_non_combined_load_commits_nothing :
  let load := load_json_to_database ymd_exact ymd_leading ymd_exact in
  let srv := snd (load sample_now sample_combined_path
                    (PDict (sample_combined_with 10 PNone (PDict [])))
                    sample_server_no_autocommit) in
  let boxscore_writes := boxscore_file_writes sample_later
                           sample_boxscore_raw_with_gamePk (store srv) in
  let game_writes := game_file_writes ymd_exact ymd_leading ymd_exact
                       sample_now sample_game_raw_with_gamePk
                       empty_database in
  (map Game.game_id (games (store srv)) = [Some 700001] /\
   boxscore (store srv) = [] /\
   fst boxscore_writes = Ok tt /\
   map Boxscore.at_bats (boxscore (snd boxscore_writes)) = [Some 4] /\
   map RawJson.data_type (raw_json_data (snd boxscore_writes))
     = [Some "combined"; Some "boxscore"]%string /\
   load sample_later sample_boxscore_path sample_boxscore_raw_with_gamePk
     srv = (Ok true, srv)) /\
  (fst game_writes = Ok tt /\
   map Game.game_id (games (snd game_writes)) = [Some 700001] /\
   map Team.team_id (teams (snd game_writes)) = [Some 10; Some 20] /\
   load sample_now sample_game_path sample_game_raw_with_gamePk
     sample_server_no_autocommit = (Ok true, sample_server_no_autocommit)) /\
  (forall now path data srv0,
     autocommit_mode srv0 = false ->
     contains path "combined_data" = false ->
     snd (load now path data srv0) = srv0).
Proof.
  intros load srv boxscore_writes game_writes.
  split; [repeat split; vm_compute; reflexivity|].
  split; [repeat split; vm_compute; reflexivity|].
  intros now path data srv0 Hmode Hpath.
  apply non_combined_load_commits_nothing; assumption.
Qed.

(** C5, counterexample. A combined payload without game_data is loaded
    into an empty store: the boxscore line fails on its foreign key to
    [games].  The loader does not raise: it returns False (with the
    store rolled back to what it was). *)
Lemma C5_failure_is_not_raised :
  let outcome := load_json_to_database ymd_exact ymd_leading ymd_exact
                   sample_now sample_combined_path
                   (PDict sample_combined_without_game) sample_server in
  fst (combined_file_writes ymd_exact ymd_leading ymd_exact sample_now
         (PDict sample_combined_without_game) empty_database)
    = Raise IntegrityError /\
  outcome = (Ok false, sample_server) /\
  (forall e, fst outcome <> Raise e).
Proof.
  intros outcome. split; [vm_compute; reflexivity|].
  split; [vm_compute; reflexivity|].
  intros e H. vm_compute in H. discriminate.
Qed.

(** C5, witness: the same load. *)
Lemma C5_failed_write_returns_false_witness :
  let data := PDict sample_combined_without_game in
  let failure := file_writes ymd_exact ymd_leading ymd_exact sample_now
                   sample_combined_path data (store sample_server) in
  (truthy data = true /\
   reachable sample_server = true /\
   failure = (Raise IntegrityError, snd failure)) /\
  (fst (load_json_to_database ymd_exact ymd_leading ymd_exact sample_now
          sample_combined_path data sample_server) = Ok false /\
   (contains sample_combined_path "combined_data" = true ->
    snd (load_json_to_database ymd_exact ymd_leading ymd_exact sample_now
           sample_combined_path data sample_server) = sample_server)).
Proof.
  intros data failure.
  assert (H1 : truthy data = true) by reflexivity.
  assert (H2 : reachable sample_server = true) by reflexivity.
  assert (H3 : failure = (Raise IntegrityError, snd failure))
    by (vm_compute; reflexivity).
  split; [repeat split; assumption|].
  exact (C5_failed_write_returns_false ymd_exact ymd_leading ymd_exact
           sample_now sample_combined_path data sample_server
           IntegrityError (snd failure) H1 H2 H3).
Defined.

(** C6, at the failing input. A raw boxscore document with no game
    identifier inside is loaded from a file named
    boxscore_raw_776762.json, on a server in autocommit mode.  The load
    reports success, and both the raw row and the boxscore line are
    stored with a NULL game_id: the 776762 of the file name is not
    used.  On the engine [connect()] builds the load reports success as
    well, and the rows it writes on its connection, which are dropped
    when it is closed, have the same NULL game_id. *)
Lemma C6_file_name_not_consulted :
  let path := "data/json/2025/08-August/boxscore_raw_776762.json" in
  let outcome := load_json_to_database ymd_exact ymd_leading ymd_exact
                   sample_now path sample_boxscore_raw sample_server in
  let as_built := load_json_to_database ymd_exact ymd_leading ymd_exact
                    sample_now path sample_boxscore_raw
                    sample_server_no_autocommit in
  let written := session (snd (_load_boxscore_data sample_now
                                 sample_boxscore_raw
                                 (connect sample_server_no_autocommit))) in
  contains path "boxscore_raw_776762.json" = true /\
  _extract_game_id_from_data sample_boxscore_raw = PNone /\
  fst outcome = Ok true /\
  map RawJson.game_id (raw_json_data (store (snd outcome))) = [None] /\
  map Boxscore.game_id (boxscore (store (snd outcome))) = [None] /\
  fst as_built = Ok true /\
  map RawJson.game_id (raw_json_data written) = [None] /\
  map Boxscore.game_id (boxscore written) = [None].
Proof.
  intros path outcome as_built written.
  repeat split; vm_compute; reflexivity.
Qed.


(** The walks column is read from the payload key walks; baseOnBalls
    is not read. *)
Lemma walks_is_read_from_the_key_walks :
  (r <~ boxscore_line (PInt 700001) (PInt 501) (PInt 10)
          (PDict [("baseOnBalls", PInt 3)]) ;;
   Ok (Boxscore.walks r)) = Ok (Some 0) /\
  (r <~ boxscore_line (PInt 700001) (PInt 501) (PInt 10)
          (PDict [("walks", PInt 3)]) ;;
   Ok (Boxscore.walks r)) = Ok (Some 3).
Proof. split; reflexivity. Qed.


(** C8, witness: the sample payload, with game_type "R" at the top
    level and gameType "S" inside game_data; the stored game_type is
    "R". *)
Lemma C8_top_level_metadata_wins_witness :
  let items := sample_combined 10 4 in
  let srv' := snd (load_json_to_database ymd_exact ymd_leading ymd_exact
                     sample_now sample_combined_path (PDict items)
                     sample_server) in
  (contains sample_combined_path "combined_data" = true /\
   load_json_to_database ymd_exact ymd_leading ymd_exact sample_now
     sample_combined_path (PDict items) sample_server = (Ok true, srv') /\
   assoc "game_data" items = Some (sample_game_data 10 PNone)) /\
  ((exists row,
      In row (games (store srv')) /\
      as_int (got (dict_get1 (PDict items) "game_id"))
        = Ok (Game.game_id row)) /\
   (forall row,
      In row (games (store srv')) ->
      as_int (got (dict_get1 (PDict items) "game_id"))
        = Ok (Game.game_id row) ->
      (forall v, assoc "game_type" items = Some v -> truthy v = true ->
                 as_str v = Ok (Game.game_type row)) /\
      (forall v, assoc "series_description" items = Some v ->
                 truthy v = true ->
                 as_str v = Ok (Game.series_description row)) /\
      (forall v, assoc "official_date" items = Some v -> truthy v = true ->
                 as_date ymd_exact v = Ok (Game.official_date row)))).
Proof.
  intros items srv'.
  assert (H1 : contains sample_combined_path "combined_data" = true)
    by (vm_compute; reflexivity).
  assert (H2 : load_json_to_database ymd_exact ymd_leading ymd_exact
                 sample_now sample_combined_path (PDict items) sample_server
               = (Ok true, srv')) by (vm_compute; reflexivity).
  assert (H3 : assoc "game_data" items = Some (sample_game_data 10 PNone))
    by (vm_compute; reflexivity).
  split; [repeat split; assumption|].
  exact (C8_top_level_metadata_wins ymd_exact ymd_leading ymd_exact
           sample_now sample_combined_path items (sample_game_data 10 PNone)
           sample_server srv' H1 H2 H3).
Defined.

(** The stored metadata of that load, spelled out. *)
Lemma top_level_R_beats_embedded_S :
  let srv' := snd (load_json_to_database ymd_exact ymd_leading ymd_exact
                     sample_now sample_combined_path
                     (PDict (sample_combined 10 4)) sample_server) in
  dict_get1 (sample_game_data 10 PNone) "gameType" = Ok (PStr "S") /\
  map Game.game_type (games (store srv')) = [Some "R"%string].
Proof. intros srv'. split; vm_compute; reflexivity. Qed.

(** C9, counterexample. A game whose payload has currentInning = 0, a
    value that is not null, is stored with status "Final". *)
Lemma C9_inning_zero_is_final :
  let items := sample_combined_with 10 (PInt 0) (sample_batting 4) in
  let outcome := load_json_to_database ymd_exact ymd_leading ymd_exact
                   sample_now sample_combined_path (PDict items)
                   sample_server in
  dict_get1 (sample_game_data 10 (PInt 0)) "currentInning" = Ok (PInt 0) /\
  PInt 0 <> PNone /\
  fst outcome = Ok true /\
  map Game.inning (games (store (snd outcome))) = [Some 0] /\
  map Game.game_status (games (store (snd outcome))) = [Some "Final"%string].
Proof.
  intros items outcome.
  split; [reflexivity|]. split; [discriminate|].
  repeat split; vm_compute; reflexivity.
Qed.

(** C9, witness: the stored game 700001 updated from a payload in its
    third inning. *)
Lemma C9_status_from_truthy_inning_witness :
  let db := store (snd (load_json_to_database ymd_exact ymd_leading ymd_exact
                          sample_now sample_combined_path
                          (PDict (sample_combined 10 4)) sample_server)) in
  let game_data := sample_game_data 10 (PInt 3) in
  let home_team := PDict [("id", PInt 10)] in
  let away_team := PDict [("id", PInt 20)] in
  let db' := snd (_insert_game ymd_exact ymd_leading ymd_exact sample_later
                    (PInt 700001) game_data home_team away_team
                    (PStr "2024-04-10") PNone db) in
  _insert_game ymd_exact ymd_leading ymd_exact sample_later (PInt 700001)
    game_data home_team away_team (PStr "2024-04-10") PNone db
    = (Ok tt, db') /\
  ((exists row, In row (games db') /\
                as_int (PInt 700001) = Ok (Game.game_id row)) /\
   (forall row, In row (games db') ->
      as_int (PInt 700001) = Ok (Game.game_id row) ->
      Game.game_status row
      = Some (if truthy (got (dict_get1 game_data "currentInning"))
              then "Live" else "Final")%string)).
Proof.
  intros db game_data home_team away_team db'.
  assert (H : _insert_game ymd_exact ymd_leading ymd_exact sample_later
                (PInt 700001) game_data home_team away_team
                (PStr "2024-04-10") PNone db = (Ok tt, db'))
    by (vm_compute; reflexivity).
  split; [exact H|].
  exact (C9_status_from_truthy_inning ymd_exact ymd_leading ymd_exact
           sample_later (PInt 700001) game_data home_team away_team
           (PStr "2024-04-10") PNone db db' H).
Defined.

(** C10, witness: a schedule whose only game has no gamePk, so that its
    insert fails on the primary key. *)
Lemma C10_load_schedule_data_returns_true_witness :
  let schedule_data := sample_schedule PNone 10 in
  (reachable sample_server = true /\
   schedule_shape schedule_data = true) /\
  (load_schedule_data ymd_exact ymd_leading ymd_exact schedule_data
     sample_server
   = load_schedule_data_494 ymd_exact ymd_exact schedule_data sample_server /\
   fst (load_schedule_data ymd_exact ymd_leading ymd_exact schedule_data
          sample_server) = Ok true).
Proof.
  intros schedule_data.
  assert (H1 : reachable sample_server = true) by reflexivity.
  assert (H2 : schedule_shape schedule_data = true)
    by (vm_compute; reflexivity).
  split; [split; assumption|].
  exact (C10_load_schedule_data_returns_true ymd_exact ymd_leading ymd_exact
           schedule_data sample_server H1 H2).
Defined.

(** On that schedule every insert fails and no game is stored; the
    call still returns True, where the definition at line 330 returns
    False. *)
Lemma every_insert_fails_and_the_answer_is_true :
  let game := PDict [("gamePk", PNone);
                     ("teams", PDict [("home", PDict [("team",
                                         PDict [("id", PInt 10)])])])] in
  fst (schedule_game_writes ymd_exact ymd_exact game (PStr "2024-04-10")
         empty_database) = Raise IntegrityError /\
  load_schedule_data ymd_exact ymd_leading ymd_exact
    (sample_schedule PNone 10) sample_server
  = (Ok true,
     {| reachable := true; autocommit_mode := true;
        store := set_teams empty_database
                   [{| Team.team_id := Some 10; Team.team_name := None;
                       Team.abbreviation := None; Team.league := None;
                       Team.division := None |};
                    {| Team.team_id := Some 20; Team.team_name := None;
                       Team.abbreviation := None; Team.league := None;
                       Team.division := None |}] |}) /\
  fst (load_schedule_data_330 ymd_exact ymd_leading ymd_exact
         (sample_schedule PNone 10) sample_server) = Ok false.
Proof. intros game. repeat split; vm_compute; reflexivity. Qed.

(** The end-to-end scenario of the specification: teams 10 and 20, game
    700001 with scores 3 and 1, status "Final" and game_type "R", and
    one line for player 501 with at_bats 4, hits 2, home_runs 1 and 0
    elsewhere. *)
Lemma end_to_end_scenario :
  let outcome := load_json_to_database ymd_exact ymd_leading ymd_exact
                   sample_now sample_combined_path scenario_combined
                   sample_server in
  fst outcome = Ok true /\
  map Team.team_id (teams (store (snd outcome))) = [Some 10; Some 20] /\
  games (store (snd outcome))
  = [{| Game.game_id := Some 700001;
        Game.game_date := Some (2024, 4, 10);
        Game.home_team_id := Some 10;
        Game.away_team_id := Some 20;
        Game.home_score := Some 3;
        Game.away_score := Some 1;
        Game.inning := None;
        Game.inning_state := None;
        Game.game_status := Some "Final"%string;
        Game.game_type := Some "R"%string;
        Game.series_description := None;
        Game.official_date := None |}] /\
  boxscore (store (snd outcome))
  = [{| Boxscore.game_id := Some 700001;
        Boxscore.player_id := Some 501;
        Boxscore.team_id := Some 10;
        Boxscore.at_bats := Some 4;
        Boxscore.runs := Some 0;
        Boxscore.hits := Some 2;
        Boxscore.doubles := Some 0;
        Boxscore.triples := Some 0;
        Boxscore.home_runs := Some 1;
        Boxscore.rbi := Some 0;
        Boxscore.walks := Some 0;
        Boxscore.strikeouts := Some 0 |}].
Proof. intros outcome. repeat split; vm_compute; reflexivity. Qed.

(** ** The further properties at concrete inputs *)

(** X1, witness: team 10 stored as "A", then offered again as
    "Athletics". *)
Lemma X1_insert_team_first_payload_wins_witness :
  let t1 := PDict [("id", PInt 10); ("name", PStr "A")] in
  let t2 := PDict [("id", PInt 10); ("name", PStr "Athletics")] in
  let db1 := snd (_insert_team t1 empty_database) in
  let again := _insert_team t2 db1 in
  (_insert_team t1 empty_database = (Ok tt, db1) /\
   as_int (got (dict_get1 t2 "id")) = as_int (got (dict_get1 t1 "id")) /\
   _insert_team t2 db1 = (fst again, snd again)) /\
  snd again = db1.
Proof.
  intros t1 t2 db1 again.
  assert (H1 : _insert_team t1 empty_database = (Ok tt, db1))
    by (vm_compute; reflexivity).
  assert (H2 : as_int (got (dict_get1 t2 "id"))
               = as_int (got (dict_get1 t1 "id")))
    by (vm_compute; reflexivity).
  assert (H3 : _insert_team t2 db1 = (fst again, snd again))
    by (vm_compute; reflexivity).
  split; [repeat split; assumption|].
  exact (X1_insert_team_first_payload_wins t1 t2 empty_database db1
           (fst again) (snd again) H1 H2 H3).
Defined.

(** X2, witness: player 501 stored with team 10, then offered again
    with team 20, both teams being stored. *)
Lemma X2_insert_player_first_payload_wins_witness :
  let db := snd (_insert_team (PDict [("id", PInt 20)])
                   (snd (_insert_team (PDict [("id", PInt 10)])
                           empty_database))) in
  let p1 := PDict [("id", PInt 501); ("fullName", PStr "X")] in
  let p2 := PDict [("id", PInt 501); ("fullName", PStr "X Y")] in
  let db1 := snd (_insert_player p1 (PInt 10) db) in
  let again := _insert_player p2 (PInt 20) db1 in
  (_insert_player p1 (PInt 10) db = (Ok tt, db1) /\
   as_int (got (dict_get1 p2 "id")) = as_int (got (dict_get1 p1 "id")) /\
   _insert_player p2 (PInt 20) db1 = (fst again, snd again)) /\
  snd again = db1.
Proof.
  intros db p1 p2 db1 again.
  assert (H1 : _insert_player p1 (PInt 10) db = (Ok tt, db1))
    by (vm_compute; reflexivity).
  assert (H2 : as_int (got (dict_get1 p2 "id"))
               = as_int (got (dict_get1 p1 "id")))
    by (vm_compute; reflexivity).
  assert (H3 : _insert_player p2 (PInt 20) db1 = (fst again, snd again))
    by (vm_compute; reflexivity).
  split; [repeat split; assumption|].
  exact (X2_insert_player_first_payload_wins p1 (PInt 10) p2 (PInt 20) db db1
           (fst again) (snd again) H1 H2 H3).
Defined.

(** X3, witness: the line of player 501 without a game_id, written a
    second time into the store that already holds it. *)
Lemma X3_line_without_key_is_appended_again_witness :
  let db0 := store (snd (load_json_to_database ymd_exact ymd_leading ymd_exact
                           sample_now sample_combined_path
                           (PDict (sample_combined_with 10 PNone (PDict [])))
                           sample_server)) in
  let db := snd (_insert_boxscore_stats PNone (PInt 501) (PInt 10)
                   (sample_batting 4) db0) in
  let db' := snd (_insert_boxscore_stats PNone (PInt 501) (PInt 10)
                    (sample_batting 4) db) in
  ((PNone = PNone \/ PInt 501 = PNone) /\
   _insert_boxscore_stats PNone (PInt 501) (PInt 10) (sample_batting 4) db
     = (Ok tt, db')) /\
  exists row,
    boxscore_line PNone (PInt 501) (PInt 10) (sample_batting 4) = Ok row /\
    boxscore db' = (boxscore db ++ [row])%list.
Proof.
  intros db0 db db'.
  assert (H1 : PNone = PNone \/ PInt 501 = PNone) by (left; reflexivity).
  assert (H2 : _insert_boxscore_stats PNone (PInt 501) (PInt 10)
                 (sample_batting 4) db = (Ok tt, db'))
    by (vm_compute; reflexivity).
  split; [split; assumption|].
  exact (X3_line_without_key_is_appended_again PNone (PInt 501) (PInt 10)
           (sample_batting 4) db db' H1 H2).
Defined.

(** X4, witness: the sample payload loaded into an empty store. *)
Lemma X4_combined_load_appends_one_backup_row_witness :
  let load := load_json_to_database ymd_exact ymd_leading ymd_exact in
  let data := PDict (sample_combined 10 4) in
  let srv' := snd (load sample_now sample_combined_path data sample_server) in
  (contains sample_combined_path "combined_data" = true /\
   load sample_now sample_combined_path data sample_server = (Ok true, srv')) /\
  exists game_id,
    as_int (got (dict_get1 data "game_id")) = Ok game_id /\
    raw_json_data (store srv')
    = (raw_json_data (store sample_server) ++
       [{| RawJson.game_id := game_id;
           RawJson.data_type := Some "combined";
           RawJson.json_data := data;
           RawJson.extraction_timestamp := sample_now |}])%list.
Proof.
  intros load data srv'.
  assert (H1 : contains sample_combined_path "combined_data" = true)
    by (vm_compute; reflexivity).
  assert (H2 : load sample_now sample_combined_path data sample_server
               = (Ok true, srv')) by (vm_compute; reflexivity).
  split; [split; assumption|].
  exact (X4_combined_load_appends_one_backup_row ymd_exact ymd_leading
           ymd_exact sample_now sample_combined_path data sample_server srv'
           H1 H2).
Defined.

(** X7, witness: a file that holds an empty object. *)
Lemma X7_load_declined_witness :
  (truthy (PDict []) = false \/
   reachable sample_server = false \/
   (contains sample_combined_path "combined_data" = false /\
    contains sample_combined_path "boxscore_raw" = false /\
    contains sample_combined_path "game_raw" = false)) /\
  load_json_to_database ymd_exact ymd_leading ymd_exact sample_now
    sample_combined_path (PDict []) sample_server
  = (Ok false, sample_server).
Proof.
  assert (H : truthy (PDict []) = false \/
              reachable sample_server = false \/
              (contains sample_combined_path "combined_data" = false /\
               contains sample_combined_path "boxscore_raw" = false /\
               contains sample_combined_path "game_raw" = false))
    by (left; reflexivity).
  split; [exact H|].
  exact (X7_load_declined ymd_exact ymd_leading ymd_exact sample_now
           sample_combined_path (PDict []) sample_server H).
Defined.

(** X8, witness: a game stored without a game date, from game data
    whose gameDate is a timestamp of 10 April. *)
Lemma X8_missing_game_date_falls_back_witness :
  let game_data := PDict [("gameDate", PStr "2024-04-10T18:05:00Z")] in
  let db' := snd (_insert_game ymd_exact ymd_leading ymd_exact sample_later
                    (PInt 700001) game_data (PDict []) (PDict []) PNone
                    PNone empty_database) in
  (truthy PNone = false /\
   _insert_game ymd_exact ymd_leading ymd_exact sample_later (PInt 700001)
     game_data (PDict []) (PDict []) PNone PNone empty_database
   = (Ok tt, db')) /\
  (forall row, In row (games db') ->
     as_int (PInt 700001) = Ok (Game.game_id row) ->
     Game.game_date row
     = Some (match got (dict_get1 game_data "gameDate") with
             | PStr s =>
                 if (s =? EmptyString)%string then datetime_date sample_later
                 else match ymd_leading s with
                      | Some d => d
                      | None => datetime_date sample_later
                      end
             | _ => datetime_date sample_later
             end)).
Proof.
  intros game_data db'.
  assert (H1 : truthy PNone = false) by reflexivity.
  assert (H2 : _insert_game ymd_exact ymd_leading ymd_exact sample_later
                 (PInt 700001) game_data (PDict []) (PDict []) PNone PNone
                 empty_database = (Ok tt, db'))
    by (vm_compute; reflexivity).
  split; [split; assumption|].
  exact (X8_missing_game_date_falls_back ymd_exact ymd_leading ymd_exact
           sample_later (PInt 700001) game_data (PDict []) (PDict []) PNone
           PNone empty_database db' H1 H2).
Defined.

(** X9, witness: the sample payload with its game_date written
    day first. *)
Lemma X9_combined_load_rejects_unreadable_game_date_witness :
  let items := [("game_id", PInt 700001);
                ("game_date", PStr "10/04/2024");
                ("boxscore", PDict (sample_boxscore 10 (sample_batting 4)));
                ("game_data", sample_game_data 10 PNone)] in
  (contains sample_combined_path "combined_data" = true /\
   assoc "game_date" items = Some (PStr "10/04/2024") /\
   "10/04/2024" <> EmptyString /\
   ymd_exact "10/04/2024" = None /\
   assoc "game_data" items = Some (sample_game_data 10 PNone)) /\
  load_json_to_database ymd_exact ymd_leading ymd_exact sample_now
    sample_combined_path (PDict items) sample_server
  = (Ok false, sample_server).
Proof.
  intros items.
  assert (H1 : contains sample_combined_path "combined_data" = true)
    by (vm_compute; reflexivity).
  assert (H2 : assoc "game_date" items = Some (PStr "10/04/2024"))
    by (vm_compute; reflexivity).
  assert (H3 : "10/04/2024" <> EmptyString) by discriminate.
  assert (H4 : ymd_exact "10/04/2024" = None) by (vm_compute; reflexivity).
  assert (H5 : assoc "game_data" items = Some (sample_game_data 10 PNone))
    by (vm_compute; reflexivity).
  split; [repeat split; assumption|].
  exact (X9_combined_load_rejects_unreadable_game_date ymd_exact ymd_leading
           ymd_exact sample_now sample_combined_path items "10/04/2024"
           (sample_game_data 10 PNone) sample_server H1 H2 H3 H4 H5).
Defined.

(** X10, witness: a linescore document, whose [teams] entry holds the
    runs of each side and no [team] object. *)
Lemma X10_game_data_without_team_objects_witness :
  let game_data :=
    PDict [("currentInning", PInt 9);
           ("teams", PDict [("home", PDict [("runs", PInt 3)]);
                            ("away", PDict [("runs", PInt 1)])])] in
  let db' := snd (_process_game_data ymd_exact ymd_leading ymd_exact
                    sample_now (PInt 700001) game_data PNone PNone
                    empty_database) in
  (payload_side_team game_data "home" = Ok (PDict []) /\
   payload_side_team game_data "away" = Ok (PDict []) /\
   _process_game_data ymd_exact ymd_leading ymd_exact sample_now
     (PInt 700001) game_data PNone PNone empty_database = (Ok tt, db')) /\
  (teams db' = teams empty_database /\
   (as_int (PInt 700001) = Ok (Some 700001) ->
    games_with (Some 700001) (games empty_database) = [] ->
    exists new,
      games_with (Some 700001) (games db') = [new] /\
      Game.home_team_id new = None /\
      Game.away_team_id new = None)).
Proof.
  intros game_data db'.
  assert (H1 : payload_side_team game_data "home" = Ok (PDict []))
    by (vm_compute; reflexivity).
  assert (H2 : payload_side_team game_data "away" = Ok (PDict []))
    by (vm_compute; reflexivity).
  assert (H3 : _process_game_data ymd_exact ymd_leading ymd_exact sample_now
                 (PInt 700001) game_data PNone PNone empty_database
               = (Ok tt, db')) by (vm_compute; reflexivity).
  split; [repeat split; assumption|].
  exact (X10_game_data_without_team_objects ymd_exact ymd_leading ymd_exact
           sample_now (PInt 700001) game_data PNone PNone (Some 700001)
           empty_database db' H1 H2 H3).
Defined.

(** X11, witness: the sample schedule of one game, whose writes
    succeed, loaded on the engine as [connect()] builds it. *)
Lemma X11_schedule_load_commits_nothing_witness :
  let schedule_data := sample_schedule (PInt 700001) 10 in
  let load := load_schedule_data ymd_exact ymd_leading ymd_exact in
  autocommit_mode sample_server_no_autocommit = false /\
  (snd (load schedule_data sample_server_no_autocommit)
   = sample_server_no_autocommit /\
   (reachable sample_server_no_autocommit = true ->
    schedule_shape schedule_data = true ->
    load schedule_data sample_server_no_autocommit
    = (Ok true, sample_server_no_autocommit))).
Proof.
  intros schedule_data load.
  assert (H : autocommit_mode sample_server_no_autocommit = false)
    by reflexivity.
  split; [exact H|].
  exact (X11_schedule_load_commits_nothing ymd_exact ymd_leading ymd_exact
           schedule_data sample_server_no_autocommit H).
Defined.

(** X12, witness: game 700001 is stored with home team 10; the schedule
    then gives it, with its [gameDate], home team 30. *)
Lemma X12_scheduled_game_rows_take_the_team_ids_witness :
  let srv := snd (load_json_to_database ymd_exact ymd_leading ymd_exact
                    sample_now sample_combined_path
                    (PDict (sample_combined 10 4))
                    sample_server_no_autocommit) in
  let game_data := sample_scheduled_game 30 in
  let c' := snd (_insert_scheduled_game ymd_exact ymd_leading ymd_exact
                   game_data (PStr "2024-04-10") (connect srv)) in
  (map Game.home_team_id (games (store srv)) = [Some 10] /\
   _insert_scheduled_game ymd_exact ymd_leading ymd_exact game_data
     (PStr "2024-04-10") (connect srv) = (Ok true, c')) /\
  (forall row, In row (games (session c')) ->
     as_int (got (dict_get1 game_data "gamePk")) = Ok (Game.game_id row) ->
     as_int (got (dict_get1 (got (payload_side_team game_data "home")) "id"))
       = Ok (Game.home_team_id row) /\
     as_int (got (dict_get1 (got (payload_side_team game_data "away")) "id"))
       = Ok (Game.away_team_id row)).
Proof.
  intros srv game_data c'.
  assert (H0 : map Game.home_team_id (games (store srv)) = [Some 10])
    by (vm_compute; reflexivity).
  assert (H1 : _insert_scheduled_game ymd_exact ymd_leading ymd_exact
                 game_data (PStr "2024-04-10") (connect srv) = (Ok true, c'))
    by (vm_compute; reflexivity).
  split; [split; assumption|].
  exact (X12_scheduled_game_rows_take_the_team_ids ymd_exact ymd_leading
           ymd_exact game_data (PStr "2024-04-10") (connect srv) c' H1).
Defined.

(** X14, witness: the sample game of 10 April is stored with home team
    10 and at_bats 4; April is cleared, and the payload is loaded with
    home team 30 and at_bats 5. *)
Lemma X14_clear_then_load_refreshes_witness :
  let load := load_json_to_database ymd_exact ymd_leading ymd_exact in
  let srv := snd (load sample_now sample_combined_path
                    (PDict (sample_combined 10 4)) sample_server) in
  let items := sample_combined 30 5 in
  let cleared := clear_date_range (2024, 4, 1) (2024, 4, 30) (connect srv) in
  let c := snd cleared in
  let srv0 := {| reachable := reachable srv;
                 autocommit_mode := autocommit_mode srv;
                 store := committed c |} in
  let srv' := snd (load sample_later sample_combined_path (PDict items)
                     srv0) in
  (contains sample_combined_path "combined_data" = true /\
   assoc "game_data" items = Some (sample_game_data 30 PNone) /\
   as_int (got (dict_get1 (PDict items) "game_id")) = Ok (Some 700001) /\
   games_with (Some 700001) (games (store srv)) <> [] /\
   (forall row, In row (games_with (Some 700001) (games (store srv))) ->
      in_date_range (2024, 4, 1) (2024, 4, 30) (Game.game_date row) = true) /\
   clear_date_range (2024, 4, 1) (2024, 4, 30) (connect srv)
     = (Ok [tt; tt], c) /\
   load sample_later sample_combined_path (PDict items) srv0
     = (Ok true, srv')) /\
  ((exists game_row,
      combined_game_line ymd_exact ymd_leading ymd_exact sample_later items
        (sample_game_data 30 PNone) = Ok game_row /\
      games_with (Some 700001) (games (store srv')) = [game_row]) /\
   (forall pid,
      (length (lines_with (Some 700001%Z) pid (boxscore (store srv')))
       <= 1)%nat) /\
   (forall row, In row (boxscore (store srv')) ->
                Boxscore.game_id row = Some 700001 ->
                In row (combined_lines items)) /\
   (forall row, In row (combined_lines items) ->
                Boxscore.player_id row <> None ->
                lines_with (Some 700001) (Boxscore.player_id row)
                  (boxscore (store srv')) <> [])).
Proof.
  intros load srv items cleared c srv0 srv'.
  assert (H1 : contains sample_combined_path "combined_data" = true)
    by (vm_compute; reflexivity).
  assert (H2 : assoc "game_data" items = Some (sample_game_data 30 PNone))
    by (vm_compute; reflexivity).
  assert (H3 : as_int (got (dict_get1 (PDict items) "game_id"))
               = Ok (Some 700001)) by (vm_compute; reflexivity).
  assert (H4 : games_with (Some 700001) (games (store srv)) <> [])
    by (vm_compute; discriminate).
  assert (H5 : forall row,
             In row (games_with (Some 700001) (games (store srv))) ->
             in_date_range (2024, 4, 1) (2024, 4, 30) (Game.game_date row)
             = true).
  { intros row Hrow. vm_compute in Hrow. destruct Hrow as [<-|[]].
    vm_compute. reflexivity. }
  assert (H6 : clear_date_range (2024, 4, 1) (2024, 4, 30) (connect srv)
               = (Ok [tt; tt], c)) by (vm_compute; reflexivity).
  assert (H7 : load sample_later sample_combined_path (PDict items) srv0
               = (Ok true, srv')) by (vm_compute; reflexivity).
  split; [repeat split; assumption|].
  exact (X14_clear_then_load_refreshes ymd_exact ymd_leading ymd_exact
           sample_later sample_combined_path items
           (sample_game_data 30 PNone) (Some 700001) (2024, 4, 1)
           (2024, 4, 30) srv [tt; tt] c srv' H1 H2 H3 H4 H5 H6 H7).
Defined.

(** X17, witness: three files in batches of two, the second of them
    empty. *)
Lemma X17_batches_cover_every_file_once_witness :
  let files :=
    [{| file_path := sample_combined_path;
        file_data := PDict (sample_combined 10 4);
        loaded_at := sample_now |};
     {| file_path := sample_boxscore_path;
        file_data := PDict [];
        loaded_at := sample_now |};
     {| file_path := sample_game_path;
        file_data := sample_game_data 10 PNone;
        loaded_at := sample_later |}] in
  let run := process_in_batches ymd_exact ymd_leading ymd_exact 2 files
               sample_server in
  (0 < 2)%nat /\
  (run = fold_m files (process_file ymd_exact ymd_leading ymd_exact)
           (0, 0, 0) sample_server /\
   exists successful failed,
     fst run = Ok (Z.of_nat (length files), successful, failed) /\
     0 <= successful /\ 0 <= failed /\
     successful + failed = Z.of_nat (length files)).
Proof.
  intros files run.
  assert (H : (0 < 2)%nat) by lia.
  split; [exact H|].
  exact (X17_batches_cover_every_file_once ymd_exact ymd_leading ymd_exact
           2%nat files sample_server H).
Defined.

(** X18, witness: the sample schedule of one game. *)
Lemma X18_schedule_script_answer_witness :
  let schedule_data := sample_schedule (PInt 700001) 10 in
  let run := load_schedule_for_date_range ymd_exact ymd_leading ymd_exact
               (Ok schedule_data) sample_server in
  schedule_shape schedule_data = true /\
  (fst run = Ok (match schedule_games schedule_data with
                 | [] => false
                 | _ :: _ => reachable sample_server
                 end) /\
   (schedule_games schedule_data = [] -> snd run = sample_server)).
Proof.
  intros schedule_data run.
  assert (H : schedule_shape schedule_data = true)
    by (vm_compute; reflexivity).
  split; [exact H|].
  exact (X18_schedule_script_answer ymd_exact ymd_leading ymd_exact
           schedule_data sample_server H).
Defined.

(** X20, witness: game 700001 of 10 April 2024. *)
Lemma X20_game_day_round_trip_witness :
  (1000 <= 2024 <= 9999 /\ 1 <= 4 <= 12 /\
   1 <= 10 <= days_in_month 2024 4) /\
  (json_file_name "20240411_093000" (combined_data_name 700001 (2024, 4, 10))
   = combined_data_name 700001 (2024, 4, 10) ++ ".json" /\
   extract_date_from_filename
     (json_file_name "20240411_093000"
        (combined_data_name 700001 (2024, 4, 10)))
   = Some (2024, 4, 10)).
Proof.
  assert (H1 : 1000 <= 2024 <= 9999) by lia.
  assert (H2 : 1 <= 4 <= 12) by lia.
  assert (H3 : 1 <= 10 <= days_in_month 2024 4)
    by (split; vm_compute; discriminate).
  split; [repeat split; first [apply H1 | apply H2 | apply H3]|].
  exact (X20_game_day_round_trip "20240411_093000" 700001 2024 4 10
           H1 H2 H3).
Defined.

(** X21, witness: the file of game 700002 of 10 April 2024, in a run
    over April on a store that holds game 700001 of the same day. *)
Lemma X21_incremental_run_goes_by_the_day_witness :
  let db := store (snd (load_json_to_database ymd_exact ymd_leading ymd_exact
                          sample_now sample_combined_path
                          (PDict (sample_combined 10 4)) sample_server)) in
  let name := json_file_name "20240411_093000"
                (combined_data_name 700002 (2024, 4, 10)) in
  (1000 <= 2024 <= 9999 /\ 1 <= 4 <= 12 /\
   1 <= 10 <= days_in_month 2024 4) /\
  file_fate_of (2024, 4, 1) (2024, 4, 30) false false
    (existing_dates (2024, 4, 1) (2024, 4, 30) db) name
  = if in_date_range (2024, 4, 1) (2024, 4, 30) (Some (2024, 4, 10))
    then if existsb (fun g => match Game.game_date g with
                              | Some stored => date_eqb (2024, 4, 10) stored
                              | None => false
                              end) (games db)
         then AlreadyLoaded
         else ToLoad
    else OutOfRange.
Proof.
  intros db name.
  assert (H1 : 1000 <= 2024 <= 9999) by lia.
  assert (H2 : 1 <= 4 <= 12) by lia.
  assert (H3 : 1 <= 10 <= days_in_month 2024 4)
    by (split; vm_compute; discriminate).
  split; [repeat split; first [apply H1 | apply H2 | apply H3]|].
  exact (X21_incremental_run_goes_by_the_day "20240411_093000" 700002
           2024 4 10 (2024, 4, 1) (2024, 4, 30) db H1 H2 H3).
Defined.

(** X6, witness: the key (700001, 501) has one line after a first load
    of the sample payload, and still one after a reload with other
    stats. *)
Lemma X6_file_load_keeps_line_keys_unique_witness :
  let load := load_json_to_database ymd_exact ymd_leading ymd_exact in
  let srv := snd (load sample_now sample_combined_path
                    (PDict (sample_combined 10 4)) sample_server) in
  let srv' := snd (load sample_later sample_combined_path
                     (PDict (sample_combined 10 5)) srv) in
  (length (lines_with (Some 700001%Z) (Some 501%Z) (boxscore (store srv)))
   <= 1)%nat /\
  (length (lines_with (Some 700001%Z) (Some 501%Z) (boxscore (store srv')))
   <= 1)%nat.
Proof.
  intros load srv srv'.
  assert (H : (length (lines_with (Some 700001%Z) (Some 501%Z)
                         (boxscore (store srv))) <= 1)%nat)
    by (vm_compute; lia).
  split; [exact H|].
  exact (X6_file_load_keeps_line_keys_unique ymd_exact ymd_leading ymd_exact
           sample_later sample_combined_path (PDict (sample_combined 10 5))
           srv (Some 700001) (Some 501) H).
Defined.

(** X22, witness: the writes for the sample game of a schedule, which
    return on an empty database. *)
Lemma X22_schedule_game_writes_anywhere_witness :
  let game := sample_scheduled_game 10 in
  let writes := schedule_game_writes ymd_exact ymd_exact game
                  (PStr "2024-04-10") in
  let db' := snd (writes empty_database) in
  writes empty_database = (Ok tt, db') /\
  exists gid,
    as_int (got (dict_get1 game "gamePk")) = Ok gid /\
    gid <> None /\
    forall db, exists db2,
      writes db = (Ok tt, db2) /\
      game_exists db2 gid = true.
Proof.
  intros game writes db'.
  assert (H : writes empty_database = (Ok tt, db'))
    by (vm_compute; reflexivity).
  split; [exact H|].
  exact (X22_schedule_game_writes_anywhere ymd_exact ymd_exact game
           (PStr "2024-04-10") db' H).
Defined.

(** X23, witness: the game of the sample schedule, which has no
    [gameDate], offered with the date of its schedule entry. *)
Lemma X23_scheduled_game_without_gameDate_witness :
  let game_data :=
    PDict [("gamePk", PInt 700001);
           ("gameType", PStr "R");
           ("teams",
             PDict [("home", PDict [("team", PDict [("id", PInt 10)])]);
                    ("away", PDict [("team", PDict [("id", PInt 20)])])]);
           ("status", PDict [("detailedState", PStr "Final")])] in
  let c := connect sample_server_no_autocommit in
  let run := _insert_scheduled_game ymd_exact ymd_leading ymd_exact
               game_data (PStr "2024-04-10") c in
  truthy (got (dict_get1 game_data "gameDate")) = false /\
  (fst run = Ok false /\
   games (session (snd run)) = games (session c)).
Proof.
  intros game_data c run.
  assert (H : truthy (got (dict_get1 game_data "gameDate")) = false)
    by reflexivity.
  split; [exact H|].
  exact (X23_scheduled_game_without_gameDate ymd_exact ymd_leading ymd_exact
           game_data (PStr "2024-04-10") c H).
Defined.
